(** * Menu extraction of the home dashboard (scripts/menu.py)

    A shallow embedding of [GoogleSheetsMenuParser]: the choice of the
    month tabs to probe, the probe of a tab for a date, the scan of a
    grid for the lunch and dinner texts of a date, and the batch
    operation [get_menus_for_dates], followed by the properties of the
    specification stated on that embedding.

    Conventions.
    - A Python [str] is a [string] whose characters are code points
      below 256; [isspace] and [lower] are Python's on that range.
    - A [datetime] is a record of integers (only year, month and day
      are read by the code); [valid_date] is the invariant Python
      maintains for every [datetime] object.
    - The Google Sheets client is an oracle whose answers may depend on
      the whole history of calls; every call is appended to a log.
    - A computation is a state transformer that ends in a value or in
      a raised exception; the state holds the call log and the [menus]
      dictionary, which (as the Python object) keeps its updates when an
      exception is raised.
    - Console output ([print]) is not part of the model. *)

From Stdlib Require Import ZArith Ascii String.
From stdpp Require Import gmap strings list fin_maps.

Local Open Scope string_scope.
Local Open Scope Z_scope.

(** ** Python string operations *)

Module Str.

(** [str.isspace] on one code point below 256. *)
Definition isspace (c : ascii) : bool :=
  let n := N_of_ascii c in
  (((9 <=? n) && (n <=? 13)) || ((28 <=? n) && (n <=? 32))
   || (n =? 133) || (n =? 160))%N.

(** [str.lower] on one code point below 256. *)
Definition lower_char (c : ascii) : ascii :=
  let n := N_of_ascii c in
  if (((65 <=? n) && (n <=? 90))
      || ((192 <=? n) && (n <=? 222) && negb (n =? 215)))%N
  then ascii_of_N (n + 32) else c.

Fixpoint lower (s : string) : string :=
  match s with
  | EmptyString => EmptyString
  | String c s' => String (lower_char c) (lower s')
  end.

Fixpoint lstrip (s : string) : string :=
  match s with
  | EmptyString => EmptyString
  | String c s' => if isspace c then lstrip s' else s
  end.

Fixpoint rstrip (s : string) : string :=
  match s with
  | EmptyString => EmptyString
  | String c s' =>
      match rstrip s' with
      | EmptyString => if isspace c then EmptyString else String c EmptyString
      | r => String c r
      end
  end.

(** [s.strip()] *)
Definition strip (s : string) : string := rstrip (lstrip s).

(** [sep in s] for a one-character [sep]. *)
Fixpoint contains (sep : ascii) (s : string) : bool :=
  match s with
  | EmptyString => false
  | String c s' => if Ascii.eqb c sep then true else contains sep s'
  end.

(** [s.split(sep)] for a one-character [sep]: consecutive separators
    delimit empty parts and the result is never empty. *)
Fixpoint split (sep : ascii) (s : string) : list string :=
  match s with
  | EmptyString => [EmptyString]
  | String c s' =>
      if Ascii.eqb c sep then EmptyString :: split sep s'
      else match split sep s' with
           | p :: ps => String c p :: ps
           | [] => [String c EmptyString]
           end
  end.

(** Truth value of a string: non-empty. *)
Definition truthy (s : string) : bool :=
  match s with EmptyString => false | _ => true end.

Definition digit (n : Z) : ascii := ascii_of_N (48 + Z.to_N n).

(** Decimal rendering on two (["%02d"]) and four digits. *)
Definition zfill2 (n : Z) : string :=
  String (digit (n / 10 mod 10)) (String (digit (n mod 10)) EmptyString).

Definition zfill4 (n : Z) : string :=
  String (digit (n / 1000 mod 10))
    (String (digit (n / 100 mod 10)) (zfill2 n)).

End Str.

(** ** Dates *)

Record datetime := mkdate { year : Z; month : Z; day : Z }.

Definition is_leap (y : Z) : bool :=
  (y mod 4 =? 0) && (negb (y mod 100 =? 0) || (y mod 400 =? 0)).

(** Number of days of month [m] of year [y] in the calendar of Python's
    [datetime]. *)
Definition calendar_days (y m : Z) : Z :=
  if m =? 2 then (if is_leap y then 29 else 28)
  else if (m =? 4) || (m =? 6) || (m =? 9) || (m =? 11) then 30
  else 31.

(** The invariant of a [datetime] object. *)
Definition valid_date (d : datetime) : Prop :=
  1 <= year d <= 9999 /\ 1 <= month d <= 12 /\
  1 <= day d <= calendar_days (year d) (month d).

(** [(datetime(y, m, 1) - timedelta(days=1)).day] for [2 <= m <= 12]:
    the day before the first of month [m] is the last day of month
    [m - 1]. *)
Definition day_before_first (y m : Z) : Z := calendar_days y (m - 1).

(** [d.strftime('%d/%m')] *)
Definition strftime_dm (d : datetime) : string :=
  Str.zfill2 (day d) +:+ "/" +:+ Str.zfill2 (month d).

(** [d.strftime('%Y-%m-%d')] *)
Definition strftime_ymd (d : datetime) : string :=
  Str.zfill4 (year d) +:+ "-" +:+ Str.zfill2 (month d) +:+ "-"
  +:+ Str.zfill2 (day d).

(** ** Tab candidate selection (determine_sheet_for_date, lines 63-97) *)

(** The dictionary [month_names]; a key outside 1..12 is a [KeyError]. *)
Definition month_names (m : Z) : option string :=
  match m with
  | 1 => Some "Janvier" | 2 => Some "Fevrier" | 3 => Some "Mars"
  | 4 => Some "Avril" | 5 => Some "Mai" | 6 => Some "Juin"
  | 7 => Some "Juillet" | 8 => Some "Aout" | 9 => Some "Septembre"
  | 10 => Some "Octobre" | 11 => Some "Novembre" | 12 => Some "Decembre"
  | _ => None
  end.

(** The list [months_to_check] as it stands when the probing loop
    starts. *)
Definition months_to_check (target_date : datetime) : list Z :=
  let target_month := month target_date in
  let months := [target_month] in
  let months :=
    if day target_date <=? 7 then
      let prev_month := if 1 <? target_month then target_month - 1 else 12 in
      prev_month :: months
    else months in
  let '(days_in_month, next_month) :=
    if target_month =? 12 then (31, 1)
    else (day_before_first (year target_date) (target_month + 1),
          target_month + 1) in
  if days_in_month - 7 <=? day target_date then months ++ [next_month]
  else months.

(** The tab names in probing order: [month_names[m]] for each month of
    [months_to_check]; [None] when a lookup would raise. *)
Definition candidates (target_date : datetime) : option (list string) :=
  mapM month_names (months_to_check target_date).

Local Close Scope Z_scope.
Local Open Scope list_scope.

(** ** Computations: call log, menus dictionary, exceptions *)

Inductive exn := IndexError | KeyError | WorksheetNotFound | APIError.

Inductive Result (A : Type) :=
  | Ok (a : A)
  | Raise (e : exn).
Arguments Ok {A} a.
Arguments Raise {A} e.

(** The calls made to the Google Sheets client. *)
Inductive call :=
  | OpenByKey
  | GetWorksheet (title : string)
  | ListWorksheets
  | GetAllValues (title : string).

#[global] Instance call_eq_dec : EqDecision call.
Proof. solve_decision. Defined.

(** The value of [menus[date_key]]: [{'midi': ..., 'soir': ...}]. *)
Record MenuEntry := mkentry { midi : string; soir : string }.

Abbreviation Row := (list string) (only parsing).
Abbreviation Grid := (list (list string)) (only parsing).

Record State := mkstate {
  calls : list call;
  menus : gmap string MenuEntry
}.

Definition M (A : Type) : Type := State -> State * Result A.

#[global] Instance M_ret : MRet M := fun A a st => (st, Ok a).

#[global] Instance M_bind : MBind M := fun A B f m st =>
  match m st with
  | (st', Ok a) => f a st'
  | (st', Raise e) => (st', Raise e)
  end.

Definition raise {A} (e : exn) : M A := fun st => (st, Raise e).

(** [try: body except Exception as e: handler e] *)
Definition try_except {A} (body : M A) (handler : exn -> M A) : M A :=
  fun st =>
    match body st with
    | (st', Ok a) => (st', Ok a)
    | (st', Raise e) => handler e st'
    end.

(** [l[i]] for [i >= 0], and [l[-1]]. *)
Definition getitem {A} (l : list A) (i : nat) : M A :=
  match l !! i with
  | Some x => mret x
  | None => raise IndexError
  end.

Definition getitem_last {A} (l : list A) : M A :=
  match last l with
  | Some x => mret x
  | None => raise IndexError
  end.

(** ** The Google Sheets client *)

(** Answers of the client; each may depend on the calls made before.
    A worksheet handle is identified by its title: [worksheet(name)]
    returns the sheet whose title is [name]. *)
Record Sheets := mksheets {
  answer_open : list call -> Result unit;
  answer_worksheet : list call -> string -> Result unit;
  answer_worksheets : list call -> Result unit;
  answer_values : list call -> string -> Result Grid
}.

Definition ask {A} (c : call) (answer : list call -> Result A) : M A :=
  fun st => (mkstate (calls st ++ [c]) (menus st), answer (calls st)).

Section Client.
Variable w : Sheets.

(** [self.gc.open_by_key(self.spreadsheet_id)] *)
Definition open_by_key : M unit := ask OpenByKey (answer_open w).

(** [spreadsheet.worksheet(month_name)] *)
Definition worksheet (month_name : string) : M string :=
  _ ← ask (GetWorksheet month_name)
        (fun log => answer_worksheet w log month_name);
  mret month_name.

(** [spreadsheet.worksheets()] *)
Definition worksheets : M unit := ask ListWorksheets (answer_worksheets w).

(** [worksheet.get_all_values()] *)
Definition get_all_values (title : string) : M Grid :=
  ask (GetAllValues title) (fun log => answer_values w log title).

(** ** date_exists_in_sheet (lines 122-140) *)

(** The inner loop over the cells of a row; [true] is [return True]. *)
Fixpoint exists_in_row (target_date_str : string) (row : Row) : M bool :=
  match row with
  | [] => mret false
  | cell :: rest =>
      if Str.truthy cell && Str.contains " " cell then
        let parts := Str.split " " (Str.strip cell) in
        if (2 <=? length parts)%nat then
          date_part ← getitem_last parts;
          if String.eqb date_part target_date_str then mret true
          else exists_in_row target_date_str rest
        else exists_in_row target_date_str rest
      else exists_in_row target_date_str rest
  end.

Fixpoint exists_in_rows (target_date_str : string) (rows : Grid) : M bool :=
  match rows with
  | [] => mret false
  | row :: rest =>
      found ← exists_in_row target_date_str row;
      if found : bool then mret true else exists_in_rows target_date_str rest
  end.

Definition date_exists_in_sheet (worksheet : string)
    (target_date : datetime) : M bool :=
  try_except
    (all_values ← get_all_values worksheet;
     let target_date_str := strftime_dm target_date in
     exists_in_rows target_date_str all_values)
    (fun _ => mret false).

(** ** determine_sheet_for_date (lines 56-120) *)

Definition lookup_month (month_num : Z) : M string :=
  match month_names month_num with
  | Some name => mret name
  | None => raise KeyError
  end.

(** The loop [for month_num in months_to_check]; [Some ws] is
    [return worksheet], [None] is the end of the loop. *)
Fixpoint probe_months (target_date : datetime) (months : list Z)
    : M (option string) :=
  match months with
  | [] => mret None
  | month_num :: rest =>
      month_name ← lookup_month month_num;
      found ← try_except
                (ws ← worksheet month_name;
                 b ← date_exists_in_sheet ws target_date;
                 mret (if b : bool then Some ws else None))
                (fun _ => mret None);
      match found with
      | Some ws => mret (Some ws)
      | None => probe_months target_date rest
      end
  end.

Definition determine_sheet_for_date (target_date : datetime)
    : M (option string) :=
  _ ← open_by_key;
  r ← probe_months target_date (months_to_check target_date);
  match r with
  | Some ws => mret (Some ws)
  | None =>
      _ ← try_except (_ ← open_by_key; worksheets) (fun _ => mret tt);
      mret None
  end.

End Client.

(** ** The [menus] dictionary *)

(** [menus = {}] *)
Definition menus_new : M unit :=
  fun st => (mkstate (calls st) ∅, Ok tt).

(** The value of the variable [menus]. *)
Definition menus_get : M (gmap string MenuEntry) :=
  fun st => (st, Ok (menus st)).

(** [menus[date_key] = entry] *)
Definition menus_setitem (date_key : string) (entry : MenuEntry) : M unit :=
  fun st => (mkstate (calls st) (<[date_key := entry]> (menus st)), Ok tt).

(** [menus[date_key]['midi'] = text] *)
Definition menus_set_midi (date_key text : string) : M unit :=
  fun st =>
    match menus st !! date_key with
    | Some entry =>
        (mkstate (calls st)
           (<[date_key := mkentry text (soir entry)]> (menus st)), Ok tt)
    | None => (st, Raise KeyError)
    end.

(** [menus[date_key]['soir'] = text] *)
Definition menus_set_soir (date_key text : string) : M unit :=
  fun st =>
    match menus st !! date_key with
    | Some entry =>
        (mkstate (calls st)
           (<[date_key := mkentry (midi entry) text]> (menus st)), Ok tt)
    | None => (st, Raise KeyError)
    end.

(** ** The grid scan of get_menus_for_dates (lines 179-225) *)

(** Lines 204-209: the row after the date row, if labelled "midi". *)
Definition take_midi (all_values : Grid) (i col_idx : nat)
    (date_key : string) : M unit :=
  if (i + 1 <? length all_values)%nat then
    midi_row ← getitem all_values (i + 1);
    if (col_idx <? length midi_row)%nat then
      label ← getitem midi_row 0;
      if String.eqb (Str.lower (Str.strip label)) "midi" then
        text ← getitem midi_row col_idx;
        menus_set_midi date_key (Str.strip text)
      else mret tt
    else mret tt
  else mret tt.

(** Lines 211-216: the second row after the date row, if labelled
    "soir". *)
Definition take_soir (all_values : Grid) (i col_idx : nat)
    (date_key : string) : M unit :=
  if (i + 2 <? length all_values)%nat then
    soir_row ← getitem all_values (i + 2);
    if (col_idx <? length soir_row)%nat then
      label ← getitem soir_row 0;
      if String.eqb (Str.lower (Str.strip label)) "soir" then
        text ← getitem soir_row col_idx;
        menus_set_soir date_key (Str.strip text)
      else mret tt
    else mret tt
  else mret tt.

(** Lines 192-218: the loop over [enumerate(row[1:], 1)]; [cells] is
    what remains of [row[1:]] and [col_idx] the index of its head. The
    result is [date_found_in_row]. *)
Fixpoint scan_cols (all_values : Grid) (i : nat)
    (date_key target_date_str : string) (cells : list string)
    (col_idx : nat) : M bool :=
  match cells with
  | [] => mret false
  | cell :: rest =>
      if Str.truthy cell && Str.contains " " cell then
        let parts := Str.split " " (Str.strip cell) in
        if (2 <=? length parts)%nat then
          date_part ← getitem_last parts;
          if String.eqb date_part target_date_str then
            _ ← menus_setitem date_key (mkentry "" "");
            _ ← take_midi all_values i col_idx date_key;
            _ ← take_soir all_values i col_idx date_key;
            mret true
          else scan_cols all_values i date_key target_date_str rest (S col_idx)
        else scan_cols all_values i date_key target_date_str rest (S col_idx)
      else scan_cols all_values i date_key target_date_str rest (S col_idx)
  end.

(** Lines 183-225: the loop [while i < len(all_values)]; [rows] is
    [all_values[i:]], so its head is [row = all_values[i]] and the loop
    ends when it is empty. *)
Fixpoint scan_rows (all_values : Grid) (date_key target_date_str : string)
    (rows : Grid) (i : nat) : M unit :=
  match rows with
  | [] => mret tt
  | row :: rest =>
      if (1 <? length row)%nat then
        first ← getitem row 0;
        if String.eqb first "" || negb (Str.truthy (Str.strip first)) then
          date_found_in_row ←
            scan_cols all_values i date_key target_date_str (drop 1 row) 1;
          if date_found_in_row : bool then mret tt
          else scan_rows all_values date_key target_date_str rest (S i)
        else scan_rows all_values date_key target_date_str rest (S i)
      else scan_rows all_values date_key target_date_str rest (S i)
  end.

(** The body of [for target_date in dates_for_this_sheet]: the
    extraction of one date from a fetched grid. *)
Definition scan_date (all_values : Grid) (target_date : datetime) : M unit :=
  let date_key := strftime_ymd target_date in
  let target_date_str := strftime_dm target_date in
  scan_rows all_values date_key target_date_str all_values 0.

Fixpoint scan_dates (all_values : Grid) (dates : list datetime) : M unit :=
  match dates with
  | [] => mret tt
  | target_date :: rest =>
      _ ← scan_date all_values target_date;
      scan_dates all_values rest
  end.

(** ** get_menus_for_dates (lines 142-230) *)

(** What [setup_connection] depends on: the import of gspread, the
    presence of the credentials file, the outcome of the
    authentication. *)
Record Env := mkenv {
  GSPREAD_AVAILABLE : bool;
  credentials_file_exists : bool;
  authorize_succeeds : bool
}.

Definition setup_connection (env : Env) : bool :=
  if negb (GSPREAD_AVAILABLE env) then false
  else if negb (credentials_file_exists env) then false
  else if authorize_succeeds env then true
  else false.

(** [dates_by_worksheet]: a dictionary in insertion order, from the
    worksheet title to the dates of that worksheet. *)
Abbreviation Groups := (list (string * list datetime)) (only parsing).

(** Lines 160-166 on [dates_by_worksheet]. *)
Fixpoint add_date (worksheet_title : string) (target_date : datetime)
    (dates_by_worksheet : Groups) : Groups :=
  match dates_by_worksheet with
  | [] => [(worksheet_title, [target_date])]
  | (title, dates) :: rest =>
      if String.eqb title worksheet_title
      then (title, (dates ++ [target_date])%list) :: rest
      else (title, dates) :: add_date worksheet_title target_date rest
  end.

Section Batch.
Variable w : Sheets.

(** Lines 153-166. *)
Fixpoint group_dates (target_dates : list datetime)
    (dates_by_worksheet : Groups) : M Groups :=
  match target_dates with
  | [] => mret dates_by_worksheet
  | target_date :: rest =>
      ws ← determine_sheet_for_date w target_date;
      match ws with
      | None => group_dates rest dates_by_worksheet
      | Some ws =>
          group_dates rest (add_date ws target_date dates_by_worksheet)
      end
  end.

(** Lines 169-228. *)
Fixpoint process_worksheets (dates_by_worksheet : Groups) : M unit :=
  match dates_by_worksheet with
  | [] => mret tt
  | (ws, dates_for_this_sheet) :: rest =>
      _ ← try_except
            (all_values ← get_all_values w ws;
             scan_dates all_values dates_for_this_sheet)
            (fun _ => mret tt);
      process_worksheets rest
  end.

Definition get_menus_for_dates (env : Env) (target_dates : list datetime)
    : M (gmap string MenuEntry) :=
  if negb (setup_connection env) then mret ∅
  else
    _ ← menus_new;
    dates_by_worksheet ← group_dates target_dates [];
    _ ← process_worksheets dates_by_worksheet;
    menus_get.

End Batch.

(** ** A client with fixed content, for examples *)

Definition fixed_sheets (tabs : list (string * Grid)) : Sheets :=
  mksheets
    (fun _ => Ok tt)
    (fun _ name =>
       match list_find (fun t => String.eqb (fst t) name = true) tabs with
       | Some _ => Ok tt
       | None => Raise WorksheetNotFound
       end)
    (fun _ => Ok tt)
    (fun _ name =>
       match list_find (fun t => String.eqb (fst t) name = true) tabs with
       | Some (_, t) => Ok (snd t)
       | None => Raise APIError
       end).

Definition state0 : State := mkstate [] ∅.

Definition grid_june : Grid :=
  [ [""; "lundi 30/06"; "mardi 01/07"];
    ["Midi"; "Pates"; "Riz"];
    ["Soir"; "Soupe"; "Salade"] ].

(** ** Reading the scans as searches *)

(** The test both scans apply to a cell (lines 131-136 and 193-198):
    non-empty, containing a space, and, once stripped and split on the
    space character, of at least two parts the last of which is the
    target rendering. *)
Definition cell_has_date (target_date_str cell : string) : bool :=
  Str.truthy cell && Str.contains " " cell
  && (2 <=? length (Str.split " " (Str.strip cell)))%nat
  && match last (Str.split " " (Str.strip cell)) with
     | Some date_part => String.eqb date_part target_date_str
     | None => false
     end.

Definition grid_has_date (target_date_str : string) (g : Grid) : bool :=
  existsb (existsb (cell_has_date target_date_str)) g.

(** The test of line 188 on a row. *)
Definition header_candidate (row : Row) : bool :=
  (1 <? length row)%nat
  && match row !! 0%nat with
     | Some first => String.eqb first "" || negb (Str.truthy (Str.strip first))
     | None => false
     end.

(** Index of the first cell of [cells] that passes the test, counted
    from [col_idx]. *)
Fixpoint find_col (target_date_str : string) (cells : list string)
    (col_idx : nat) : option nat :=
  match cells with
  | [] => None
  | cell :: rest =>
      if cell_has_date target_date_str cell then Some col_idx
      else find_col target_date_str rest (S col_idx)
  end.

(** Position of the first match: the first header-candidate row, from
    index [i] on, with a matching cell beyond column 0, and the first
    such column. *)
Fixpoint find_match (target_date_str : string) (rows : Grid) (i : nat)
    : option (nat * nat) :=
  match rows with
  | [] => None
  | row :: rest =>
      if header_candidate row then
        match find_col target_date_str (drop 1 row) 1 with
        | Some c => Some (i, c)
        | None => find_match target_date_str rest (S i)
        end
      else find_match target_date_str rest (S i)
  end.

(** The text read in row [j] under column [c] when that row exists, is
    longer than [c] and carries [label] in column 0; empty otherwise. *)
Definition label_text (g : Grid) (j c : nat) (label : string) : string :=
  match g !! j with
  | Some row =>
      match row !! 0%nat, row !! c with
      | Some first, Some text =>
          if String.eqb (Str.lower (Str.strip first)) label
          then Str.strip text else ""
      | _, _ => ""
      end
  | None => ""
  end.

Definition entry_at (g : Grid) (i c : nat) : MenuEntry :=
  mkentry (label_text g (i + 1) c "midi") (label_text g (i + 2) c "soir").

(** A date cell in reading position [(i, c)]: row [i] is a header
    candidate, [c] is not column 0, and the cell passes the test. *)
Definition match_at (target_date_str : string) (g : Grid) (i c : nat)
    : Prop :=
  exists row cell,
    g !! i = Some row /\ header_candidate row = true /\ 1 <= c /\
    row !! c = Some cell /\ cell_has_date target_date_str cell = true.

(** Reading order: top to bottom, then left to right. *)
Definition reads_before (p q : nat * nat) : Prop :=
  fst p < fst q \/ (fst p = fst q /\ snd p <= snd q).

(** ** Tactics *)

Ltac norm_app := repeat (rewrite <- ?app_assoc; progress cbn [app]).

(** ** The probes of the resolver as a trace *)

Section Trace.
Variable w : Sheets.

(** Outcome of the probe of tab [name] made after the calls [log]:
    the worksheet is found, its values are fetched and hold the date. *)
Definition probe_ok (key : string) (log : list call) (name : string) : bool :=
  match answer_worksheet w log name with
  | Ok _ =>
      match answer_values w (log ++ [GetWorksheet name]) name with
      | Ok g => grid_has_date key g
      | Raise _ => false
      end
  | Raise _ => false
  end.

(** Calls made by that probe. *)
Definition probe_calls (log : list call) (name : string) : list call :=
  match answer_worksheet w log name with
  | Ok _ => [GetWorksheet name; GetAllValues name]
  | Raise _ => [GetWorksheet name]
  end.

(** Calls and outcome of the probes of [names], in order, up to the
    first that succeeds. *)
Fixpoint probe_trace (key : string) (log : list call) (names : list string)
    : list call * option string :=
  match names with
  | [] => ([], None)
  | name :: rest =>
      let cs := probe_calls log name in
      if probe_ok key log name then (cs, Some name)
      else
        let '(cs', r) := probe_trace key (log ++ cs) rest in
        (cs ++ cs', r)
  end.

(** Calls of lines 114-118, made when no candidate holds the date. *)
Definition listing_calls (log : list call) : list call :=
  match answer_open w log with
  | Ok _ => [OpenByKey; ListWorksheets]
  | Raise _ => [OpenByKey]
  end.

(** Calls and result of [determine_sheet_for_date] after the calls
    [log], for the candidate tabs [names]. *)
Definition resolve_trace (key : string) (log : list call)
    (names : list string) : list call * Result (option string) :=
  match answer_open w log with
  | Raise e => ([OpenByKey], Raise e)
  | Ok _ =>
      let '(cs, r) := probe_trace key (log ++ [OpenByKey]) names in
      match r with
      | Some name => (OpenByKey :: cs, Ok (Some name))
      | None =>
          (OpenByKey :: cs
             ++ listing_calls (log ++ OpenByKey :: cs), Ok None)
      end
  end.

End Trace.

(** ** Observations on the call log *)

(** The titles asked of [spreadsheet.worksheet], in call order. *)
Definition worksheet_titles (cs : list call) : list string :=
  omap (fun c => match c with GetWorksheet t => Some t | _ => None end) cs.

(** Number of [get_all_values] calls on the tab [title]. *)
Definition fetch_count (title : string) (cs : list call) : nat :=
  length (filter (fun c => c = GetAllValues title) cs).

(** A client whose worksheets and values do not change with the calls
    made before. *)
Definition history_free (w : Sheets) : Prop :=
  forall log log' name,
    answer_worksheet w log name = answer_worksheet w log' name /\
    answer_values w log name = answer_values w log' name.

(** For such a client: the tab exists, can be fetched and some cell of
    its grid carries the date. *)
Definition tab_holds_date (w : Sheets) (key name : string) : bool :=
  probe_ok w key [] name.

(** ** The dictionary built by the second loop *)

(** Effect of the extraction of one date on the dictionary. *)
Definition extract_into (g : Grid) (m : gmap string MenuEntry)
    (d : datetime) : gmap string MenuEntry :=
  match find_match (strftime_dm d) g 0 with
  | Some (i, c) => <[strftime_ymd d := entry_at g i c]> m
  | None => m
  end.

(** The dictionary after the second loop, started after the calls
    [log] with the dictionary [m]. *)
Fixpoint processed_menus (w : Sheets) (groups : Groups) (log : list call)
    (m : gmap string MenuEntry) : gmap string MenuEntry :=
  match groups with
  | [] => m
  | (ws, dates) :: rest =>
      processed_menus w rest (log ++ [GetAllValues ws])
        match answer_values w log ws with
        | Ok g => foldl (extract_into g) m dates
        | Raise _ => m
        end
  end.

(** ** Readings in the words of the specification, and sample grids *)

(** The cell test in the words of the specification: the last of the
    whitespace-separated tokens of the cell (Python's [cell.split()])
    is the target rendering. *)
Fixpoint tokens (s : string) : list string :=
  match s with
  | EmptyString => []
  | String c s' =>
      if Str.isspace c then tokens s'
      else
        match s' with
        | EmptyString => [String c EmptyString]
        | String c' _ =>
            if Str.isspace c' then String c EmptyString :: tokens s'
            else match tokens s' with
                 | t :: ts => String c t :: ts
                 | [] => [String c EmptyString]
                 end
        end
  end.

Definition last_token_is (target_date_str cell : string) : bool :=
  match last (tokens cell) with
  | Some t => String.eqb t target_date_str
  | None => false
  end.

(** A cell in reading position [(i, c)] that matches in those words. *)
Definition token_match_at (target_date_str : string) (g : list (list string))
    (i c : nat) : Prop :=
  exists row cell,
    g !! i = Some row /\ header_candidate row = true /\ 1 <= c /\
    row !! c = Some cell /\ last_token_is target_date_str cell = true.

(** Two date cells for 30/06: the entry comes from the first one in
    reading order, row 0 column 2, not from row 3. *)
Definition grid_twice : list (list string) :=
  [ [""; "x"; "lundi 30/06"];
    ["Midi"; "a"; "Pates"];
    ["Soir"; "b"; "Soupe"];
    [""; "lundi 30/06"; ""];
    ["Midi"; "Frites"; ""];
    ["Soir"; "Oeufs"; ""] ].

(** A header row whose column 1 holds the date alone after a space:
    its last whitespace-separated token is the date, but the code asks
    for two parts around a space and matches column 2. *)
Definition grid_lone_date : list (list string) :=
  [ [""; " 30/06"; "lundi 30/06"];
    ["Midi"; "Soupe"; "Pates"];
    ["Soir"; "Oeufs"; "Riz"] ].

(** The probe in the words of the specification: the tab exists, its
    grid can be fetched and some cell's last whitespace-separated token
    is the target rendering. *)
Definition tab_has_trailing_token (w : Sheets) (key name : string) : bool :=
  match answer_worksheet w [] name with
  | Ok _ =>
      match answer_values w [GetWorksheet name] name with
      | Ok g => existsb (existsb (last_token_is key)) g
      | Raise _ => false
      end
  | Raise _ => false
  end.

(** Two tabs that name the 30th of June: in "Juin" the date stands
    alone after a space, in "Juillet" it follows a day name. *)
Definition sheets_lone_date : Sheets :=
  fixed_sheets [ ("Juin", [ [""; " 30/06"] ]);
                 ("Juillet", [ [""; "lundi 30/06"] ]) ].

(** The reading of a label row in the words of the specification: the
    text of row [j] under column [c], stripped, when row [j] exists, is
    longer than [c] and has [label] as its column-0 text once stripped
    and lowercased; the empty string otherwise. *)
Definition label_checked_text (g : list (list string)) (j c : nat)
    (label : string) : string :=
  if (j <? length g)%nat
     && (c <? length (nth j g []))%nat
     && String.eqb (Str.lower (Str.strip (nth 0 (nth j g []) ""))) label
  then Str.strip (nth c (nth j g []) "")
  else "".

(** A date row followed by rows that are not labelled: both fields are
    empty and nothing is raised. *)
Definition grid_unlabelled : list (list string) :=
  [ [""; "lundi 30/06"]; ["Dejeuner"; "Pates"]; [""; "Soupe"] ].

Definition env_ok : Env := mkenv true true true.

(** A tab whose only date cell for 30/06 sits in a row that is not a
    header candidate. *)
Definition grid_column0 : list (list string) := [ ["lundi 30/06"] ].

(** Every group holds at least one date, and only requested dates. *)
Definition groups_from (dates : list datetime) (groups : Groups) : Prop :=
  Forall (fun grp => grp.2 <> [] /\ forall d, d ∈ grp.2 -> d ∈ dates) groups.

(** ** The rest of the program: menu_fetcher.py and display_eink.py *)

(** The range check of the [datetime] constructor on its year, month
    and day. *)
Definition date_fields_ok (y m d : Z) : bool :=
  ((1 <=? y) && (y <=? 9999) && (1 <=? m) && (m <=? 12)
   && (1 <=? d) && (d <=? calendar_days y m))%Z.

(** A [get_all_values] call, on whatever tab. *)
Definition is_fetch (c : call) : bool :=
  match c with GetAllValues _ => true | _ => false end.

(** Number of grid fetches among the calls [cs]. *)
Definition fetches (cs : list call) : nat := length (List.filter is_fetch cs).

(** For a client that does not change: the tab [determine_sheet_for_date]
    returns for [d], the first candidate that holds the date. *)
Definition resolve (w : Sheets) (d : datetime) : option string :=
  match candidates d with
  | Some names => find (tab_holds_date w (strftime_dm d)) names
  | None => None
  end.

(** For a client that does not change: the entry read for [d] under the
    first match in the grid of the tab [d] resolves to, if any. *)
Definition expected_entry (w : Sheets) (d : datetime) : option MenuEntry :=
  match resolve w d with
  | Some t =>
      match answer_values w [] t with
      | Ok g =>
          match find_match (strftime_dm d) g 0 with
          | Some (i, c) => Some (entry_at g i c)
          | None => None
          end
      | Raise _ => None
      end
  | None => None
  end.

(** The dictionary [m] holds exactly the expected entries of the dates
    that satisfy [P]: every entry is the expected entry of such a date,
    under its key, and every such date with an expected entry has it. *)
Definition holds_expected (w : Sheets) (m : gmap string MenuEntry)
    (P : datetime -> Prop) : Prop :=
  (forall key e, m !! key = Some e ->
     exists d, P d /\ strftime_ymd d = key /\ expected_entry w d = Some e) /\
  (forall d e, P d -> expected_entry w d = Some e ->
     m !! strftime_ymd d = Some e).

(** ** menu_fetcher.py *)

Module MenuFetcher.

(** The exceptions of this script. A [RuntimeError] and the errors main
    reports carry a message in Python; the message is not modelled. *)
Inductive error :=
  | ValueError
  | IndexError
  | OverflowError
  | FileNotFoundError
  | RuntimeError.

Inductive Try (A : Type) :=
  | Done (a : A)
  | Fail (e : error).
Arguments Done {A} a.
Arguments Fail {A} e.

#[global] Instance Try_ret : MRet Try := fun A a => Done a.

#[global] Instance Try_bind : MBind Try := fun A B f m =>
  match m with
  | Done a => f a
  | Fail e => Fail e
  end.

(** [l[i]] for [i >= 0]. *)
Definition item {A} (l : list A) (i : nat) : Try A :=
  match l !! i with
  | Some x => Done x
  | None => Fail IndexError
  end.

(** A C [int], the type the [datetime] constructor converts its
    arguments to. *)
Definition fits_c_int (n : Z) : bool :=
  ((- 2 ^ 31 <=? n) && (n <? 2 ^ 31))%Z.

(** [datetime(year, month, day)]: [OverflowError] when an argument does
    not fit a C int, [ValueError] when the fields are out of range. *)
Definition datetime_new (y m d : Z) : Try datetime :=
  if fits_c_int y && fits_c_int m && fits_c_int d then
    if date_fields_ok y m d then Done (mkdate y m d) else Fail ValueError
  else Fail OverflowError.

(** [d + timedelta(days=1)]: [OverflowError] after 9999-12-31. *)
Definition add_one_day (d : datetime) : Try datetime :=
  if (day d <? calendar_days (year d) (month d))%Z
  then Done (mkdate (year d) (month d) (day d + 1))
  else if (month d <? 12)%Z then Done (mkdate (year d) (month d + 1) 1)
  else if (year d <? 9999)%Z then Done (mkdate (year d + 1) 1 1)
  else Fail OverflowError.

(** Days before January 1st of year [y], and before the first of month
    [m] in year [y]; the proleptic Gregorian ordinal of a date, and its
    weekday with Monday as 0 ([date.weekday()]). *)
Definition days_before_year (y : Z) : Z :=
  ((y - 1) * 365 + (y - 1) / 4 - (y - 1) / 100 + (y - 1) / 400)%Z.

Definition days_before_month (y m : Z) : Z :=
  foldr Z.add 0%Z (map (calendar_days y) (map Z.of_nat (seq 1 (Z.to_nat (m - 1))))).

Definition toordinal (d : datetime) : Z :=
  (days_before_year (year d) + days_before_month (year d) (month d) + day d)%Z.

Definition weekday (d : datetime) : Z := ((toordinal d + 6) mod 7)%Z.

(** ['%A'] in the C locale, the one in force since the script never
    calls [setlocale]. *)
Definition day_name (d : datetime) : string :=
  match weekday d with
  | 0 => "Monday" | 1 => "Tuesday" | 2 => "Wednesday" | 3 => "Thursday"
  | 4 => "Friday" | 5 => "Saturday" | _ => "Sunday"
  end%Z.

(** [d.strftime('%A %d/%m/%Y')] *)
Definition strftime_A_dmY (d : datetime) : string :=
  day_name d +:+ " " +:+ Str.zfill2 (day d) +:+ "/" +:+ Str.zfill2 (month d)
  +:+ "/" +:+ Str.zfill4 (year d).

(** [d.strftime('%d/%m/%Y')], the form of the [--date] option. *)
Definition strftime_dmY (d : datetime) : string :=
  Str.zfill2 (day d) +:+ "/" +:+ Str.zfill2 (month d) +:+ "/"
  +:+ Str.zfill4 (year d).

Section ParseDate.

(** Python's [int] on a string; [None] stands for its [ValueError]. *)
Variable int : string -> option Z.

Definition int_of (s : string) : Try Z :=
  match int s with
  | Some n => Done n
  | None => Fail ValueError
  end.

(** The body of the [try] of [parse_date_string] (lines 22-33); [now] is
    [datetime.now()]. *)
Definition parse_date_fields (now : datetime) (date_str : string)
    : Try datetime :=
  let parts := Str.split "/" date_str in
  if (length parts =? 2)%nat then
    p0 ← item parts 0; day ← int_of p0;
    p1 ← item parts 1; month ← int_of p1;
    let year := year now in
    datetime_new year month day
  else if (length parts =? 3)%nat then
    p0 ← item parts 0; day ← int_of p0;
    p1 ← item parts 1; month ← int_of p1;
    p2 ← item parts 2; year ← int_of p2;
    datetime_new year month day
  else Fail ValueError.

(** [parse_date_string] (lines 19-35): a [ValueError] or an
    [IndexError] of the body is raised again as a [ValueError]; any
    other exception passes. *)
Definition parse_date_string (now : datetime) (date_str : string)
    : Try datetime :=
  match parse_date_fields now date_str with
  | Done d => Done d
  | Fail ValueError => Fail ValueError
  | Fail IndexError => Fail ValueError
  | Fail e => Fail e
  end.

End ParseDate.

(** The value of one day in the result of [get_menu_data]: the keys
    "date", "midi" and "soir". *)
Record DayMenu := mkday {
  date_text : string;
  midi_text : string;
  soir_text : string
}.

(** The result of [get_menu_data]: the keys "today" and "tomorrow". *)
Record MenuData := mkdata { today : DayMenu; tomorrow : DayMenu }.

(** [raw_menus.get(key, {}).get('midi', '')] and the same for 'soir'. *)
Definition get_midi (raw_menus : gmap string MenuEntry) (key : string)
    : string :=
  match raw_menus !! key with
  | Some entry => midi entry
  | None => ""
  end.

Definition get_soir (raw_menus : gmap string MenuEntry) (key : string)
    : string :=
  match raw_menus !! key with
  | Some entry => soir entry
  | None => ""
  end.

(** Lines 59-73. *)
Definition format_menus (raw_menus : gmap string MenuEntry)
    (today tomorrow : datetime) : MenuData :=
  let today_key := strftime_ymd today in
  let tomorrow_key := strftime_ymd tomorrow in
  mkdata
    (mkday (strftime_A_dmY today)
       (get_midi raw_menus today_key) (get_soir raw_menus today_key))
    (mkday (strftime_A_dmY tomorrow)
       (get_midi raw_menus tomorrow_key) (get_soir raw_menus tomorrow_key)).

(** [get_menu_data] (lines 37-77); [now] is [datetime.now()]. A
    [datetime] is always true, so [test_date] is used whenever it is
    given. Every exception of the body is raised again as a
    [RuntimeError]. *)
Definition get_menu_data (w : Sheets) (env : Env) (now : datetime)
    (test_date : option datetime) (st : State) : State * Try MenuData :=
  let today := match test_date with Some d => d | None => now end in
  match add_one_day today with
  | Fail _ => (st, Fail RuntimeError)
  | Done tomorrow =>
      match get_menus_for_dates w env [today; tomorrow] st with
      | (st', Ok raw_menus) =>
          (st', Done (format_menus raw_menus today tomorrow))
      | (st', Raise _) => (st', Fail RuntimeError)
      end
  end.

(** The arguments after [parse_args]: [--spreadsheet-id],
    [--credentials] and [--date] ([None] when not given). *)
Record Args := mkargs {
  spreadsheet_id : string;
  credentials : string;
  date : option string
}.

(** What main depends on besides the client: the clock, the import of
    gspread in menu.py, the credentials path ([os.path.isfile] in main,
    [os.path.exists] in [setup_connection]) and the outcome of the
    authentication. *)
Inductive path_kind := NoPath | RegularFile | Directory.

Record World := mkworld {
  now : datetime;
  gspread_imported : bool;
  credentials_path : path_kind;
  authorize_ok : bool
}.

Definition isfile (k : path_kind) : bool :=
  match k with RegularFile => true | _ => false end.

Definition path_exists (k : path_kind) : bool :=
  match k with NoPath => false | _ => true end.

Definition env_of (world : World) : Env :=
  mkenv (gspread_imported world) (path_exists (credentials_path world))
    (authorize_ok world).

(** How main ends: the record it prints on standard output, with exit
    status 0, or the error it reports on standard error, with exit
    status 1. *)
Inductive Exit :=
  | Printed (menus : MenuData)
  | Failed (e : error).

Definition exit_status (x : Exit) : Z :=
  match x with Printed _ => 0%Z | Failed _ => 1%Z end.

Section Main.
Variable int : string -> option Z.

(** main (lines 110-137), after the parsing of the arguments. An
    empty [--date] is false and counts as not given. *)
Definition main (w : Sheets) (world : World) (args : Args) (st : State)
    : State * Exit :=
  let parsed :=
    match date args with
    | Some date_str =>
        if Str.truthy date_str then
          match parse_date_string int (now world) date_str with
          | Done d => Done (Some d)
          | Fail e => Fail e
          end
        else Done None
    | None => Done None
    end in
  match parsed with
  | Fail e => (st, Failed e)
  | Done test_date =>
      if negb (isfile (credentials_path world))
      then (st, Failed FileNotFoundError)
      else
        match get_menu_data w (env_of world) (now world) test_date st with
        | (st', Done menus) => (st', Printed menus)
        | (st', Fail e) => (st', Failed e)
        end
  end.

End Main.

(** Python's [int] on a string of code points below 256, for the
    examples: surrounding whitespace, an optional sign, then decimal
    digits that single underscores may separate. *)
Definition is_digit (c : ascii) : bool :=
  ((48 <=? N_of_ascii c) && (N_of_ascii c <=? 57))%N.

Definition digit_value (c : ascii) : Z := (Z.of_N (N_of_ascii c) - 48)%Z.

Fixpoint int_digits (acc : Z) (after_digit : bool) (s : string) : option Z :=
  match s with
  | EmptyString => if after_digit then Some acc else None
  | String c s' =>
      if is_digit c then int_digits (10 * acc + digit_value c)%Z true s'
      else if Ascii.eqb c "_" && after_digit then int_digits acc false s'
      else None
  end.

Definition py_int (s : string) : option Z :=
  match Str.strip s with
  | String "+" r => int_digits 0 false r
  | String "-" r => Z.opp <$> int_digits 0 false r
  | t => int_digits 0 false t
  end.

End MenuFetcher.

(** ** display_eink.py *)

Module DisplayEink.

(** What the code reads of a PIL image: [image.mode] and [image.size]. *)
Record image := mkimage { mode : string; size : nat * nat }.

(** The operations on the e-paper panel, in the order of the calls;
    [GetBuffer] records the image it is given. *)
Inductive op :=
  | NewEPD
  | InitFast
  | Init
  | Clear
  | GetBuffer (img : image)
  | Display
  | Sleep.

(** The world of the script: whether the Waveshare library imports, the
    files, PIL ([None] stands for a raised exception), and the panel,
    whose operations return ([true]) or raise ([false]) depending on
    the operations made before. *)
Record Device := mkdevice {
  import_ok : bool;
  path_exists : string -> bool;
  image_open : string -> option image;
  image_convert : image -> string -> option image;
  image_resize : image -> nat * nat -> option image;
  panel : list op -> op -> bool
}.

(** A computation inside the outer [try]: the operations made so far,
    and a value unless an exception was raised. *)
Definition Run (A : Type) : Type := list op -> list op * option A.

#[global] Instance Run_ret : MRet Run := fun A a log => (log, Some a).

#[global] Instance Run_bind : MBind Run := fun A B f m log =>
  match m log with
  | (log', Some a) => f a log'
  | (log', None) => (log', None)
  end.

Definition lift {A} (r : option A) : Run A := fun log => (log, r).

Definition panel_op (dev : Device) (o : op) : Run unit :=
  fun log => (log ++ [o], if panel dev log o then Some tt else None).

Definition size_eqb (a b : nat * nat) : bool :=
  (a.1 =? b.1)%nat && (a.2 =? b.2)%nat.

Definition target_size : nat * nat := (480, 800).

(** Lines 43-83, the part of [display_image_on_eink] after the two
    early returns. *)
Definition show_image (dev : Device) (image_path : string)
    (fast_refresh : bool) : Run unit :=
  image ← lift (image_open dev image_path);
  image ← (if negb (String.eqb (mode image) "1")
           then lift (image_convert dev image "1") else mret image);
  image ← (if negb (size_eqb (size image) target_size)
           then lift (image_resize dev image target_size) else mret image);
  _ ← panel_op dev NewEPD;
  _ ← (if fast_refresh then
         _ ← panel_op dev InitFast;
         _ ← panel_op dev (GetBuffer image);
         panel_op dev Display
       else
         _ ← panel_op dev Init;
         _ ← panel_op dev Clear;
         _ ← panel_op dev (GetBuffer image);
         panel_op dev Display);
  panel_op dev Sleep.

(** [display_image_on_eink] (lines 16-87): every exception is caught
    and turned into [False]. *)
Definition display_image_on_eink (dev : Device) (image_path : string)
    (fast_refresh : bool) (log : list op) : list op * bool :=
  if negb (import_ok dev) then (log, false)
  else if negb (path_exists dev image_path) then (log, false)
  else
    match show_image dev image_path fast_refresh log with
    | (log', Some _) => (log', true)
    | (log', None) => (log', false)
    end.

(** main (lines 89-104): the operations on the panel and the exit
    status. *)
Definition main (dev : Device) (argv : list string) (log : list op)
    : list op * Z :=
  if (length argv <? 2)%nat || (3 <? length argv)%nat then (log, 1%Z)
  else
    match argv !! 1%nat with
    | None => (log, 1%Z)
    | Some image_path =>
        let fast_refresh :=
          (length argv =? 3)%nat
          && match argv !! 2%nat with
             | Some arg => String.eqb (Str.lower arg) "fast"
             | None => false
             end in
        match display_image_on_eink dev image_path fast_refresh log with
        | (log', true) => (log', 0%Z)
        | (log', false) => (log', 1%Z)
        end
    end.

(** The image handed to the panel: opened, converted to mode "1" if it
    has another mode, resized to the target size if it has another
    size; [None] when one of these raises. *)
Definition prepared_image (dev : Device) (image_path : string)
    : option image :=
  match image_open dev image_path with
  | None => None
  | Some image =>
      match (if negb (String.eqb (mode image) "1")
             then image_convert dev image "1" else Some image) with
      | None => None
      | Some image =>
          if negb (size_eqb (size image) target_size)
          then image_resize dev image target_size else Some image
      end
  end.

(** The operations [os] made in order, up to the first that raises. *)
Fixpoint run_ops (dev : Device) (os : list op) : Run unit :=
  match os with
  | [] => mret tt
  | o :: rest => _ ← panel_op dev o; run_ops dev rest
  end.

(** The operations of a full and of a fast refresh of [img]. *)
Definition refresh_ops (fast_refresh : bool) (img : image) : list op :=
  if fast_refresh then [NewEPD; InitFast; GetBuffer img; Display; Sleep]
  else [NewEPD; Init; Clear; GetBuffer img; Display; Sleep].

(** A device for the examples: every operation succeeds, the file
    holds a greyscale image of 800 by 480, and PIL converts and resizes
    as documented. *)
Definition sample_device : Device :=
  mkdevice true (fun _ => true)
    (fun _ => Some (mkimage "L" (800, 480)))
    (fun img m => Some (mkimage m (size img)))
    (fun img sz => Some (mkimage (mode img) sz))
    (fun _ _ => true).

End DisplayEink.

(** * Properties *)

(** ** The string and date operations on samples *)

Example strftime_dm_ex : strftime_dm (mkdate 2025 6 30) = "30/06".
Proof. reflexivity. Qed.

Example strftime_ymd_ex : strftime_ymd (mkdate 2025 7 1) = "2025-07-01".
Proof. reflexivity. Qed.

Example split_ex : Str.split " " "lundi  30/06" = ["lundi"; ""; "30/06"].
Proof. reflexivity. Qed.

Example strip_ex : Str.strip "  Midi " = "Midi".
Proof. reflexivity. Qed.

Example candidates_ex :
  candidates (mkdate 2025 3 5) = Some ["Fevrier"; "Mars"].
Proof. reflexivity. Qed.

Example lower_ex : Str.lower " MIDI" = " midi".
Proof. reflexivity. Qed.

Example strip_tab_ex : Str.strip (String "009" "Soir ") = "Soir".
Proof. reflexivity. Qed.

Example split_stripped_ex : Str.split " " (Str.strip " 30/06") = ["30/06"].
Proof. reflexivity. Qed.

(** ** Sequencing of computations *)

Lemma bind_ok {A B} (m : M A) (f : A -> M B) st st' a :
  m st = (st', Ok a) -> (m ≫= f) st = f a st'.
Proof. intros H. unfold mbind, M_bind. by rewrite H. Qed.

Lemma bind_raise {A B} (m : M A) (f : A -> M B) st st' e :
  m st = (st', Raise e) -> (m ≫= f) st = (st', Raise e).
Proof. intros H. unfold mbind, M_bind. by rewrite H. Qed.

Lemma getitem_ok {A} (l : list A) i x st :
  l !! i = Some x -> getitem l i st = (st, Ok x).
Proof. intros H. unfold getitem. by rewrite H. Qed.

Lemma getitem_last_ok {A} (l : list A) x st :
  last l = Some x -> getitem_last l st = (st, Ok x).
Proof. intros H. unfold getitem_last. by rewrite H. Qed.

Lemma last_split_is_Some sep s : is_Some (last (Str.split sep s)).
Proof.
  induction s as [|c s IH]; simpl; [by eexists|].
  destruct (Ascii.eqb c sep).
  - destruct IH as [x Hx]. destruct (Str.split sep s); [done|].
    exists x. exact Hx.
  - destruct (Str.split sep s) as [|p ps]; [by eexists|].
    destruct IH as [x Hx]. destruct ps; simpl in *; eauto.
Qed.

(** ** The existence check is a search over all cells *)

Lemma exists_in_row_spec key row st :
  exists_in_row key row st = (st, Ok (existsb (cell_has_date key) row)).
Proof.
  induction row as [|cell rest IH]; [done|].
  cbn [exists_in_row existsb]. unfold cell_has_date at 1.
  destruct (Str.truthy cell && Str.contains " " cell); cbn [andb orb];
    [|exact IH].
  destruct (2 <=? length (Str.split " " (Str.strip cell)))%nat;
    cbn [andb orb]; [|exact IH].
  destruct (last_split_is_Some " " (Str.strip cell)) as [p Hp].
  erewrite bind_ok by (by apply getitem_last_ok). rewrite Hp.
  destruct (String.eqb p key); [done|exact IH].
Qed.

Lemma exists_in_rows_spec key g st :
  exists_in_rows key g st = (st, Ok (grid_has_date key g)).
Proof.
  induction g as [|row rest IH]; [done|].
  cbn [exists_in_rows]. erewrite bind_ok by apply exists_in_row_spec.
  unfold grid_has_date. cbn [existsb].
  destruct (existsb (cell_has_date key) row); [done|exact IH].
Qed.

Lemma date_exists_in_sheet_spec w ws d st :
  date_exists_in_sheet w ws d st =
  (mkstate (calls st ++ [GetAllValues ws]) (menus st),
   Ok match answer_values w (calls st) ws with
      | Ok g => grid_has_date (strftime_dm d) g
      | Raise _ => false
      end).
Proof.
  unfold date_exists_in_sheet, get_all_values, try_except, ask,
    mbind, M_bind.
  destruct (answer_values w (calls st) ws) as [g|e]; [|done].
  by rewrite exists_in_rows_spec.
Qed.

Lemma grid_has_date_iff key g :
  grid_has_date key g = true <->
  exists i c row cell,
    g !! i = Some row /\ row !! c = Some cell /\
    cell_has_date key cell = true.
Proof.
  unfold grid_has_date. rewrite existsb_exists. split.
  - intros (row & Hrow & Hex). apply existsb_exists in Hex.
    destruct Hex as (cell & Hcell & Hc).
    apply list_elem_of_In, list_elem_of_lookup in Hrow, Hcell.
    destruct Hrow as [i Hi], Hcell as [c Hc'].
    by exists i, c, row, cell.
  - intros (i & c & row & cell & Hi & Hc & H).
    exists row. split.
    + apply list_elem_of_In, list_elem_of_lookup. eauto.
    + apply existsb_exists. exists cell. split; [|done].
      apply list_elem_of_In, list_elem_of_lookup. eauto.
Qed.

(** ** The extraction scan is a search for the first match *)

Lemma take_midi_spec g i c dk l (m : gmap string MenuEntry) b :
  take_midi g i c dk (mkstate l (<[dk := mkentry "" b]> m)) =
  (mkstate l (<[dk := mkentry (label_text g (i + 1) c "midi") b]> m), Ok tt).
Proof.
  unfold take_midi, label_text.
  destruct (i + 1 <? length g)%nat eqn:Hi.
  - apply Nat.ltb_lt, lookup_lt_is_Some in Hi. destruct Hi as [row Hrow].
    erewrite bind_ok by (by apply getitem_ok). rewrite Hrow.
    destruct (c <? length row)%nat eqn:Hc.
    + apply Nat.ltb_lt in Hc.
      destruct (lookup_lt_is_Some_2 row c Hc) as [text Htext].
      destruct (lookup_lt_is_Some_2 row 0 ltac:(lia)) as [first Hfirst].
      erewrite bind_ok by (by apply getitem_ok). rewrite Hfirst, Htext.
      destruct (String.eqb _ "midi"); [|done].
      erewrite bind_ok by (by apply getitem_ok).
      unfold menus_set_midi. cbn [menus calls].
      rewrite lookup_insert_eq. cbn [soir]. by rewrite insert_insert_eq.
    + apply Nat.ltb_ge in Hc.
      rewrite (lookup_ge_None_2 row c Hc). by destruct (row !! 0%nat).
  - apply Nat.ltb_ge in Hi. by rewrite (lookup_ge_None_2 g (i + 1) Hi).
Qed.

Lemma take_soir_spec g i c dk l (m : gmap string MenuEntry) a :
  take_soir g i c dk (mkstate l (<[dk := mkentry a ""]> m)) =
  (mkstate l (<[dk := mkentry a (label_text g (i + 2) c "soir")]> m), Ok tt).
Proof.
  unfold take_soir, label_text.
  destruct (i + 2 <? length g)%nat eqn:Hi.
  - apply Nat.ltb_lt, lookup_lt_is_Some in Hi. destruct Hi as [row Hrow].
    erewrite bind_ok by (by apply getitem_ok). rewrite Hrow.
    destruct (c <? length row)%nat eqn:Hc.
    + apply Nat.ltb_lt in Hc.
      destruct (lookup_lt_is_Some_2 row c Hc) as [text Htext].
      destruct (lookup_lt_is_Some_2 row 0 ltac:(lia)) as [first Hfirst].
      erewrite bind_ok by (by apply getitem_ok). rewrite Hfirst, Htext.
      destruct (String.eqb _ "soir"); [|done].
      erewrite bind_ok by (by apply getitem_ok).
      unfold menus_set_soir. cbn [menus calls].
      rewrite lookup_insert_eq. cbn [midi]. by rewrite insert_insert_eq.
    + apply Nat.ltb_ge in Hc.
      rewrite (lookup_ge_None_2 row c Hc). by destruct (row !! 0%nat).
  - apply Nat.ltb_ge in Hi. by rewrite (lookup_ge_None_2 g (i + 2) Hi).
Qed.

Lemma scan_cols_spec g i dk key cells c st :
  scan_cols g i dk key cells c st =
  match find_col key cells c with
  | Some c' =>
      (mkstate (calls st) (<[dk := entry_at g i c']> (menus st)), Ok true)
  | None => (st, Ok false)
  end.
Proof.
  revert c. induction cells as [|cell rest IH]; intros c; [done|].
  cbn [scan_cols find_col]. unfold cell_has_date at 1.
  destruct (Str.truthy cell && Str.contains " " cell); cbn [andb];
    [|apply IH].
  destruct (2 <=? length (Str.split " " (Str.strip cell)))%nat;
    cbn [andb]; [|apply IH].
  destruct (last_split_is_Some " " (Str.strip cell)) as [p Hp].
  erewrite bind_ok by (by apply getitem_last_ok). rewrite Hp.
  destruct (String.eqb p key); [|apply IH].
  erewrite bind_ok by reflexivity.
  erewrite bind_ok by apply take_midi_spec.
  erewrite bind_ok by apply take_soir_spec.
  reflexivity.
Qed.

Lemma scan_rows_spec g dk key rows i st :
  scan_rows g dk key rows i st =
  match find_match key rows i with
  | Some (i', c) =>
      (mkstate (calls st) (<[dk := entry_at g i' c]> (menus st)), Ok tt)
  | None => (st, Ok tt)
  end.
Proof.
  revert i. induction rows as [|row rest IH]; intros i; [done|].
  cbn [scan_rows find_match]. unfold header_candidate.
  destruct (1 <? length row)%nat eqn:Hlen; cbn [andb]; [|apply IH].
  apply Nat.ltb_lt in Hlen.
  destruct (lookup_lt_is_Some_2 row 0 ltac:(lia)) as [first Hfirst].
  erewrite bind_ok by (by apply getitem_ok). rewrite Hfirst.
  destruct (String.eqb first "" || negb (Str.truthy (Str.strip first)));
    [|apply IH].
  unfold mbind, M_bind. rewrite scan_cols_spec.
  destruct (find_col key (drop 1 row) 1) as [c|]; [done|apply IH].
Qed.

(** The extraction of one date never raises and changes nothing but
    the entry of that date. *)
Lemma scan_date_spec g d st :
  scan_date g d st =
  match find_match (strftime_dm d) g 0 with
  | Some (i, c) =>
      (mkstate (calls st) (<[strftime_ymd d := entry_at g i c]> (menus st)),
       Ok tt)
  | None => (st, Ok tt)
  end.
Proof. apply scan_rows_spec. Qed.

(** ** The first match in reading order *)

Lemma find_col_Some key cells c0 c :
  find_col key cells c0 = Some c ->
  exists k cell,
    c = c0 + k /\ cells !! k = Some cell /\ cell_has_date key cell = true /\
    forall k' cell',
      k' < k -> cells !! k' = Some cell' -> cell_has_date key cell' = false.
Proof.
  revert c0. induction cells as [|x rest IH]; intros c0 H; [done|].
  cbn [find_col] in H. destruct (cell_has_date key x) eqn:Hx.
  - injection H as <-. exists 0, x. repeat split; [lia|done|lia].
  - destruct (IH _ H) as (k & cell & -> & Hk & Hcell & Hmin).
    exists (S k), cell. repeat split; [lia|done|done|].
    intros [|k'] cell' Hlt Hk'; cbn in Hk'.
    + by injection Hk' as <-.
    + apply (Hmin k'); [lia|done].
Qed.

Lemma find_col_None key cells c0 :
  find_col key cells c0 = None ->
  forall k cell, cells !! k = Some cell -> cell_has_date key cell = false.
Proof.
  revert c0. induction cells as [|x rest IH]; intros c0 H k cell Hk; [done|].
  cbn [find_col] in H. destruct (cell_has_date key x) eqn:Hx; [done|].
  destruct k as [|k]; cbn in Hk.
  - by injection Hk as <-.
  - by apply (IH _ H k).
Qed.

Lemma match_at_cons_S key row rest k c :
  match_at key (row :: rest) (S k) c <-> match_at key rest k c.
Proof. unfold match_at. by cbn. Qed.

Lemma match_at_head_row key row rest c :
  match_at key (row :: rest) 0 c ->
  header_candidate row = true /\
  exists k cell,
    c = 1 + k /\ drop 1 row !! k = Some cell /\
    cell_has_date key cell = true.
Proof.
  intros (row' & cell & Hrow & Hh & Hc & Hcell & Hd).
  cbn in Hrow. injection Hrow as <-. split; [done|].
  exists (c - 1), cell. repeat split; [lia| |done].
  rewrite lookup_drop. by replace (1 + (c - 1)) with c by lia.
Qed.

Lemma find_match_Some key rows i0 i c :
  find_match key rows i0 = Some (i, c) ->
  exists k,
    i = i0 + k /\ match_at key rows k c /\
    forall k' c', match_at key rows k' c' -> reads_before (k, c) (k', c').
Proof.
  revert i0. induction rows as [|row rest IH]; intros i0 H; [done|].
  cbn [find_match] in H.
  assert (Hrest : find_match key rest (S i0) = Some (i, c) ->
    (forall c', ~ match_at key (row :: rest) 0 c') ->
    exists k, i = i0 + k /\ match_at key (row :: rest) k c /\
      forall k' c', match_at key (row :: rest) k' c' ->
        reads_before (k, c) (k', c')).
  { intros Hf Hno. destruct (IH _ Hf) as (k & -> & Hm & Hmin).
    exists (S k). split; [lia|]. split; [by apply match_at_cons_S|].
    intros [|k'] c' Hm'; [by destruct (Hno c')|].
    apply match_at_cons_S, Hmin in Hm'.
    unfold reads_before in *. cbn in *. lia. }
  destruct (header_candidate row) eqn:Hh.
  - destruct (find_col key (drop 1 row) 1) as [c1|] eqn:Hcol.
    + injection H as <- <-.
      destruct (find_col_Some _ _ _ _ Hcol) as (k & cell & -> & Hk & Hd & Hmin).
      exists 0. split; [lia|]. split.
      * exists row, cell. repeat split; [done|lia| |done].
        by rewrite lookup_drop in Hk.
      * intros [|k'] c' Hm'; [|unfold reads_before; cbn; lia].
        apply match_at_head_row in Hm'.
        destruct Hm' as (_ & k2 & cell2 & -> & Hk2 & Hd2).
        right. cbn. split; [done|].
        destruct (decide (k2 < k)) as [Hlt|]; [|lia].
        rewrite (Hmin _ _ Hlt Hk2) in Hd2. done.
    + apply Hrest; [done|]. intros c' Hm'.
      apply match_at_head_row in Hm'.
      destruct Hm' as (_ & k2 & cell2 & -> & Hk2 & Hd2).
      by rewrite (find_col_None _ _ _ Hcol _ _ Hk2) in Hd2.
  - apply Hrest; [done|]. intros c' Hm'.
    apply match_at_head_row in Hm'. destruct Hm' as [Hh' _]. congruence.
Qed.

Lemma find_match_None key rows i0 :
  find_match key rows i0 = None -> forall k c, ~ match_at key rows k c.
Proof.
  revert i0. induction rows as [|row rest IH]; intros i0 H k c Hm.
  - by destruct Hm as (? & ? & ? & _).
  - cbn [find_match] in H. destruct k as [|k].
    + apply match_at_head_row in Hm.
      destruct Hm as (Hh & k2 & cell2 & -> & Hk2 & Hd2). rewrite Hh in H.
      destruct (find_col key (drop 1 row) 1) eqn:Hcol; [done|].
      by rewrite (find_col_None _ _ _ Hcol _ _ Hk2) in Hd2.
    + apply match_at_cons_S in Hm.
      destruct (header_candidate row);
        [destruct (find_col key (drop 1 row) 1); [done|]|];
        by apply (IH _ H k c).
Qed.

(** Two first matches in reading order are the same position. *)
Lemma first_match_unique key g i c i' c' :
  match_at key g i c ->
  (forall k d, match_at key g k d -> reads_before (i, c) (k, d)) ->
  match_at key g i' c' ->
  (forall k d, match_at key g k d -> reads_before (i', c') (k, d)) ->
  (i, c) = (i', c').
Proof.
  intros Hm Hmin Hm' Hmin'.
  apply Hmin in Hm'. apply Hmin' in Hm.
  unfold reads_before in *. cbn in *. f_equal; lia.
Qed.

Lemma find_match_first key g i c :
  match_at key g i c ->
  (forall k d, match_at key g k d -> reads_before (i, c) (k, d)) ->
  find_match key g 0 = Some (i, c).
Proof.
  intros Hm Hmin. destruct (find_match key g 0) as [[i' c']|] eqn:Hf.
  - destruct (find_match_Some _ _ _ _ _ Hf) as (k & -> & Hm' & Hmin').
    f_equal. symmetry. by apply (first_match_unique key g).
  - by destruct (find_match_None _ _ _ Hf i c).
Qed.

Lemma find_match_no_match key g :
  (forall i c, ~ match_at key g i c) -> find_match key g 0 = None.
Proof.
  intros Hno. destruct (find_match key g 0) as [[i c]|] eqn:Hf; [|done].
  destruct (find_match_Some _ _ _ _ _ Hf) as (k & -> & Hm & _).
  by destruct (Hno k c).
Qed.

(** ** The candidate months of a valid date *)

Lemma calendar_days_bounds y m : (28 <= calendar_days y m <= 31)%Z.
Proof.
  unfold calendar_days.
  destruct (m =? 2)%Z; [destruct (is_leap y); lia|].
  destruct ((m =? 4)%Z || (m =? 6)%Z || (m =? 9)%Z || (m =? 11)%Z); lia.
Qed.

Lemma month_names_is_Some m : (1 <= m <= 12)%Z -> is_Some (month_names m).
Proof.
  intros H.
  assert (m = 1 \/ m = 2 \/ m = 3 \/ m = 4 \/ m = 5 \/ m = 6 \/ m = 7 \/
          m = 8 \/ m = 9 \/ m = 10 \/ m = 11 \/ m = 12)%Z as Hm by lia.
  repeat (destruct Hm as [->|Hm]; [by eexists|]). subst. by eexists.
Qed.

Lemma month_names_range m name :
  month_names m = Some name -> (1 <= m <= 12)%Z.
Proof.
  destruct m as [|p|p]; [done| |done].
  do 4 (try destruct p as [p|p|]); cbn; (done || lia).
Qed.

(** The three shapes of [months_to_check]. A valid date is never both
    in the first seven days and in the last window, since a month has
    at least 28 days. *)
Lemma months_to_check_cases d :
  valid_date d ->
  let m := month d in
  let prev := (if 1 <? m then m - 1 else 12)%Z in
  let next := (if m =? 12 then 1 else m + 1)%Z in
  let dim := (if m =? 12 then 31 else calendar_days (year d) m)%Z in
  ((day d <= 7)%Z /\ months_to_check d = [prev; m]) \/
  ((7 < day d < dim - 7)%Z /\ months_to_check d = [m]) \/
  ((dim - 7 <= day d)%Z /\ months_to_check d = [m; next]).
Proof.
  intros (Hy & Hm & Hd). cbn zeta. unfold months_to_check, day_before_first.
  rewrite Z.add_simpl_r.
  pose proof (calendar_days_bounds (year d) (month d)) as Hb.
  destruct (month d =? 12)%Z eqn:H12.
  - destruct (day d <=? 7)%Z eqn:H7; destruct (31 - 7 <=? day d)%Z eqn:Hw;
      cbn [app]; lia || (left; split; [lia|done]) ||
      (right; left; split; [lia|done]) || (right; right; split; [lia|done]).
  - destruct (day d <=? 7)%Z eqn:H7;
      destruct (calendar_days (year d) (month d) - 7 <=? day d)%Z eqn:Hw;
      cbn [app]; lia || (left; split; [lia|done]) ||
      (right; left; split; [lia|done]) || (right; right; split; [lia|done]).
Qed.

Lemma months_to_check_range d :
  valid_date d -> Forall (fun m => (1 <= m <= 12)%Z) (months_to_check d).
Proof.
  intros Hv. pose proof Hv as (_ & Hm & _).
  destruct (months_to_check_cases d Hv) as [[_ ->]|[[_ ->]|[_ ->]]];
    repeat constructor; try lia.
  - destruct (1 <? month d)%Z eqn:E; lia.
  - destruct (1 <? month d)%Z eqn:E; lia.
  - destruct (month d =? 12)%Z eqn:E; lia.
  - destruct (month d =? 12)%Z eqn:E; lia.
Qed.

Lemma candidates_is_Some d : valid_date d -> is_Some (candidates d).
Proof.
  intros Hv. unfold candidates. apply mapM_is_Some.
  eapply Forall_impl; [by apply months_to_check_range|].
  intros m Hm. by apply month_names_is_Some.
Qed.

Lemma probe_step w d name st :
  try_except
    (ws ← worksheet w name;
     b ← date_exists_in_sheet w ws d;
     mret (if b : bool then Some ws else None))
    (fun _ => mret None) st =
  (mkstate (calls st ++ probe_calls w (calls st) name) (menus st),
   Ok (if probe_ok w (strftime_dm d) (calls st) name
       then Some name else None)).
Proof.
  unfold probe_ok, probe_calls, try_except, worksheet, ask, mbind, M_bind,
    mret, M_ret.
  destruct (answer_worksheet w (calls st) name) as [[]|e]; [|done].
  rewrite date_exists_in_sheet_spec. cbn [calls menus].
  rewrite <- app_assoc. cbn [app].
  by destruct (answer_values w (calls st ++ [GetWorksheet name]) name).
Qed.

Lemma probe_months_spec w d months names st :
  mapM month_names months = Some names ->
  probe_months w d months st =
  (mkstate (calls st ++ (probe_trace w (strftime_dm d) (calls st) names).1)
     (menus st),
   Ok (probe_trace w (strftime_dm d) (calls st) names).2).
Proof.
  revert names st. induction months as [|m rest IH]; intros names st Hn.
  - cbn in Hn. injection Hn as <-. cbn. rewrite app_nil_r. by destruct st.
  - cbn in Hn. destruct (month_names m) as [name|] eqn:Hm; [|done].
    cbn in Hn. destruct (mapM month_names rest) as [names'|] eqn:Hr; [|done].
    cbn in Hn. injection Hn as <-.
    cbn [probe_months probe_trace]. unfold lookup_month. rewrite Hm.
    erewrite bind_ok by reflexivity.
    erewrite bind_ok by apply probe_step.
    destruct (probe_ok w (strftime_dm d) (calls st) name).
    + done.
    + rewrite (IH names') by done. cbn [calls menus].
      destruct (probe_trace w _ _ names') as [cs' r].
      cbn [fst snd]. by rewrite <- app_assoc.
Qed.

Lemma determine_sheet_for_date_spec w d names st :
  candidates d = Some names ->
  determine_sheet_for_date w d st =
  (mkstate
     (calls st ++ (resolve_trace w (strftime_dm d) (calls st) names).1)
     (menus st),
   (resolve_trace w (strftime_dm d) (calls st) names).2).
Proof.
  intros Hn. unfold determine_sheet_for_date, resolve_trace, open_by_key,
    ask, mbind, M_bind.
  destruct (answer_open w (calls st)) as [[]|e]; [|done].
  rewrite (probe_months_spec w d _ names) by done. cbn [calls menus].
  destruct (probe_trace w _ _ names) as [cs [name|]] eqn:Ht; cbn [fst snd].
  - by rewrite <- app_assoc.
  - unfold try_except, worksheets, listing_calls. cbn [calls menus].
    rewrite <- !app_assoc. cbn [app].
    destruct (answer_open w (calls st ++ OpenByKey :: cs)) as [[]|e].
    + unfold ask. cbn [calls menus].
      destruct (answer_worksheets w (calls st ++ OpenByKey :: cs
                                       ++ [OpenByKey]));
        cbn [calls menus mret M_ret]; by norm_app.
    + cbn [calls menus mret M_ret]. by norm_app.
Qed.

Lemma worksheet_titles_app cs cs' :
  worksheet_titles (cs ++ cs') = worksheet_titles cs ++ worksheet_titles cs'.
Proof. apply omap_app. Qed.

Lemma worksheet_titles_probe w log name :
  worksheet_titles (probe_calls w log name) = [name].
Proof. unfold probe_calls. by destruct (answer_worksheet w log name). Qed.

Lemma probe_trace_titles w key log names :
  let tr := probe_trace w key log names in
  worksheet_titles tr.1 `prefix_of` names /\
  (tr.2 = None -> worksheet_titles tr.1 = names).
Proof.
  revert log. induction names as [|name rest IH]; intros log; cbn zeta.
  - split; [by exists []|done].
  - cbn [probe_trace]. destruct (probe_ok w key log name).
    + cbn [fst snd]. rewrite worksheet_titles_probe.
      split; [by exists rest|done].
    + specialize (IH (log ++ probe_calls w log name)). cbn zeta in IH.
      destruct (probe_trace w key _ rest) as [cs' r]. cbn [fst snd] in *.
      rewrite worksheet_titles_app, worksheet_titles_probe.
      destruct IH as [Hp Hn]. split.
      * by apply prefix_cons.
      * intros Hr. cbn. by rewrite Hn.
Qed.

Lemma probe_trace_Some w key log names name :
  (probe_trace w key log names).2 = Some name ->
  exists pre post log',
    names = pre ++ name :: post /\
    worksheet_titles (probe_trace w key log names).1 = pre ++ [name] /\
    probe_ok w key log' name = true.
Proof.
  revert log. induction names as [|n rest IH]; intros log H; [done|].
  cbn [probe_trace] in *. destruct (probe_ok w key log n) eqn:Hok.
  - cbn in H. injection H as <-. exists [], rest, log.
    cbn [fst]. by rewrite worksheet_titles_probe.
  - specialize (IH (log ++ probe_calls w log n)).
    destruct (probe_trace w key (log ++ probe_calls w log n) rest)
      as [cs' r]. cbn [fst snd] in *.
    destruct (IH H) as (pre & post & log' & -> & Ht & Hp).
    exists (n :: pre), post, log'. split; [done|]. split; [|done].
    by rewrite worksheet_titles_app, worksheet_titles_probe, Ht.
Qed.

Lemma probe_ok_history_free w key log name :
  history_free w -> probe_ok w key log name = tab_holds_date w key name.
Proof.
  intros Hw. unfold tab_holds_date, probe_ok.
  destruct (Hw log [] name) as [-> _].
  by destruct (Hw (log ++ [GetWorksheet name]) ([] ++ [GetWorksheet name])
                 name) as [_ ->].
Qed.

Lemma probe_trace_history_free w key log names :
  history_free w ->
  (probe_trace w key log names).2 = find (tab_holds_date w key) names.
Proof.
  intros Hw. revert log. induction names as [|n rest IH]; intros log; [done|].
  cbn [probe_trace find]. rewrite (probe_ok_history_free w key log n Hw).
  destruct (tab_holds_date w key n); [done|].
  specialize (IH (log ++ probe_calls w log n)).
  by destruct (probe_trace w key _ rest).
Qed.

Lemma scan_dates_spec g dates st :
  scan_dates g dates st =
  (mkstate (calls st) (foldl (extract_into g) (menus st) dates), Ok tt).
Proof.
  revert st. induction dates as [|d rest IH]; intros st; [by destruct st|].
  cbn [scan_dates foldl]. unfold mbind, M_bind. rewrite scan_date_spec.
  unfold extract_into at 2.
  destruct (find_match (strftime_dm d) g 0) as [[i c]|]; by rewrite IH.
Qed.

Lemma fetch_block_spec w ws dates st :
  try_except
    (all_values ← get_all_values w ws; scan_dates all_values dates)
    (fun _ => mret tt) st =
  (mkstate (calls st ++ [GetAllValues ws])
     match answer_values w (calls st) ws with
     | Ok g => foldl (extract_into g) (menus st) dates
     | Raise _ => menus st
     end, Ok tt).
Proof.
  unfold try_except, get_all_values, ask, mbind, M_bind.
  destruct (answer_values w (calls st) ws) as [g|e]; [|done].
  by rewrite scan_dates_spec.
Qed.

Lemma process_worksheets_spec w groups st :
  process_worksheets w groups st =
  (mkstate (calls st ++ map GetAllValues (map fst groups))
     (processed_menus w groups (calls st) (menus st)), Ok tt).
Proof.
  revert st. induction groups as [|[ws dates] rest IH]; intros st.
  - cbn. rewrite app_nil_r. by destruct st.
  - cbn [process_worksheets processed_menus map fst].
    erewrite bind_ok by apply fetch_block_spec.
    rewrite IH. cbn [calls menus]. by norm_app.
Qed.

Lemma add_date_keys title d groups :
  map fst (add_date title d groups) =
  if decide (title ∈ map fst groups) then map fst groups
  else map fst groups ++ [title].
Proof.
  induction groups as [|[t ds] rest IH]; [done|].
  cbn [add_date map fst]. destruct (String.eqb_spec t title) as [->|Hne].
  - cbn. rewrite decide_True; [done|]. apply list_elem_of_here.
  - cbn [map fst]. rewrite IH.
    destruct (decide (title ∈ map fst rest)) as [Hin|Hnin].
    + rewrite decide_True; [done|]. by apply list_elem_of_further.
    + rewrite decide_False; [done|].
      intros [?|?]%elem_of_cons; congruence.
Qed.

Lemma add_date_NoDup title d groups :
  NoDup (map fst groups) -> NoDup (map fst (add_date title d groups)).
Proof.
  intros H. rewrite add_date_keys. case_decide; [done|].
  apply NoDup_app. split; [done|]. split; [|apply NoDup_singleton].
  intros x Hx ->%list_elem_of_singleton. done.
Qed.

Lemma group_dates_NoDup w dates groups st st' groups' :
  group_dates w dates groups st = (st', Ok groups') ->
  NoDup (map fst groups) -> NoDup (map fst groups').
Proof.
  revert groups st. induction dates as [|d rest IH]; intros groups st H Hnd.
  - cbn in H. by injection H as _ <-.
  - cbn [group_dates] in H. unfold mbind, M_bind in H.
    destruct (determine_sheet_for_date w d st) as [st1 [[ws|]|e]]; [| |done].
    + eapply IH; [exact H|]. by apply add_date_NoDup.
    + eapply IH; [exact H|done].
Qed.

Lemma resolve_trace_titles w key log names :
  let tr := resolve_trace w key log names in
  worksheet_titles tr.1 `prefix_of` names /\
  (tr.2 = Ok None -> worksheet_titles tr.1 = names).
Proof.
  cbn zeta. unfold resolve_trace.
  destruct (answer_open w log) as [[]|e]; [|split; [by exists names|done]].
  pose proof (probe_trace_titles w key (log ++ [OpenByKey]) names) as Ht.
  cbn zeta in Ht. destruct (probe_trace w key _ names) as [cs [name|]].
  - cbn [fst snd] in *. destruct Ht as [Hp _]. split; [exact Hp|done].
  - cbn [fst snd] in *. destruct Ht as [Hp Hn].
    assert (worksheet_titles
              (OpenByKey :: cs ++ listing_calls w (log ++ OpenByKey :: cs))
            = worksheet_titles cs) as ->.
    { change (OpenByKey :: ?l) with ([OpenByKey] ++ l).
      rewrite !worksheet_titles_app. unfold listing_calls.
      destruct (answer_open w _); cbn; by rewrite app_nil_r. }
    split; [exact Hp|]. intros _. by apply Hn.
Qed.

Lemma probe_calls_head w log name :
  exists rest, probe_calls w log name = GetWorksheet name :: rest.
Proof. unfold probe_calls. destruct (answer_worksheet w log name); by eexists. Qed.

Lemma probe_trace_failed w key log names p :
  p ∈ worksheet_titles (probe_trace w key log names).1 ->
  (probe_trace w key log names).2 <> Some p ->
  exists l0 l2,
    (probe_trace w key log names).1 = l0 ++ GetWorksheet p :: l2 /\
    probe_ok w key (log ++ l0) p = false.
Proof.
  revert log. induction names as [|n rest IH]; intros log Hin Hne.
  { cbn in Hin. by apply elem_of_nil in Hin. }
  cbn [probe_trace] in *. destruct (probe_ok w key log n) eqn:Hok.
  - cbn [fst snd] in *. rewrite worksheet_titles_probe in Hin.
    apply list_elem_of_singleton in Hin. by subst.
  - specialize (IH (log ++ probe_calls w log n)).
    destruct (probe_trace w key (log ++ probe_calls w log n) rest)
      as [cs' r]. cbn [fst snd] in *.
    rewrite worksheet_titles_app, worksheet_titles_probe in Hin.
    apply elem_of_app in Hin as [Hin|Hin].
    + apply list_elem_of_singleton in Hin. subst p.
      destruct (probe_calls_head w log n) as [tl ->].
      exists [], (tl ++ cs'). split; [done|]. by rewrite app_nil_r.
    + destruct (IH Hin Hne) as (l0 & l2 & -> & Hp).
      exists (probe_calls w log n ++ l0), l2.
      split; [by rewrite <- app_assoc|]. by rewrite app_assoc.
Qed.

Lemma probe_trace_returned w key log names name :
  (probe_trace w key log names).2 = Some name ->
  exists l0,
    (probe_trace w key log names).1
      = l0 ++ [GetWorksheet name; GetAllValues name] /\
    probe_ok w key (log ++ l0) name = true.
Proof.
  revert log. induction names as [|n rest IH]; intros log H; [done|].
  cbn [probe_trace] in *. destruct (probe_ok w key log n) eqn:Hok.
  - cbn [fst snd] in *. injection H as <-. exists [].
    rewrite app_nil_r. split; [|done].
    unfold probe_calls. unfold probe_ok in Hok.
    by destruct (answer_worksheet w log n).
  - specialize (IH (log ++ probe_calls w log n)).
    destruct (probe_trace w key (log ++ probe_calls w log n) rest)
      as [cs' r]. cbn [fst snd] in *.
    destruct (IH H) as (l0 & -> & Hp).
    exists (probe_calls w log n ++ l0).
    split; [by rewrite <- app_assoc|]. by rewrite app_assoc.
Qed.

(** The calls of a resolution according to its result. *)
Lemma resolve_trace_result w key log names :
  let tr := resolve_trace w key log names in
  (forall name, tr.2 = Ok (Some name) ->
     exists pre post,
       names = pre ++ name :: post /\ worksheet_titles tr.1 = pre ++ [name]) /\
  (forall e, tr.2 = Raise e ->
     answer_open w log = Raise e /\ tr.1 = [OpenByKey]).
Proof.
  cbn zeta. unfold resolve_trace.
  destruct (answer_open w log) as [[]|e0].
  - pose proof (probe_trace_Some w key (log ++ [OpenByKey]) names) as HS.
    destruct (probe_trace w key (log ++ [OpenByKey]) names) as [cs [n|]];
      cbn [fst snd] in *.
    + split; [|done]. intros name [= <-].
      destruct (HS n eq_refl) as (pre & post & _ & Hn & Ht & _).
      by exists pre, post.
    + split; done.
  - cbn [fst snd]. split; [done|]. by intros e [= <-].
Qed.

(** The probes of a resolution on its call log: the returned tab was
    looked up and fetched last and its probe succeeded; every other
    worksheet asked for failed its probe when it was asked. *)
Lemma resolve_trace_probes w key log names :
  let tr := resolve_trace w key log names in
  (forall name, tr.2 = Ok (Some name) ->
     exists l0,
       tr.1 = l0 ++ [GetWorksheet name; GetAllValues name] /\
       probe_ok w key (log ++ l0) name = true) /\
  (forall p, p ∈ worksheet_titles tr.1 -> tr.2 <> Ok (Some p) ->
     exists l0 l2,
       tr.1 = l0 ++ GetWorksheet p :: l2 /\
       probe_ok w key (log ++ l0) p = false).
Proof.
  cbn zeta. unfold resolve_trace.
  destruct (answer_open w log) as [[]|e0].
  - pose proof (probe_trace_returned w key (log ++ [OpenByKey]) names) as HR.
    pose proof (probe_trace_failed w key (log ++ [OpenByKey]) names) as HF.
    destruct (probe_trace w key (log ++ [OpenByKey]) names) as [cs [n|]];
      cbn [fst snd] in *.
    + split.
      * intros name [= <-]. destruct (HR n eq_refl) as (l0 & -> & Hp).
        exists (OpenByKey :: l0). split; [done|].
        by rewrite <- app_assoc in Hp.
      * intros p Hin Hne. destruct (HF p) as (l0 & l2 & -> & Hp);
          [exact Hin|congruence|].
        exists (OpenByKey :: l0), l2. split; [done|].
        by rewrite <- app_assoc in Hp.
    + split; [done|]. intros p Hin _.
      assert (p ∈ worksheet_titles cs) as Hin'.
      { change (OpenByKey :: ?l) with ([OpenByKey] ++ l) in Hin.
        rewrite !worksheet_titles_app in Hin. unfold listing_calls in Hin.
        destruct (answer_open w _); cbn in Hin; by rewrite app_nil_r in Hin. }
      destruct (HF p Hin') as (l0 & l2 & -> & Hp); [done|].
      exists (OpenByKey :: l0),
             (l2 ++ listing_calls w
                      (log ++ OpenByKey :: l0 ++ GetWorksheet p :: l2)).
      split; [by rewrite <- app_assoc|]. by rewrite <- app_assoc in Hp.
  - cbn [fst snd]. split; [done|]. intros p Hin. cbn in Hin.
    by apply elem_of_nil in Hin.
Qed.

Lemma month_names_inj m1 m2 name :
  month_names m1 = Some name -> month_names m2 = Some name -> m1 = m2.
Proof.
  intros H1 H2.
  pose proof (month_names_range _ _ H1) as R1.
  pose proof (month_names_range _ _ H2) as R2.
  assert (m1 = 1 \/ m1 = 2 \/ m1 = 3 \/ m1 = 4 \/ m1 = 5 \/ m1 = 6 \/
          m1 = 7 \/ m1 = 8 \/ m1 = 9 \/ m1 = 10 \/ m1 = 11 \/ m1 = 12)%Z
    as C1 by lia.
  assert (m2 = 1 \/ m2 = 2 \/ m2 = 3 \/ m2 = 4 \/ m2 = 5 \/ m2 = 6 \/
          m2 = 7 \/ m2 = 8 \/ m2 = 9 \/ m2 = 10 \/ m2 = 11 \/ m2 = 12)%Z
    as C2 by lia.
  clear R1 R2.
  repeat (destruct C1 as [->|C1]); try subst m1;
    cbn in H1; injection H1 as <-;
    repeat (destruct C2 as [->|C2]); try subst m2;
    cbn in H2; congruence.
Qed.

(** * The claims *)

(** ** Tab candidate selection *)

(** C7. The mapping from month numbers to tab names is defined on every
    month 1..12 and sends different months to different names. For a
    December date in the end-of-month window (31 - 7 <= day) the tab
    appended after "Decembre" is "Janvier", the tab of month 1; for a
    January date with day <= 7 the tab placed before "Janvier" is
    "Decembre", the tab of month 12. *)
Theorem month_tabs_wrap_at_year_boundary :
  (forall m, (1 <= m <= 12)%Z -> is_Some (month_names m)) /\
  (forall m1 m2 name,
     month_names m1 = Some name -> month_names m2 = Some name -> m1 = m2) /\
  (forall d, month d = 12%Z -> (31 - 7 <= day d)%Z ->
     months_to_check d = [12; 1]%Z /\
     candidates d = Some ["Decembre"; "Janvier"]) /\
  (forall d, month d = 1%Z -> (day d <= 7)%Z ->
     months_to_check d = [12; 1]%Z /\
     candidates d = Some ["Decembre"; "Janvier"]).
Proof.
  split; [exact month_names_is_Some|]. split; [exact month_names_inj|].
  split.
  - intros [y m dd] Hm Hd. cbn in Hm, Hd. subst m.
    assert (months_to_check (mkdate y 12 dd) = [12; 1]%Z) as Hmc.
    { unfold months_to_check. cbn [month day year].
      destruct (dd <=? 7)%Z eqn:H7; [lia|].
      change (12 =? 12)%Z with true. cbv iota beta.
      destruct (31 - 7 <=? dd)%Z eqn:Hw; [done|lia]. }
    split; [exact Hmc|]. unfold candidates. by rewrite Hmc.
  - intros [y m dd] Hm Hd. cbn in Hm, Hd. subst m.
    assert (months_to_check (mkdate y 1 dd) = [12; 1]%Z) as Hmc.
    { unfold months_to_check, day_before_first. cbn [month day year].
      destruct (dd <=? 7)%Z eqn:H7; [|lia].
      change (1 <? 1)%Z with false. change (1 =? 12)%Z with false.
      cbv iota beta. change (calendar_days y (1 + 1 - 1)) with 31%Z.
      destruct (31 - 7 <=? dd)%Z eqn:Hw; [lia|done]. }
    split; [exact Hmc|]. unfold candidates. by rewrite Hmc.
Qed.

Lemma month_tabs_wrap_at_year_boundary_witness :
  candidates (mkdate 2025 12 28) = Some ["Decembre"; "Janvier"] /\
  candidates (mkdate 2026 1 3) = Some ["Decembre"; "Janvier"] /\
  is_Some (month_names 8).
Proof.
  destruct month_tabs_wrap_at_year_boundary as (Htot & _ & Hdec & Hjan).
  split; [|split].
  - apply (Hdec (mkdate 2025 12 28)); [reflexivity|cbn; lia].
  - apply (Hjan (mkdate 2026 1 3)); [reflexivity|cbn; lia].
  - apply Htot. lia.
Defined.

(** C4. For every (valid) target date the candidate tabs are a fixed
    ordered list of one to three names that contains the tab of the
    target month; when the day is at most 7 the list is the previous
    month's tab followed by the target month's tab; for day 5 of March
    it is exactly ["Fevrier"; "Mars"]. The resolver asks for the
    candidate worksheets in exactly this order, whatever the client
    answers: the titles it requests are the candidates up to and
    including the tab it returns, the whole list when it returns
    [None], and none when its first [open_by_key] raises, the only way
    it can raise. *)
Theorem candidates_in_probing_order d :
  valid_date d ->
  exists names cur,
    month_names (month d) = Some cur /\
    candidates d = Some names /\
    1 <= length names <= 3 /\
    cur ∈ names /\
    ((day d <= 7)%Z ->
       exists prev,
         month_names (if 1 <? month d then month d - 1 else 12)%Z = Some prev /\
         names = [prev; cur]) /\
    (month d = 3%Z -> day d = 5%Z -> names = ["Fevrier"; "Mars"]) /\
    (forall w st,
       exists cs,
         calls (determine_sheet_for_date w d st).1 = calls st ++ cs /\
         worksheet_titles cs `prefix_of` names /\
         ((determine_sheet_for_date w d st).2 = Ok None ->
          worksheet_titles cs = names) /\
         (forall name,
            (determine_sheet_for_date w d st).2 = Ok (Some name) ->
            exists pre post,
              names = pre ++ name :: post /\
              worksheet_titles cs = pre ++ [name]) /\
         (forall e,
            (determine_sheet_for_date w d st).2 = Raise e ->
            answer_open w (calls st) = Raise e /\ cs = [OpenByKey])).
Proof.
  intros Hv.
  destruct (candidates_is_Some d Hv) as [names Hn].
  pose proof Hv as (_ & Hm & _).
  destruct (month_names_is_Some _ Hm) as [cur Hcur].
  exists names, cur. split; [done|]. split; [done|].
  assert (Hshape :
    ((day d <= 7)%Z /\
     exists prev,
       month_names (if 1 <? month d then month d - 1 else 12)%Z = Some prev /\
       names = [prev; cur]) \/
    ((7 < day d)%Z /\ (names = [cur] \/ exists next, names = [cur; next]))).
  { unfold candidates in Hn.
    destruct (months_to_check_cases d Hv) as [[H7 E]|[[H7 E]|[H7 E]]];
      rewrite E in Hn; cbn in Hn; rewrite ?Hcur in Hn; cbn in Hn.
    - left. split; [done|].
      destruct (month_names (if 1 <? month d then month d - 1 else 12)%Z)
        as [prev|]; [|done].
      cbn in Hn. injection Hn as <-. by exists prev.
    - right. split; [lia|]. left. by injection Hn as <-.
    - right. split.
      + pose proof (calendar_days_bounds (year d) (month d)).
        destruct (month d =? 12)%Z; lia.
      + right.
        destruct (month_names (if month d =? 12 then 1 else month d + 1)%Z)
          as [next|]; [|done].
        cbn in Hn. injection Hn as <-. by exists next. }
  split; [|split; [|split; [|split]]].
  - destruct Hshape as [(_ & prev & _ & E)|(_ & [E|[next E]])];
      rewrite E; cbn [length]; lia.
  - destruct Hshape as [(_ & prev & _ & E)|(_ & [E|[next E]])];
      rewrite E, !elem_of_cons; auto.
  - intros H7. destruct Hshape as [(_ & Hp)|(H & _)]; [exact Hp|lia].
  - intros H3 H5. destruct Hshape as [(_ & prev & Hp & ->)|(H & _)]; [|lia].
    rewrite H3 in Hp, Hcur. vm_compute in Hp, Hcur. congruence.
  - intros w st. rewrite (determine_sheet_for_date_spec w d names st Hn).
    cbn [fst snd calls]. eexists. split; [reflexivity|].
    destruct (resolve_trace_titles w (strftime_dm d) (calls st) names)
      as [Hpre Hnone].
    destruct (resolve_trace_result w (strftime_dm d) (calls st) names)
      as [Hsome Hraise].
    split; [exact Hpre|]. split; [exact Hnone|].
    split; [exact Hsome|exact Hraise].
Qed.

Lemma candidates_in_probing_order_witness :
  exists names,
    candidates (mkdate 2025 3 5) = Some names /\
    names = ["Fevrier"; "Mars"].
Proof.
  destruct (candidates_in_probing_order (mkdate 2025 3 5))
    as (names & cur & _ & Hn & _ & _ & _ & H35 & _).
  - unfold valid_date. cbn. lia.
  - exists names. split; [exact Hn|]. by apply H35.
Defined.

(** ** Tab resolution *)

Lemma probe_ok_true w key log name :
  probe_ok w key log name = true <->
  (exists u, answer_worksheet w log name = Ok u) /\
  exists g,
    answer_values w (log ++ [GetWorksheet name]) name = Ok g /\
    grid_has_date key g = true.
Proof.
  unfold probe_ok. destruct (answer_worksheet w log name) as [u|e].
  - destruct (answer_values w (log ++ [GetWorksheet name]) name) as [g|e].
    + split; [intros H; split; [by exists u|by exists g]|].
      intros (_ & g' & Hg & H). by injection Hg as ->.
    + split; [done|]. by intros (_ & g' & Hg & _).
  - split; [done|]. by intros ([u Hu] & _).
Qed.

(** For a client that does not change, [tab_holds_date] says that the
    worksheet exists, that its values can be fetched, and that some
    cell of the grid carries the date. *)
Lemma tab_holds_date_iff w key name :
  tab_holds_date w key name = true <->
  (exists u, answer_worksheet w [] name = Ok u) /\
  exists g,
    answer_values w [GetWorksheet name] name = Ok g /\
    exists i c row cell,
      g !! i = Some row /\ row !! c = Some cell /\
      cell_has_date key cell = true.
Proof.
  unfold tab_holds_date. rewrite probe_ok_true. cbn [app].
  split; intros (Hw & g & Hg & H); (split; [done|]); exists g;
    (split; [done|]); by apply grid_has_date_iff.
Qed.

(** The only exception [determine_sheet_for_date] lets through is that
    of its first [open_by_key]. *)
Lemma determine_sheet_for_date_open_fails w d st e :
  answer_open w (calls st) = Raise e ->
  determine_sheet_for_date w d st =
  (mkstate (calls st ++ [OpenByKey]) (menus st), Raise e).
Proof.
  intros H. unfold determine_sheet_for_date, open_by_key, ask, mbind, M_bind.
  by rewrite H.
Qed.

Lemma determine_sheet_for_date_resolves w d st :
  valid_date d ->
  answer_open w (calls st) = Ok tt ->
  exists names cs r,
    candidates d = Some names /\
    determine_sheet_for_date w d st =
      (mkstate (calls st ++ cs) (menus st), Ok r) /\
    (forall name, r = Some name ->
       exists pre post log g,
         names = pre ++ name :: post /\
         worksheet_titles cs = pre ++ [name] /\
         answer_values w log name = Ok g /\
         grid_has_date (strftime_dm d) g = true) /\
    (r = None -> worksheet_titles cs = names) /\
    (history_free w ->
     r = find (tab_holds_date w (strftime_dm d)) names).
Proof.
  intros Hv Hopen.
  destruct (candidates_is_Some d Hv) as [names Hn].
  pose proof (determine_sheet_for_date_spec w d names st Hn) as Hspec.
  pose proof (resolve_trace_titles w (strftime_dm d) (calls st) names) as Ht.
  cbn zeta in Ht. unfold resolve_trace in *. rewrite Hopen in *.
  pose proof (probe_trace_Some w (strftime_dm d) (calls st ++ [OpenByKey])
                names) as HSome.
  pose proof (probe_trace_history_free w (strftime_dm d)
                (calls st ++ [OpenByKey]) names) as Hfree.
  destruct (probe_trace w (strftime_dm d) (calls st ++ [OpenByKey]) names)
    as [cs [name|]]; cbn [fst snd] in *.
  - exists names, (OpenByKey :: cs), (Some name).
    split; [done|]. split; [done|]. split; [|split; [done|exact Hfree]].
    intros ? [= <-].
    destruct (HSome name eq_refl) as (pre & post & log' & Hsplit & Hts & Hok).
    apply probe_ok_true in Hok. destruct Hok as (_ & g & Hg & Hd).
    by exists pre, post, (log' ++ [GetWorksheet name]), g.
  - eexists names, _, None.
    split; [done|]. split; [exact Hspec|]. split; [done|].
    split; [|exact Hfree]. intros _. by apply Ht.
Qed.

(** C6 (amended). Once the spreadsheet is opened, the resolver returns
    normally whatever the worksheets answer: a candidate whose
    worksheet is missing or whose fetch raises is a failed probe and
    the next candidate is tried. A returned tab is a candidate whose
    fetched grid has a cell that passes the date test of the code (the
    cell is not empty, contains a space character and, once stripped
    and split on the space character, has at least two parts the last
    of which is the target rendering); it was looked up and fetched
    last, the worksheets asked for are the candidates up to and
    including it, and every worksheet asked for before it failed its
    probe when it was asked. When no candidate passes, the result is
    [None] and every candidate was asked for. For a client whose
    content does not change between calls, the result is the first
    candidate, in order, whose tab holds such a cell. *)
Theorem resolver_returns_first_holding_tab w d st :
  valid_date d ->
  answer_open w (calls st) = Ok tt ->
  exists names cs r,
    candidates d = Some names /\
    determine_sheet_for_date w d st =
      (mkstate (calls st ++ cs) (menus st), Ok r) /\
    (forall name, r = Some name ->
       exists pre post log g,
         names = pre ++ name :: post /\
         worksheet_titles cs = pre ++ [name] /\
         answer_values w log name = Ok g /\
         grid_has_date (strftime_dm d) g = true) /\
    (r = None -> worksheet_titles cs = names) /\
    (history_free w ->
     r = find (tab_holds_date w (strftime_dm d)) names) /\
    (forall name, r = Some name ->
       exists l0 g i c row cell,
         cs = l0 ++ [GetWorksheet name; GetAllValues name] /\
         answer_values w (calls st ++ l0 ++ [GetWorksheet name]) name = Ok g /\
         g !! i = Some row /\ row !! c = Some cell /\
         cell_has_date (strftime_dm d) cell = true) /\
    (forall p, p ∈ worksheet_titles cs -> r <> Some p ->
       exists l0 l2,
         cs = l0 ++ GetWorksheet p :: l2 /\
         probe_ok w (strftime_dm d) (calls st ++ l0) p = false).
Proof.
  intros Hv Hopen.
  destruct (determine_sheet_for_date_resolves w d st Hv Hopen)
    as (names & cs & r & Hn & Hdet & Hsome & Hnone & Hfree).
  exists names, cs, r.
  split; [exact Hn|]. split; [exact Hdet|]. split; [exact Hsome|].
  split; [exact Hnone|]. split; [exact Hfree|].
  pose proof (determine_sheet_for_date_spec w d names st Hn) as Hspec.
  rewrite Hdet in Hspec. injection Hspec as Hcs Hr.
  apply app_inv_head in Hcs.
  destruct (resolve_trace_probes w (strftime_dm d) (calls st) names)
    as [Hret Hfail].
  rewrite <- Hcs, <- Hr in Hret, Hfail. split.
  - intros name ->. destruct (Hret name eq_refl) as (l0 & Hl0 & Hp).
    apply probe_ok_true in Hp. destruct Hp as (_ & g & Hg & Hd).
    apply grid_has_date_iff in Hd. destruct Hd as (i & c & row & cell & H).
    exists l0, g, i, c, row, cell. split; [exact Hl0|].
    split; [by rewrite app_assoc|]. exact H.
  - intros p Hin Hne. apply Hfail; [exact Hin|congruence].
Qed.

Lemma resolver_returns_first_holding_tab_witness :
  exists cs,
    determine_sheet_for_date (fixed_sheets [("Juin", grid_june)])
      (mkdate 2025 6 30) state0 = (mkstate cs ∅, Ok (Some "Juin")).
Proof.
  destruct (resolver_returns_first_holding_tab
              (fixed_sheets [("Juin", grid_june)]) (mkdate 2025 6 30) state0)
    as (names & cs & r & Hn & Hd & _ & _ & Hfree & _).
  - unfold valid_date. cbn. lia.
  - reflexivity.
  - exists cs. rewrite Hd. cbn [calls menus state0 app].
    rewrite Hfree by (intros log log' name; split; reflexivity).
    injection Hn as <-. reflexivity.
Defined.

(** C6, as stated, fails: the first candidate "Juin" has a cell whose
    last whitespace-separated token is the date, yet the resolver
    passes it over and returns "Juillet", because the cell does not
    split into two parts around a space. *)
Lemma trailing_token_counterexample :
  candidates (mkdate 2025 6 30) = Some ["Juin"; "Juillet"] /\
  tab_has_trailing_token sheets_lone_date "30/06" "Juin" = true /\
  (determine_sheet_for_date sheets_lone_date (mkdate 2025 6 30) state0).2
    = Ok (Some "Juillet") /\
  ~ (forall w d st names,
       valid_date d -> history_free w ->
       answer_open w (calls st) = Ok tt ->
       candidates d = Some names ->
       (determine_sheet_for_date w d st).2 =
       Ok (find (tab_has_trailing_token w (strftime_dm d)) names)).
Proof.
  split; [reflexivity|]. split; [reflexivity|]. split; [reflexivity|].
  intros H.
  specialize (H sheets_lone_date (mkdate 2025 6 30) state0
                ["Juin"; "Juillet"]).
  assert ((determine_sheet_for_date sheets_lone_date (mkdate 2025 6 30)
             state0).2 = Ok (Some "Juin")) as Hbad.
  { apply H.
    - unfold valid_date. cbn. lia.
    - intros log log' name. split; reflexivity.
    - reflexivity.
    - reflexivity. }
  vm_compute in Hbad. discriminate Hbad.
Qed.

(** ** Grid extraction *)

Lemma match_at_grid_has_date key g i c :
  match_at key g i c -> grid_has_date key g = true.
Proof.
  intros (row & cell & Hrow & _ & _ & Hcell & Hd).
  apply grid_has_date_iff. by exists i, c, row, cell.
Qed.

Lemma no_date_no_match key g :
  grid_has_date key g = false -> forall i c, ~ match_at key g i c.
Proof.
  intros H i c Hm. apply match_at_grid_has_date in Hm. congruence.
Qed.

Example tokens_ex : tokens "  lundi   30/06 " = ["lundi"; "30/06"].
Proof. reflexivity. Qed.

(** C5 (amended). In a header-candidate row the first cell beyond
    column 0 that passes the date test of the code (the cell is not
    empty, contains a space character and, once stripped and split on
    the space character, has at least two parts the last of which is
    the target rendering) is the match and the cells after it are not
    looked at; a header-candidate row without such a cell, like a row
    that is not a header candidate, passes the scan on to the next row;
    a match ends the scan of the grid. Hence the entry written for a
    date is the one read under the first matching cell in reading order
    (topmost row, then leftmost column), and nothing is written when no
    cell matches. *)
Theorem extraction_takes_first_match g d st :
  let key := strftime_dm d in
  let date_key := strftime_ymd d in
  (forall i cells c0 k cell,
     cells !! k = Some cell -> cell_has_date key cell = true ->
     (forall k' cell', k' < k -> cells !! k' = Some cell' ->
        cell_has_date key cell' = false) ->
     scan_cols g i date_key key cells c0 st =
     (mkstate (calls st) (<[date_key := entry_at g i (c0 + k)]> (menus st)),
      Ok true)) /\
  (forall i row rest,
     header_candidate row = false \/
     (forall k cell, drop 1 row !! k = Some cell ->
        cell_has_date key cell = false) ->
     scan_rows g date_key key (row :: rest) i st =
     scan_rows g date_key key rest (S i) st) /\
  (forall i c,
     match_at key g i c ->
     (forall i' c', match_at key g i' c' -> reads_before (i, c) (i', c')) ->
     scan_date g d st =
     (mkstate (calls st) (<[date_key := entry_at g i c]> (menus st)), Ok tt)) /\
  ((forall i c, ~ match_at key g i c) -> scan_date g d st = (st, Ok tt)) /\
  (forall i c,
     match_at key g i c ->
     exists i0 c0,
       match_at key g i0 c0 /\
       forall i' c', match_at key g i' c' -> reads_before (i0, c0) (i', c')).
Proof.
  cbn zeta. split; [|split; [|split; [|split]]].
  - intros i cells c0 k cell Hk Hd Hmin. rewrite scan_cols_spec.
    destruct (find_col (strftime_dm d) cells c0) as [c|] eqn:Hf.
    + destruct (find_col_Some _ _ _ _ Hf) as (k1 & cell1 & -> & Hk1 & Hd1 & Hmin1).
      destruct (decide (k1 = k)) as [->|Hne]; [done|].
      destruct (decide (k1 < k)) as [Hlt|Hge].
      * rewrite (Hmin _ _ Hlt Hk1) in Hd1. done.
      * rewrite (Hmin1 k cell) in Hd; [done|lia|done].
    + rewrite (find_col_None _ _ _ Hf _ _ Hk) in Hd. done.
  - intros i row rest Hrow. rewrite !scan_rows_spec. cbn [find_match].
    destruct Hrow as [->|Hno]; [done|].
    destruct (header_candidate row); [|done].
    destruct (find_col (strftime_dm d) (drop 1 row) 1) as [c|] eqn:Hf; [|done].
    destruct (find_col_Some _ _ _ _ Hf) as (k1 & cell1 & _ & Hk1 & Hd1 & _).
    rewrite (Hno _ _ Hk1) in Hd1. done.
  - intros i c Hm Hmin. rewrite scan_date_spec.
    by rewrite (find_match_first _ _ _ _ Hm Hmin).
  - intros Hno. rewrite scan_date_spec.
    by rewrite (find_match_no_match _ _ Hno).
  - intros i c Hm.
    destruct (find_match (strftime_dm d) g 0) as [[i0 c0]|] eqn:Hf.
    + destruct (find_match_Some _ _ _ _ _ Hf) as (k & -> & Hm0 & Hmin).
      by exists (0 + k), c0.
    + by destruct (find_match_None _ _ _ Hf i c).
Qed.

Lemma extraction_takes_first_match_witness :
  scan_date grid_twice (mkdate 2025 6 30) state0 =
  (mkstate [] (<["2025-06-30" := mkentry "Pates" "Soupe"]> ∅), Ok tt).
Proof.
  destruct (extraction_takes_first_match grid_twice (mkdate 2025 6 30) state0)
    as (_ & _ & Hfirst & _).
  apply (Hfirst 0 2).
  - exists [""; "x"; "lundi 30/06"], "lundi 30/06".
    repeat split; lia || reflexivity.
  - intros i' c' (row & cell & Hrow & _ & Hc & Hcell & Hd).
    destruct i' as [|i']; [|left; cbn; lia].
    right. cbn. split; [done|].
    cbn in Hrow. injection Hrow as <-.
    destruct c' as [|[|c']]; [lia| |lia].
    cbn in Hcell. injection Hcell as <-. vm_compute in Hd. done.
Defined.

(** C5, as stated, fails: the first column whose last
    whitespace-separated token is the date is column 1, and the entry
    is read under column 2. *)
Lemma token_match_counterexample :
  token_match_at "30/06" grid_lone_date 0 1 /\
  menus (scan_date grid_lone_date (mkdate 2025 6 30) state0).1
    !! "2025-06-30" = Some (mkentry "Pates" "Riz") /\
  entry_at grid_lone_date 0 1 = mkentry "Soupe" "Oeufs" /\
  ~ (forall g d st i c,
       token_match_at (strftime_dm d) g i c ->
       (forall i' c', token_match_at (strftime_dm d) g i' c' ->
          reads_before (i, c) (i', c')) ->
       scan_date g d st =
       (mkstate (calls st) (<[strftime_ymd d := entry_at g i c]> (menus st)),
        Ok tt)).
Proof.
  assert (token_match_at "30/06" grid_lone_date 0 1) as Hm.
  { exists [""; " 30/06"; "lundi 30/06"], " 30/06".
    repeat split; lia || reflexivity. }
  split; [exact Hm|]. split; [reflexivity|]. split; [reflexivity|].
  intros H.
  specialize (H grid_lone_date (mkdate 2025 6 30) state0 0 1 Hm).
  assert (scan_date grid_lone_date (mkdate 2025 6 30) state0 =
          (mkstate [] (<["2025-06-30" := mkentry "Soupe" "Oeufs"]> ∅), Ok tt))
    as Hscan.
  { apply H. intros i' c' (row & cell & _ & _ & Hc & _).
    destruct i' as [|i']; [right|left]; cbn; lia. }
  apply (f_equal (fun r => menus r.1 !! "2025-06-30")) in Hscan.
  vm_compute in Hscan. discriminate Hscan.
Qed.

(** C8. On the three-row grid of the specification, the extraction for
    a date rendered "30/06" writes lunch "Pates" and dinner "Soupe", and
    for a date rendered "01/07" lunch "Riz" and dinner "Salade". *)
Theorem extraction_scenario d st :
  (strftime_dm d = "30/06" ->
   scan_date grid_june d st =
   (mkstate (calls st)
      (<[strftime_ymd d := mkentry "Pates" "Soupe"]> (menus st)), Ok tt)) /\
  (strftime_dm d = "01/07" ->
   scan_date grid_june d st =
   (mkstate (calls st)
      (<[strftime_ymd d := mkentry "Riz" "Salade"]> (menus st)), Ok tt)).
Proof.
  split; intros H; rewrite scan_date_spec, H.
  - change (find_match "30/06" grid_june 0) with (Some (0, 1)).
    reflexivity.
  - change (find_match "01/07" grid_june 0) with (Some (0, 2)).
    reflexivity.
Qed.

Lemma extraction_scenario_witness :
  menus (scan_date grid_june (mkdate 2025 6 30) state0).1 !! "2025-06-30"
    = Some (mkentry "Pates" "Soupe") /\
  menus (scan_date grid_june (mkdate 2025 7 1) state0).1 !! "2025-07-01"
    = Some (mkentry "Riz" "Salade").
Proof.
  split.
  - rewrite (proj1 (extraction_scenario (mkdate 2025 6 30) state0));
      [|reflexivity].
    cbn [fst menus]. apply lookup_insert_eq.
  - rewrite (proj2 (extraction_scenario (mkdate 2025 7 1) state0));
      [|reflexivity].
    cbn [fst menus]. apply lookup_insert_eq.
Defined.

Lemma label_text_checked g j c label :
  label_text g j c label = label_checked_text g j c label.
Proof.
  unfold label_text, label_checked_text. rewrite !nth_lookup.
  destruct (g !! j) as [row|] eqn:Hj.
  - pose proof (lookup_lt_Some _ _ _ Hj) as Hlt.
    apply Nat.ltb_lt in Hlt. rewrite Hlt. cbn [from_option id andb].
    destruct (row !! c) as [text|] eqn:Hc.
    + pose proof (lookup_lt_Some _ _ _ Hc) as Hltc.
      destruct (lookup_lt_is_Some_2 row 0 ltac:(lia)) as [first Hfirst].
      apply Nat.ltb_lt in Hltc. rewrite Hltc, Hfirst. done.
    + apply lookup_ge_None in Hc. apply Nat.ltb_ge in Hc. rewrite Hc.
      by destruct (row !! 0).
  - apply lookup_ge_None in Hj. apply Nat.ltb_ge in Hj. by rewrite Hj.
Qed.

(** C9. When the date is matched at row [i], column [c], the scan
    returns normally with an entry whose lunch text is the text of row
    [i + 1] under column [c] only if that row exists, is longer than
    [c] and is labelled "midi" in column 0 (stripped, lowercased), and
    whose dinner text is read in the same way from row [i + 2] under
    the label "soir", each independently of the other; a field whose
    row is missing, too short or labelled otherwise is the empty
    string. A date matched in the last row has both fields empty. *)
Theorem label_rows_checked_independently g d st i c :
  let key := strftime_dm d in
  match_at key g i c ->
  (forall i' c', match_at key g i' c' -> reads_before (i, c) (i', c')) ->
  scan_date g d st =
    (mkstate (calls st)
       (<[strftime_ymd d :=
            mkentry (label_checked_text g (i + 1) c "midi")
                    (label_checked_text g (i + 2) c "soir")]> (menus st)),
     Ok tt) /\
  (length g <= i + 1 ->
   scan_date g d st =
     (mkstate (calls st) (<[strftime_ymd d := mkentry "" ""]> (menus st)),
      Ok tt)).
Proof.
  cbn zeta. intros Hm Hmin.
  assert (scan_date g d st =
    (mkstate (calls st)
       (<[strftime_ymd d :=
            mkentry (label_checked_text g (i + 1) c "midi")
                    (label_checked_text g (i + 2) c "soir")]> (menus st)),
     Ok tt)) as Hscan.
  { rewrite scan_date_spec, (find_match_first _ _ _ _ Hm Hmin).
    unfold entry_at. by rewrite !label_text_checked. }
  split; [exact Hscan|].
  intros Hlast. rewrite Hscan. unfold label_checked_text.
  destruct (i + 1 <? length g)%nat eqn:H1; [apply Nat.ltb_lt in H1; lia|].
  destruct (i + 2 <? length g)%nat eqn:H2; [apply Nat.ltb_lt in H2; lia|].
  reflexivity.
Qed.

Lemma label_rows_checked_independently_witness :
  scan_date grid_unlabelled (mkdate 2025 6 30) state0 =
  (mkstate [] (<["2025-06-30" := mkentry "" ""]> ∅), Ok tt).
Proof.
  destruct (label_rows_checked_independently grid_unlabelled
              (mkdate 2025 6 30) state0 0 1) as [H _].
  - exists [""; "lundi 30/06"], "lundi 30/06".
    repeat split; lia || reflexivity.
  - intros i' c' (row & cell & _ & _ & Hc & _).
    destruct i' as [|i']; [right|left]; cbn; lia.
  - exact H.
Defined.

(** C2 (amended). The extraction of a date never fails: for every grid
    and date the scan returns normally and makes no call. It writes an
    entry of two texts under the date's key exactly when a
    header-candidate cell matches the date; when the grid has no row,
    or no cell carrying the date, or no such cell in a header-candidate
    row beyond column 0, it writes nothing: the dictionary is left as
    it was, so that the key of the date stays absent. *)
Theorem extraction_total_absent_without_match g d st :
  let key := strftime_dm d in
  (exists st', scan_date g d st = (st', Ok tt) /\ calls st' = calls st) /\
  (g = [] \/ grid_has_date key g = false \/
   (forall i c, ~ match_at key g i c) ->
   scan_date g d st = (st, Ok tt)) /\
  (forall i c, match_at key g i c ->
   exists lunch dinner,
     menus (scan_date g d st).1 !! strftime_ymd d
     = Some (mkentry lunch dinner)).
Proof.
  cbn zeta. rewrite scan_date_spec. split; [|split].
  - destruct (find_match (strftime_dm d) g 0) as [[i c]|]; by eexists.
  - intros H.
    assert (forall i c, ~ match_at (strftime_dm d) g i c) as Hno.
    { destruct H as [->|[H|H]]; [|by apply no_date_no_match|done].
      intros i c (row & cell & Hrow & _). done. }
    by rewrite (find_match_no_match _ _ Hno).
  - intros i c Hm.
    destruct (find_match (strftime_dm d) g 0) as [[i0 c0]|] eqn:Hf.
    + cbn [fst menus]. rewrite lookup_insert_eq.
      by destruct (entry_at g i0 c0) as [lunch dinner]; eexists _, _.
    + by destruct (find_match_None _ _ _ Hf i c).
Qed.

Lemma extraction_total_absent_without_match_witness :
  scan_date [] (mkdate 2025 6 30) state0 = (state0, Ok tt).
Proof.
  destruct (extraction_total_absent_without_match [] (mkdate 2025 6 30)
              state0) as (_ & Habsent & _).
  apply Habsent. left. reflexivity.
Defined.

(** C2, as stated, fails: on the grid without rows the scan leaves the
    key of the date absent instead of writing two empty texts, and a
    date that resolves to a tab without a header-candidate match is
    absent from the batch result. *)
Lemma extraction_absent_counterexample :
  ~ (forall g d st,
       grid_has_date (strftime_dm d) g = false ->
       menus (scan_date g d st).1 !! strftime_ymd d
       = Some (mkentry "" "")) /\
  menus (scan_date [] (mkdate 2025 6 30) state0).1 !! "2025-06-30" = None /\
  (get_menus_for_dates (fixed_sheets [("Juin", grid_column0)]) env_ok
     [mkdate 2025 6 30] state0).2 = Ok ∅.
Proof.
  split; [|split; reflexivity].
  intros H. specialize (H [] (mkdate 2025 6 30) state0 eq_refl).
  cbn in H. rewrite lookup_empty in H. done.
Qed.

(** C10. The existence check of the resolver accepts every grid from
    which the extraction scan writes an entry, and accepts more: a date
    cell in column 0, or in a row whose first cell is not blank, makes
    [date_exists_in_sheet] return [True] while the extraction scan
    writes nothing. *)
Theorem existence_check_more_permissive :
  (forall w ws d st g log,
     answer_values w (calls st) ws = Ok g ->
     is_Some (menus (scan_date g d (mkstate log ∅)).1 !! strftime_ymd d) ->
     (date_exists_in_sheet w ws d st).2 = Ok true) /\
  (let d := mkdate 2025 6 30 in
   let g := [ ["lundi 30/06"; "x"] ] in
   (date_exists_in_sheet (fixed_sheets [("Juin", g)]) "Juin" d state0).2
     = Ok true /\
   scan_date g d state0 = (state0, Ok tt)) /\
  (let d := mkdate 2025 6 30 in
   let g := [ ["Semaine 27"; "lundi 30/06"]; ["Midi"; "Pates"] ] in
   (date_exists_in_sheet (fixed_sheets [("Juin", g)]) "Juin" d state0).2
     = Ok true /\
   scan_date g d state0 = (state0, Ok tt)).
Proof.
  split; [|split; split; reflexivity].
  intros w ws d st g log Hg Hsome.
  rewrite date_exists_in_sheet_spec, Hg. cbn [snd]. f_equal.
  rewrite scan_date_spec in Hsome.
  destruct (find_match (strftime_dm d) g 0) as [[i c]|] eqn:Hf.
  - destruct (find_match_Some _ _ _ _ _ Hf) as (k & _ & Hm & _).
    by apply (match_at_grid_has_date _ _ k c).
  - cbn in Hsome. rewrite lookup_empty in Hsome. by destruct Hsome.
Qed.

Lemma existence_check_more_permissive_witness :
  (date_exists_in_sheet (fixed_sheets [("Juin", grid_june)]) "Juin"
     (mkdate 2025 6 30) state0).2 = Ok true.
Proof.
  apply (proj1 existence_check_more_permissive
           (fixed_sheets [("Juin", grid_june)]) "Juin" (mkdate 2025 6 30)
           state0 grid_june []).
  - reflexivity.
  - eexists. reflexivity.
Defined.

(** ** The batch *)

Lemma determine_sheet_for_date_ok w d st :
  valid_date d ->
  answer_open w (calls st) = Ok tt ->
  exists cs r,
    determine_sheet_for_date w d st =
    (mkstate (calls st ++ cs) (menus st), Ok r).
Proof.
  intros Hv Hopen. destruct (candidates_is_Some d Hv) as [names Hn].
  rewrite (determine_sheet_for_date_spec w d names st Hn).
  unfold resolve_trace. rewrite Hopen.
  destruct (probe_trace w (strftime_dm d) (calls st ++ [OpenByKey]) names)
    as [cs [name|]]; cbn [fst snd]; by eexists _, _.
Qed.

Lemma group_dates_ok w dates groups st :
  Forall valid_date dates ->
  (forall log, answer_open w log = Ok tt) ->
  exists cs groups',
    group_dates w dates groups st =
    (mkstate (calls st ++ cs) (menus st), Ok groups').
Proof.
  intros Hv Hopen. revert groups st.
  induction Hv as [|d rest Hd _ IH]; intros groups st.
  - exists [], groups. cbn. rewrite app_nil_r. by destruct st.
  - destruct (determine_sheet_for_date_ok w d st Hd (Hopen _))
      as (cs & r & Hdet).
    cbn [group_dates]. erewrite bind_ok by exact Hdet.
    destruct r as [ws|].
    + destruct (IH (add_date ws d groups) (mkstate (calls st ++ cs) (menus st)))
        as (cs' & groups' & ->).
      exists (cs ++ cs'), groups'. cbn [calls menus]. by rewrite app_assoc.
    + destruct (IH groups (mkstate (calls st ++ cs) (menus st)))
        as (cs' & groups' & ->).
      exists (cs ++ cs'), groups'. cbn [calls menus]. by rewrite app_assoc.
Qed.

Lemma add_date_groups_from dates title d groups :
  d ∈ dates -> groups_from dates groups ->
  groups_from dates (add_date title d groups).
Proof.
  intros Hd. unfold groups_from.
  induction groups as [|[t ds] rest IH]; intros H.
  - cbn. constructor; [|done]. cbn. split; [done|].
    by intros d' ->%list_elem_of_singleton.
  - apply Forall_cons in H. destruct H as [[Hne Hin] Hrest]. cbn in Hne, Hin.
    cbn [add_date]. destruct (String.eqb t title).
    + constructor; [|done]. cbn. split.
      * by destruct ds.
      * intros d' [?| ->%list_elem_of_singleton]%elem_of_app; auto.
    + constructor; [done|]. by apply IH.
Qed.

Lemma group_dates_groups_from w all dates groups st st' groups' :
  (forall d, d ∈ dates -> d ∈ all) ->
  group_dates w dates groups st = (st', Ok groups') ->
  groups_from all groups -> groups_from all groups'.
Proof.
  revert groups st. induction dates as [|d rest IH]; intros groups st Hin H Hg.
  - cbn in H. by injection H as _ <-.
  - cbn [group_dates] in H. unfold mbind, M_bind in H.
    assert (forall d', d' ∈ rest -> d' ∈ all) as Hin'.
    { intros d' Hd'. apply Hin. by apply list_elem_of_further. }
    destruct (determine_sheet_for_date w d st) as [st1 [[ws|]|e]]; [| |done].
    + eapply IH; [exact Hin'|exact H|].
      apply add_date_groups_from; [|done]. apply Hin, list_elem_of_here.
    + eapply IH; [exact Hin'|exact H|done].
Qed.

Lemma fetch_count_app title cs cs' :
  fetch_count title (cs ++ cs') = fetch_count title cs + fetch_count title cs'.
Proof. unfold fetch_count. by rewrite filter_app, length_app. Qed.

Lemma fetch_count_fetches title titles :
  NoDup titles ->
  fetch_count title (map GetAllValues titles) =
  if decide (title ∈ titles) then 1 else 0.
Proof.
  unfold fetch_count. induction 1 as [|t rest Hnin Hnd IH]; [done|].
  cbn [map]. rewrite filter_cons.
  destruct (decide (GetAllValues t = GetAllValues title)) as [[= ->]|Hne].
  - cbn [length]. rewrite IH, decide_False by done.
    rewrite decide_True; [done|apply list_elem_of_here].
  - rewrite IH. destruct (decide (title ∈ rest)) as [Hin|Hnin'].
    + rewrite decide_True; [done|by apply list_elem_of_further].
    + rewrite decide_False; [done|].
      intros [->|?]%elem_of_cons; done.
Qed.

(** The dates grouped under the tab [t]. *)
Lemma add_date_grouped title d groups t x :
  (exists ds, (t, ds) ∈ add_date title d groups /\ x ∈ ds) <->
  (exists ds, (t, ds) ∈ groups /\ x ∈ ds) \/ (t = title /\ x = d).
Proof.
  induction groups as [|[t0 ds0] rest IH].
  - cbn. split.
    + intros (ds & Hin & Hx). apply list_elem_of_singleton in Hin.
      injection Hin as -> ->. apply list_elem_of_singleton in Hx. auto.
    + intros [(ds & Hin & _)|[-> ->]]; [by apply elem_of_nil in Hin|].
      exists [d]. split; apply list_elem_of_singleton; done.
  - cbn [add_date]. destruct (String.eqb_spec t0 title) as [->|Hne].
    + split.
      * intros (ds & Hin & Hx). apply elem_of_cons in Hin as [Heq|Hin].
        -- injection Heq as -> ->.
           apply elem_of_app in Hx as [Hx|Hx%list_elem_of_singleton].
           ++ left. exists ds0. split; [apply list_elem_of_here|done].
           ++ by right.
        -- left. exists ds. split; [by apply list_elem_of_further|done].
      * intros [(ds & Hin & Hx)|[-> ->]].
        -- apply elem_of_cons in Hin as [Heq|Hin].
           ++ injection Heq as -> ->. exists (ds0 ++ [d]).
              split; [apply list_elem_of_here|].
              apply elem_of_app. by left.
           ++ exists ds. split; [by apply list_elem_of_further|done].
        -- exists (ds0 ++ [d]). split; [apply list_elem_of_here|].
           apply elem_of_app. right. by apply list_elem_of_singleton.
    + split.
      * intros (ds & Hin & Hx). apply elem_of_cons in Hin as [Heq|Hin].
        -- injection Heq as -> ->. left. exists ds0.
           split; [apply list_elem_of_here|done].
        -- destruct (proj1 IH) as [(ds' & Hin' & Hx')|Hnew]; [by exists ds| |].
           ++ left. exists ds'. split; [by apply list_elem_of_further|done].
           ++ by right.
      * intros [(ds & Hin & Hx)|Hnew].
        -- apply elem_of_cons in Hin as [Heq|Hin].
           ++ injection Heq as -> ->. exists ds0.
              split; [apply list_elem_of_here|done].
           ++ destruct (proj2 IH) as (ds' & Hin' & Hx'); [left; by exists ds|].
              exists ds'. split; [by apply list_elem_of_further|done].
        -- destruct (proj2 IH) as (ds' & Hin' & Hx'); [by right|].
           exists ds'. split; [by apply list_elem_of_further|done].
Qed.

Lemma add_date_elem title d groups t ds' :
  (t, ds') ∈ add_date title d groups ->
  (t, ds') ∈ groups \/
  (t = title /\
   ((exists ds, (title, ds) ∈ groups /\ ds' = ds ++ [d]) \/ ds' = [d])).
Proof.
  induction groups as [|[t0 ds0] rest IH]; cbn [add_date].
  - intros Hin. apply list_elem_of_singleton in Hin. injection Hin as -> ->.
    right. split; [done|by right].
  - destruct (String.eqb_spec t0 title) as [->|Hne].
    + intros [Heq|Hin]%elem_of_cons.
      * injection Heq as -> ->. right. split; [done|]. left.
        exists ds0. split; [apply list_elem_of_here|done].
      * left. by apply list_elem_of_further.
    + intros [Heq|Hin]%elem_of_cons.
      * injection Heq as -> ->. left. apply list_elem_of_here.
      * destruct (IH Hin) as [H|(-> & [(ds & H & ->)| ->])].
        -- left. by apply list_elem_of_further.
        -- right. split; [done|]. left. exists ds.
           split; [by apply list_elem_of_further|done].
        -- right. split; [done|by right].
Qed.

(** ** The groups and the resolutions they come from *)

Lemma group_dates_cons w d rest groups st st1 r :
  determine_sheet_for_date w d st = (st1, Ok r) ->
  group_dates w (d :: rest) groups st =
  group_dates w rest
    (match r with Some ws => add_date ws d groups | None => groups end) st1.
Proof.
  intros H. cbn [group_dates]. erewrite bind_ok by exact H. by destruct r.
Qed.

Lemma group_dates_app w pre post groups st st1 groups1 :
  group_dates w (pre ++ post) groups st = (st1, Ok groups1) ->
  exists st0 groups0,
    group_dates w pre groups st = (st0, Ok groups0) /\
    group_dates w post groups0 st0 = (st1, Ok groups1).
Proof.
  revert groups st. induction pre as [|d pre IH]; intros groups st H.
  - exists st, groups. by split.
  - cbn [app] in H.
    destruct (determine_sheet_for_date w d st) as [st' [r|e]] eqn:Hd.
    + rewrite (group_dates_cons w d _ groups st st' r Hd) in H.
      destruct (IH _ _ H) as (st0 & groups0 & H1 & H2).
      exists st0, groups0. split; [|exact H2].
      by rewrite (group_dates_cons w d _ groups st st' r Hd).
    + cbn [group_dates] in H. erewrite bind_raise in H by exact Hd. done.
Qed.

Lemma group_dates_keeps w dates groups st st1 groups1 t x :
  group_dates w dates groups st = (st1, Ok groups1) ->
  (exists ds, (t, ds) ∈ groups /\ x ∈ ds) ->
  exists ds, (t, ds) ∈ groups1 /\ x ∈ ds.
Proof.
  revert groups st. induction dates as [|d rest IH]; intros groups st H Hin.
  - cbn in H. by injection H as _ <-.
  - destruct (determine_sheet_for_date w d st) as [st' [r|e]] eqn:Hd.
    + rewrite (group_dates_cons w d _ groups st st' r Hd) in H.
      apply (IH _ _ H). destruct r as [ws|]; [|exact Hin].
      apply add_date_grouped. by left.
    + cbn [group_dates] in H. erewrite bind_raise in H by exact Hd. done.
Qed.

Lemma group_dates_origin w dates groups st st1 groups1 t x :
  group_dates w dates groups st = (st1, Ok groups1) ->
  (exists ds, (t, ds) ∈ groups1 /\ x ∈ ds) ->
  (exists ds, (t, ds) ∈ groups /\ x ∈ ds) \/
  exists pre post st0 groups0,
    dates = pre ++ x :: post /\
    group_dates w pre groups st = (st0, Ok groups0) /\
    (determine_sheet_for_date w x st0).2 = Ok (Some t).
Proof.
  revert groups st. induction dates as [|d rest IH]; intros groups st H Hin.
  - cbn in H. injection H as _ <-. by left.
  - destruct (determine_sheet_for_date w d st) as [st' [r|e]] eqn:Hd.
    + rewrite (group_dates_cons w d _ groups st st' r Hd) in H.
      destruct (IH _ _ H Hin)
        as [Hold|(pre & post & st0 & groups0 & -> & Hpre & Hx)].
      * destruct r as [ws|]; [|by left].
        apply add_date_grouped in Hold as [Hold|[-> ->]]; [by left|].
        right. exists [], rest, st, groups.
        split; [done|]. split; [done|]. by rewrite Hd.
      * right. exists (d :: pre), post, st0, groups0.
        split; [done|]. split; [|exact Hx].
        by rewrite (group_dates_cons w d _ groups st st' r Hd).
    + cbn [group_dates] in H. erewrite bind_raise in H by exact Hd. done.
Qed.

(** ** The fetches of the existence checks *)

Lemma probe_trace_fetched w key log names name :
  (probe_trace w key log names).2 = Some name ->
  1 <= fetch_count name (probe_trace w key log names).1.
Proof.
  intros H. destruct (probe_trace_returned w key log names name H)
    as (l0 & -> & _).
  rewrite fetch_count_app. unfold fetch_count at 2.
  rewrite filter_cons_False by done. rewrite filter_cons_True by done.
  cbn [length]. lia.
Qed.

Lemma determine_sheet_for_date_fetched w d st st1 name :
  valid_date d ->
  determine_sheet_for_date w d st = (st1, Ok (Some name)) ->
  exists cs, calls st1 = calls st ++ cs /\ 1 <= fetch_count name cs.
Proof.
  intros Hv H. destruct (candidates_is_Some d Hv) as [names Hn].
  rewrite (determine_sheet_for_date_spec w d names st Hn) in H.
  injection H as <- Hr. cbn [calls]. eexists. split; [reflexivity|].
  unfold resolve_trace in *.
  destruct (answer_open w (calls st)) as [[]|e]; [|done].
  pose proof (probe_trace_fetched w (strftime_dm d) (calls st ++ [OpenByKey])
                names name) as Hf.
  destruct (probe_trace w (strftime_dm d) (calls st ++ [OpenByKey]) names)
    as [cs [n|]]; cbn [fst snd] in *; [|done].
  injection Hr as ->. specialize (Hf eq_refl).
  change (OpenByKey :: cs) with ([OpenByKey] ++ cs).
  rewrite fetch_count_app. lia.
Qed.

Lemma determine_sheet_for_date_calls w d st :
  valid_date d ->
  exists cs, calls (determine_sheet_for_date w d st).1 = calls st ++ cs.
Proof.
  intros Hv. destruct (candidates_is_Some d Hv) as [names Hn].
  rewrite (determine_sheet_for_date_spec w d names st Hn). by eexists.
Qed.

Lemma group_dates_fetched w dates groups st st1 groups1 cs0 :
  Forall valid_date dates ->
  group_dates w dates groups st = (st1, Ok groups1) ->
  (forall t ds, (t, ds) ∈ groups -> length ds <= fetch_count t cs0) ->
  exists cs,
    calls st1 = calls st ++ cs /\
    forall t ds, (t, ds) ∈ groups1 -> length ds <= fetch_count t (cs0 ++ cs).
Proof.
  intros Hv. revert groups st cs0.
  induction Hv as [|d rest Hd _ IH]; intros groups st cs0 H Hinv.
  - cbn in H. injection H as <- <-. exists []. by rewrite !app_nil_r.
  - destruct (determine_sheet_for_date w d st) as [st' [r|e]] eqn:Hdet.
    + rewrite (group_dates_cons w d _ groups st st' r Hdet) in H.
      destruct (determine_sheet_for_date_calls w d st Hd) as [cs Hcs].
      rewrite Hdet in Hcs. cbn [fst] in Hcs.
      destruct (IH _ _ (cs0 ++ cs) H) as (cs' & Hcs' & Hinv').
      * intros t ds Hin. rewrite fetch_count_app. destruct r as [ws|].
        -- destruct (determine_sheet_for_date_fetched w d st st' ws Hd Hdet)
             as (cs2 & Hcs2 & Hf).
           rewrite Hcs in Hcs2. apply app_inv_head in Hcs2 as <-.
           destruct (add_date_elem _ _ _ _ _ Hin)
             as [Hold|(-> & [(ds0 & Hold & ->)| ->])].
           ++ specialize (Hinv _ _ Hold). lia.
           ++ specialize (Hinv _ _ Hold). rewrite length_app. cbn [length].
              lia.
           ++ cbn [length]. lia.
        -- specialize (Hinv _ _ Hin). lia.
      * exists (cs ++ cs'). split.
        -- by rewrite Hcs', Hcs, app_assoc.
        -- intros t ds Hin. rewrite app_assoc. by apply Hinv'.
    + cbn [group_dates] in H. erewrite bind_raise in H by exact Hdet. done.
Qed.

Lemma get_menus_for_dates_unfold w env dates st st1 groups :
  setup_connection env = true ->
  group_dates w dates [] (mkstate (calls st) ∅) = (st1, Ok groups) ->
  get_menus_for_dates w env dates st =
  (mkstate (calls st1 ++ map GetAllValues (map fst groups))
     (processed_menus w groups (calls st1) (menus st1)),
   Ok (processed_menus w groups (calls st1) (menus st1))).
Proof.
  intros Hs Hg. unfold get_menus_for_dates. rewrite Hs. cbn [negb].
  erewrite bind_ok by reflexivity.
  erewrite bind_ok by exact Hg.
  erewrite bind_ok by apply process_worksheets_spec.
  reflexivity.
Qed.

(** C1 (amended). In the second loop of [get_menus_for_dates] each
    distinct resolved tab is fetched exactly once, however many of the
    requested dates were grouped under it: the calls of that loop are
    one [get_all_values] per group, the groups have distinct titles and
    each holds at least one requested date; the groups are the tabs
    the dates resolved to, a date whose resolution returned a tab
    being in the group of that tab, and every date of a group having
    resolved to its tab. The fetches made before, by the existence
    checks of the resolution, come in addition: the resolution of each
    date of a group fetched the grid of its tab, so over the whole
    batch a tab with n grouped dates is fetched at least n + 1 times,
    hence more than once. *)
Theorem second_loop_fetches_each_tab_once w env dates st st1 groups :
  setup_connection env = true ->
  group_dates w dates [] (mkstate (calls st) ∅) = (st1, Ok groups) ->
  NoDup (map fst groups) /\
  groups_from dates groups /\
  (exists m,
     get_menus_for_dates w env dates st =
     (mkstate (calls st1 ++ map GetAllValues (map fst groups)) m, Ok m)) /\
  (forall title,
     fetch_count title (map GetAllValues (map fst groups)) =
     if decide (title ∈ map fst groups) then 1 else 0) /\
  (forall title,
     fetch_count title (calls st1 ++ map GetAllValues (map fst groups)) =
     fetch_count title (calls st1) +
     if decide (title ∈ map fst groups) then 1 else 0) /\
  (forall pre d post st0 groups0 t,
     dates = pre ++ d :: post ->
     group_dates w pre [] (mkstate (calls st) ∅) = (st0, Ok groups0) ->
     (determine_sheet_for_date w d st0).2 = Ok (Some t) ->
     exists ds, (t, ds) ∈ groups /\ d ∈ ds) /\
  (forall t ds d,
     (t, ds) ∈ groups -> d ∈ ds ->
     exists pre post st0 groups0,
       dates = pre ++ d :: post /\
       group_dates w pre [] (mkstate (calls st) ∅) = (st0, Ok groups0) /\
       (determine_sheet_for_date w d st0).2 = Ok (Some t)) /\
  (Forall valid_date dates ->
   exists cs,
     calls st1 = calls st ++ cs /\
     forall t ds,
       (t, ds) ∈ groups ->
       length ds <= fetch_count t cs /\
       fetch_count t (cs ++ map GetAllValues (map fst groups)) =
         fetch_count t cs + 1 /\
       length ds + 1 <= fetch_count t (cs ++ map GetAllValues (map fst groups))
       /\ 2 <= fetch_count t (cs ++ map GetAllValues (map fst groups))).
Proof.
  intros Hs Hg.
  assert (NoDup (map fst groups)) as Hnd.
  { eapply group_dates_NoDup; [exact Hg|]. cbn. apply NoDup_nil_2. }
  assert (groups_from dates groups) as Hfrom.
  { eapply group_dates_groups_from; [|exact Hg|by constructor]. done. }
  split; [exact Hnd|]. split; [exact Hfrom|].
  split.
  { eexists. by apply get_menus_for_dates_unfold. }
  split.
  { intros title. by apply fetch_count_fetches. }
  split.
  { intros title. by rewrite fetch_count_app, fetch_count_fetches. }
  split; [|split].
  - intros pre d post st0 groups0 t -> Hpre Hd.
    destruct (group_dates_app w pre (d :: post) [] _ st1 groups Hg)
      as (st0' & groups0' & Hpre' & Hrest).
    rewrite Hpre in Hpre'. injection Hpre' as <- <-.
    destruct (determine_sheet_for_date w d st0) as [st' r] eqn:Hdet.
    cbn [snd] in Hd. subst r.
    rewrite (group_dates_cons w d post groups0 st0 st' (Some t) Hdet) in Hrest.
    apply (group_dates_keeps w post _ st' st1 groups t d Hrest).
    apply add_date_grouped. by right.
  - intros t ds d Hin Hd.
    destruct (group_dates_origin w dates [] _ st1 groups t d Hg)
      as [(ds0 & H0 & _)|H]; [by exists ds| |exact H].
    by apply elem_of_nil in H0.
  - intros Hv.
    destruct (group_dates_fetched w dates [] _ st1 groups [] Hv Hg)
      as (cs & Hcs & Hinv).
    { intros t ds H. by apply elem_of_nil in H. }
    exists cs. split; [exact Hcs|]. intros t ds Hin.
    specialize (Hinv t ds Hin). cbn [app] in Hinv.
    assert (fetch_count t (cs ++ map GetAllValues (map fst groups)) =
            fetch_count t cs + 1) as Htot.
    { rewrite fetch_count_app, fetch_count_fetches by done.
      rewrite decide_True; [done|].
      apply list_elem_of_fmap. by exists (t, ds). }
    assert (1 <= length ds) as Hne.
    { unfold groups_from in Hfrom.
      destruct (proj1 (Forall_forall _ _) Hfrom (t, ds) Hin) as [Hne _].
      cbn in Hne. destruct ds; [done|cbn; lia]. }
    split; [exact Hinv|]. split; [exact Htot|]. split; lia.
Qed.

Lemma second_loop_fetches_each_tab_once_witness :
  exists st1 m,
    get_menus_for_dates (fixed_sheets [("Juin", grid_june)]) env_ok
      [mkdate 2025 6 30; mkdate 2025 7 1] state0 =
    (mkstate (calls st1 ++ [GetAllValues "Juin"]) m, Ok m).
Proof.
  destruct (second_loop_fetches_each_tab_once
              (fixed_sheets [("Juin", grid_june)]) env_ok
              [mkdate 2025 6 30; mkdate 2025 7 1] state0
              (mkstate [OpenByKey; GetWorksheet "Juin"; GetAllValues "Juin";
                        OpenByKey; GetWorksheet "Juin"; GetAllValues "Juin"] ∅)
              [("Juin", [mkdate 2025 6 30; mkdate 2025 7 1])])
    as (_ & _ & [m Hm] & _).
  - reflexivity.
  - reflexivity.
  - eexists _, m. exact Hm.
Defined.

(** C1, as stated, fails: two dates that resolve to the tab "Juin" make
    three fetches of its grid, one by each existence check and one by
    the second loop. *)
Lemma batch_fetches_counterexample :
  calls (get_menus_for_dates (fixed_sheets [("Juin", grid_june)]) env_ok
           [mkdate 2025 6 30; mkdate 2025 7 1] state0).1 =
    [OpenByKey; GetWorksheet "Juin"; GetAllValues "Juin";
     OpenByKey; GetWorksheet "Juin"; GetAllValues "Juin";
     GetAllValues "Juin"] /\
  fetch_count "Juin"
    (calls (get_menus_for_dates (fixed_sheets [("Juin", grid_june)]) env_ok
              [mkdate 2025 6 30; mkdate 2025 7 1] state0).1) = 3 /\
  ~ (forall w env dates st title,
       fetch_count title (calls (get_menus_for_dates w env dates st).1)
       <= fetch_count title (calls st) + 1).
Proof.
  split; [reflexivity|]. split; [reflexivity|].
  intros H.
  specialize (H (fixed_sheets [("Juin", grid_june)]) env_ok
                [mkdate 2025 6 30; mkdate 2025 7 1] state0 "Juin").
  vm_compute in H. lia.
Qed.

(** C3 (amended). The batch never raises for a partial failure: once
    the connection is set up and as long as the spreadsheet can be
    opened, it returns a result whatever the worksheets answer, and a
    fetch that raises in the second loop is caught, leaves the
    dictionary as it was and lets the loop go on with the next tab. A
    failure of the connection setup is not reported as an error: the
    batch returns the empty result without raising and without any
    call. The exception that does reach the caller is that of
    [open_by_key] when a date is resolved. *)
Theorem batch_failure_semantics w env dates st :
  Forall valid_date dates ->
  (setup_connection env = false ->
   get_menus_for_dates w env dates st = (st, Ok ∅)) /\
  (setup_connection env = true ->
   (forall log, answer_open w log = Ok tt) ->
   exists st' m, get_menus_for_dates w env dates st = (st', Ok m)) /\
  (forall ws ds rest st1 e,
     answer_values w (calls st1) ws = Raise e ->
     process_worksheets w ((ws, ds) :: rest) st1 =
     process_worksheets w rest
       (mkstate (calls st1 ++ [GetAllValues ws]) (menus st1))) /\
  (forall d rest e,
     dates = d :: rest ->
     setup_connection env = true ->
     answer_open w (calls st) = Raise e ->
     get_menus_for_dates w env dates st =
     (mkstate (calls st ++ [OpenByKey]) ∅, Raise e)).
Proof.
  intros Hv. split; [|split; [|split]].
  - intros Hs. unfold get_menus_for_dates. by rewrite Hs.
  - intros Hs Hopen.
    destruct (group_dates_ok w dates [] (mkstate (calls st) ∅) Hv Hopen)
      as (cs & groups & Hg).
    rewrite (get_menus_for_dates_unfold w env dates st _ groups Hs Hg).
    by eexists _, _.
  - intros ws ds rest st1 e He. cbn [process_worksheets].
    erewrite bind_ok by apply fetch_block_spec. by rewrite He.
  - intros d rest e -> Hs He. unfold get_menus_for_dates. rewrite Hs.
    cbn [negb]. erewrite bind_ok by reflexivity.
    cbn [group_dates]. apply bind_raise. apply bind_raise.
    by apply determine_sheet_for_date_open_fails.
Qed.

Lemma batch_failure_semantics_witness :
  get_menus_for_dates (fixed_sheets [("Juin", grid_june)])
    (mkenv true false true) [mkdate 2025 6 30] state0 = (state0, Ok ∅) /\
  exists st' m,
    get_menus_for_dates (fixed_sheets [("Juin", grid_june)]) env_ok
      [mkdate 2025 6 30] state0 = (st', Ok m).
Proof.
  destruct (batch_failure_semantics (fixed_sheets [("Juin", grid_june)])
              (mkenv true false true) [mkdate 2025 6 30] state0)
    as (Hfail & _).
  { repeat constructor; cbn; lia. }
  destruct (batch_failure_semantics (fixed_sheets [("Juin", grid_june)])
              env_ok [mkdate 2025 6 30] state0)
    as (_ & Hok & _).
  { repeat constructor; cbn; lia. }
  split.
  - apply Hfail. reflexivity.
  - apply Hok; [reflexivity|]. intros log. reflexivity.
Defined.

(** C3, as stated, fails: when the connection cannot be set up (here
    the credentials file is missing) the batch returns the empty result
    and raises nothing. *)
Lemma setup_failure_counterexample :
  setup_connection (mkenv true false true) = false /\
  get_menus_for_dates (fixed_sheets [("Juin", grid_june)])
    (mkenv true false true) [mkdate 2025 6 30] state0 = (state0, Ok ∅) /\
  ~ (forall w env dates st,
       setup_connection env = false ->
       exists st' e, get_menus_for_dates w env dates st = (st', Raise e)).
Proof.
  split; [reflexivity|]. split; [reflexivity|].
  intros H.
  destruct (H (fixed_sheets [("Juin", grid_june)]) (mkenv true false true)
              [mkdate 2025 6 30] state0 eq_refl) as (st' & e & He).
  discriminate He.
Qed.

(** * Further properties of the code *)

(** ** The extraction of one date and the dictionary *)

(** X1. The extraction of a date returns normally, makes no call to the
    client and leaves every entry of the dictionary other than that of
    the date as it was. *)
Theorem extraction_touches_only_its_key g d st :
  exists st',
    scan_date g d st = (st', Ok tt) /\
    calls st' = calls st /\
    forall key, key <> strftime_ymd d -> menus st' !! key = menus st !! key.
Proof.
  rewrite scan_date_spec.
  destruct (find_match (strftime_dm d) g 0) as [[i c]|].
  - eexists. split; [reflexivity|]. split; [reflexivity|].
    intros key Hkey. cbn [menus]. by rewrite lookup_insert_ne.
  - by exists st.
Qed.

Lemma extraction_touches_only_its_key_witness :
  exists st',
    scan_date grid_june (mkdate 2025 6 30)
      (mkstate [OpenByKey] (<["2025-06-29" := mkentry "Riz" "Oeufs"]> ∅))
    = (st', Ok tt) /\
    menus st' !! "2025-06-29" = Some (mkentry "Riz" "Oeufs").
Proof.
  destruct (extraction_touches_only_its_key grid_june (mkdate 2025 6 30)
              (mkstate [OpenByKey]
                 (<["2025-06-29" := mkentry "Riz" "Oeufs"]> ∅)))
    as (st' & Hscan & _ & Hframe).
  exists st'. split; [exact Hscan|].
  rewrite (Hframe "2025-06-29"); [reflexivity|].
  vm_compute. discriminate.
Defined.

(** X2. Extracting the same date twice from the same grid gives the
    same dictionary as extracting it once, and when the grid has a match
    for the date the entry written does not depend on what the
    dictionary held before under that key (the old entry is replaced,
    not completed). *)
Theorem extraction_is_idempotent g d st :
  scan_date g d (scan_date g d st).1 = scan_date g d st /\
  (forall i c old,
     find_match (strftime_dm d) g 0 = Some (i, c) ->
     menus (scan_date g d
              (mkstate (calls st) (<[strftime_ymd d := old]> (menus st)))).1
     = menus (scan_date g d st).1).
Proof.
  split.
  - rewrite !scan_date_spec.
    destruct (find_match (strftime_dm d) g 0) as [[i c]|]; [|done].
    cbn [fst calls menus]. by rewrite insert_insert_eq.
  - intros i c old Hf. rewrite !scan_date_spec, Hf.
    cbn [fst calls menus]. by rewrite insert_insert_eq.
Qed.

Lemma extraction_is_idempotent_witness :
  menus (scan_date grid_june (mkdate 2025 6 30)
           (mkstate [] (<["2025-06-30" := mkentry "old" "old"]> ∅))).1
  = menus (scan_date grid_june (mkdate 2025 6 30) state0).1.
Proof.
  apply (proj2 (extraction_is_idempotent grid_june (mkdate 2025 6 30) state0)
           0 1 (mkentry "old" "old")).
  reflexivity.
Defined.

(** ** The keys of the dictionary *)

Lemma digit_inj a b :
  (0 <= a <= 9)%Z -> (0 <= b <= 9)%Z -> Str.digit a = Str.digit b -> a = b.
Proof.
  intros Ha Hb H.
  assert (a = 0 \/ a = 1 \/ a = 2 \/ a = 3 \/ a = 4 \/ a = 5 \/ a = 6 \/
          a = 7 \/ a = 8 \/ a = 9)%Z as Ca by lia.
  assert (b = 0 \/ b = 1 \/ b = 2 \/ b = 3 \/ b = 4 \/ b = 5 \/ b = 6 \/
          b = 7 \/ b = 8 \/ b = 9)%Z as Cb by lia.
  clear Ha Hb.
  repeat (destruct Ca as [->|Ca]); try subst a;
    repeat (destruct Cb as [->|Cb]); try subst b;
    (reflexivity || (vm_compute in H; discriminate H)).
Qed.

Lemma zfill2_inj a b :
  (0 <= a <= 99)%Z -> (0 <= b <= 99)%Z -> Str.zfill2 a = Str.zfill2 b -> a = b.
Proof.
  intros Ha Hb H. unfold Str.zfill2 in H. injection H as H1 H2.
  apply digit_inj in H1; [|Z.div_mod_to_equations; lia..].
  apply digit_inj in H2; [|Z.div_mod_to_equations; lia..].
  revert H1 H2. Z.div_mod_to_equations. lia.
Qed.

Lemma zfill4_inj a b :
  (0 <= a <= 9999)%Z -> (0 <= b <= 9999)%Z ->
  Str.zfill4 a = Str.zfill4 b -> a = b.
Proof.
  intros Ha Hb H. unfold Str.zfill4, Str.zfill2 in H.
  injection H as H1 H2 H3 H4.
  apply digit_inj in H1; [|Z.div_mod_to_equations; lia..].
  apply digit_inj in H2; [|Z.div_mod_to_equations; lia..].
  apply digit_inj in H3; [|Z.div_mod_to_equations; lia..].
  apply digit_inj in H4; [|Z.div_mod_to_equations; lia..].
  revert H1 H2 H3 H4. Z.div_mod_to_equations. lia.
Qed.

Lemma date_fields_ok_valid y m d :
  date_fields_ok y m d = true <-> valid_date (mkdate y m d).
Proof.
  unfold date_fields_ok, valid_date. cbn [year month day].
  rewrite !andb_true_iff, !Z.leb_le. tauto.
Qed.

Lemma valid_date_ranges d :
  valid_date d ->
  (1 <= year d <= 9999 /\ 1 <= month d <= 12 /\ 1 <= day d <= 31)%Z.
Proof.
  intros (Hy & Hm & Hd).
  pose proof (calendar_days_bounds (year d) (month d)). lia.
Qed.

Lemma strftime_ymd_inj d d' :
  valid_date d -> valid_date d' -> strftime_ymd d = strftime_ymd d' -> d = d'.
Proof.
  intros Hv Hv'. apply valid_date_ranges in Hv, Hv'.
  destruct d as [y m dd], d' as [y' m' dd']. cbn [year month day] in *.
  unfold strftime_ymd. cbn [year month day]. intros H.
  assert (Str.zfill4 y = Str.zfill4 y' /\ Str.zfill2 m = Str.zfill2 m' /\
          Str.zfill2 dd = Str.zfill2 dd') as (Hy & Hm & Hd).
  { unfold Str.zfill4, Str.zfill2 in *. cbn in H.
    injection H as -> -> -> -> -> -> -> ->. done. }
  apply zfill4_inj in Hy; [|lia..].
  apply zfill2_inj in Hm; [|lia..].
  apply zfill2_inj in Hd; [|lia..].
  by subst.
Qed.

Lemma strftime_dm_inj d d' :
  valid_date d -> valid_date d' -> strftime_dm d = strftime_dm d' ->
  day d = day d' /\ month d = month d'.
Proof.
  intros Hv Hv'. apply valid_date_ranges in Hv, Hv'.
  destruct d as [y m dd], d' as [y' m' dd']. cbn [year month day] in *.
  unfold strftime_dm. cbn [year month day]. intros H.
  assert (Str.zfill2 dd = Str.zfill2 dd' /\ Str.zfill2 m = Str.zfill2 m')
    as (Hd & Hm).
  { unfold Str.zfill2 in *. cbn in H. injection H as -> -> -> ->. done. }
  apply zfill2_inj in Hm; [|lia..].
  apply zfill2_inj in Hd; [|lia..].
  done.
Qed.

(** X3. Two valid dates have the same dictionary key ('%Y-%m-%d') only
    if they are the same day, and the same search text ('%d/%m') exactly
    when they have the same day and month: entries of different days
    never share a key, while the search in the grid does not see the
    year. *)
Theorem date_keys_identify_days d d' :
  valid_date d -> valid_date d' ->
  (strftime_ymd d = strftime_ymd d' -> d = d') /\
  (strftime_dm d = strftime_dm d' <-> day d = day d' /\ month d = month d').
Proof.
  intros Hv Hv'. split; [by apply strftime_ymd_inj|]. split.
  - by apply strftime_dm_inj.
  - intros [Hd Hm]. unfold strftime_dm. by rewrite Hd, Hm.
Qed.

Lemma date_keys_identify_days_witness :
  strftime_dm (mkdate 2024 2 29) = strftime_dm (mkdate 2028 2 29) /\
  (strftime_ymd (mkdate 2024 2 29) = strftime_ymd (mkdate 2028 2 29) ->
   mkdate 2024 2 29 = mkdate 2028 2 29).
Proof.
  destruct (date_keys_identify_days (mkdate 2024 2 29) (mkdate 2028 2 29))
    as [Hkey Hdm].
  - by apply date_fields_ok_valid.
  - by apply date_fields_ok_valid.
  - split; [|exact Hkey]. apply Hdm. split; reflexivity.
Defined.

(** ** The year of the date *)

Lemma bind_ext {A B} (m : M A) (f g : A -> M B) st :
  (forall a st', f a st' = g a st') -> (m ≫= f) st = (m ≫= g) st.
Proof.
  intros H. unfold mbind, M_bind. destruct (m st) as [st' [a|e]]; [|done].
  apply H.
Qed.

Lemma probe_months_same_rendering w d d' months st :
  strftime_dm d = strftime_dm d' ->
  probe_months w d months st = probe_months w d' months st.
Proof.
  intros Hdm. revert st. induction months as [|m rest IH]; intros st; [done|].
  cbn [probe_months]. apply bind_ext. intros name st1.
  erewrite !bind_ok by apply probe_step. rewrite Hdm.
  destruct (probe_ok w (strftime_dm d') (calls st1) name); [done|apply IH].
Qed.

(** X4. The year of a date plays no part in the lookup, except through
    the length of February: for two dates with the same day and month,
    the existence check and the extraction read the same cells (the
    entries are equal, under the keys of the two dates), and outside
    February the resolver asks the same calls and returns the same
    tab. *)
Theorem lookup_ignores_the_year d d' :
  day d = day d' -> month d = month d' ->
  (forall w ws st,
     date_exists_in_sheet w ws d st = date_exists_in_sheet w ws d' st) /\
  (forall g log,
     menus (scan_date g d (mkstate log ∅)).1 !! strftime_ymd d =
     menus (scan_date g d' (mkstate log ∅)).1 !! strftime_ymd d') /\
  (month d <> 2%Z ->
   months_to_check d = months_to_check d' /\
   forall w st,
     determine_sheet_for_date w d st = determine_sheet_for_date w d' st).
Proof.
  intros Hd Hm.
  assert (strftime_dm d = strftime_dm d') as Hdm.
  { unfold strftime_dm. by rewrite Hd, Hm. }
  split; [|split].
  - intros w ws st. by rewrite !date_exists_in_sheet_spec, Hdm.
  - intros g log. rewrite !scan_date_spec, Hdm.
    destruct (find_match (strftime_dm d') g 0) as [[i c]|]; cbn [fst menus].
    + by rewrite !lookup_insert_eq.
    + by rewrite !lookup_empty.
  - intros H2.
    assert (months_to_check d = months_to_check d') as Hmc.
    { unfold months_to_check, day_before_first. rewrite <- Hd, <- Hm.
      rewrite !Z.add_simpl_r. unfold calendar_days.
      destruct (month d =? 2)%Z eqn:E; [lia|done]. }
    split; [exact Hmc|]. intros w st.
    unfold determine_sheet_for_date, mbind, M_bind.
    destruct (open_by_key w st) as [st1 [[]|e]]; [|done].
    by rewrite Hmc, (probe_months_same_rendering w d d' _ st1 Hdm).
Qed.

Lemma lookup_ignores_the_year_witness :
  determine_sheet_for_date (fixed_sheets [("Juin", grid_june)])
    (mkdate 2025 6 30) state0 =
  determine_sheet_for_date (fixed_sheets [("Juin", grid_june)])
    (mkdate 1999 6 30) state0.
Proof.
  destruct (lookup_ignores_the_year (mkdate 2025 6 30) (mkdate 1999 6 30))
    as (_ & _ & H); [reflexivity|reflexivity|].
  apply H. cbn. lia.
Defined.

(** ** The calls of a resolution and of a batch *)

Lemma fetches_app cs cs' : fetches (cs ++ cs') = fetches cs + fetches cs'.
Proof. unfold fetches. by rewrite List.filter_app, length_app. Qed.

Lemma probe_trace_budget w key log names :
  length (probe_trace w key log names).1 <= 2 * length names /\
  fetches (probe_trace w key log names).1 <= length names.
Proof.
  revert log. induction names as [|n rest IH]; intros log; [cbn; lia|].
  cbn [probe_trace].
  assert (length (probe_calls w log n) <= 2 /\
          fetches (probe_calls w log n) <= 1) as [Hl Hf].
  { unfold probe_calls. destruct (answer_worksheet w log n); cbn; lia. }
  destruct (probe_ok w key log n); cbn [fst length]; [lia|].
  specialize (IH (log ++ probe_calls w log n)).
  destruct (probe_trace w key _ rest) as [cs' r]. cbn [fst] in *.
  rewrite length_app, fetches_app. lia.
Qed.

Lemma month_names_NoDup months names :
  Forall2 (fun m name => month_names m = Some name) months names ->
  NoDup months -> NoDup names.
Proof.
  induction 1 as [|m name months names Hm Hrest IH]; intros Hnd.
  - apply NoDup_nil_2.
  - apply NoDup_cons in Hnd as [Hnin Hnd]. apply NoDup_cons. split; [|auto].
    intros Hin. apply Hnin.
    apply list_elem_of_lookup in Hin as [i Hi].
    destruct (Forall2_lookup_r _ _ _ _ _ Hrest Hi) as (m' & Hm' & Hmn).
    rewrite (month_names_inj m m' name Hm Hmn).
    apply list_elem_of_lookup. eauto.
Qed.

Lemma candidates_NoDup d names :
  valid_date d -> candidates d = Some names ->
  NoDup names /\ length names <= 2.
Proof.
  intros Hv Hn. unfold candidates in Hn.
  pose proof (length_mapM _ _ _ Hn) as Hlen.
  apply mapM_Some_1 in Hn.
  assert (NoDup (months_to_check d) /\ length (months_to_check d) <= 2)
    as [Hnd Hl].
  { pose proof Hv as (_ & Hm & _).
    destruct (months_to_check_cases d Hv) as [[_ ->]|[[_ ->]|[_ ->]]].
    - split; [|cbn; lia]. apply NoDup_cons. split; [|apply NoDup_singleton].
      intros H%list_elem_of_singleton.
      destruct (1 <? month d)%Z eqn:E; lia.
    - split; [apply NoDup_singleton|cbn; lia].
    - split; [|cbn; lia]. apply NoDup_cons. split; [|apply NoDup_singleton].
      intros H%list_elem_of_singleton.
      destruct (month d =? 12)%Z eqn:E; lia. }
  split; [|lia]. by apply (month_names_NoDup (months_to_check d)).
Qed.

Lemma resolve_trace_budget w key log names :
  length (resolve_trace w key log names).1 <= 3 + 2 * length names /\
  fetches (resolve_trace w key log names).1 <= length names.
Proof.
  unfold resolve_trace. destruct (answer_open w log); [|cbn; lia].
  pose proof (probe_trace_budget w key (log ++ [OpenByKey]) names) as [Hl Hf].
  destruct (probe_trace w key (log ++ [OpenByKey]) names) as [cs [name|]];
    cbn [fst snd] in *.
  - change (OpenByKey :: cs) with ([OpenByKey] ++ cs).
    rewrite fetches_app. cbn. lia.
  - change (OpenByKey :: cs ++ ?l) with ([OpenByKey] ++ cs ++ l).
    rewrite !length_app, !fetches_app. unfold listing_calls.
    destruct (answer_open w _); cbn; lia.
Qed.

Lemma determine_sheet_for_date_budget w d st :
  valid_date d ->
  exists cs,
    calls (determine_sheet_for_date w d st).1 = calls st ++ cs /\
    menus (determine_sheet_for_date w d st).1 = menus st /\
    length cs <= 7 /\ fetches cs <= 2 /\ NoDup (worksheet_titles cs).
Proof.
  intros Hv. destruct (candidates_is_Some d Hv) as [names Hn].
  destruct (candidates_NoDup d names Hv Hn) as [Hnd Hlen].
  rewrite (determine_sheet_for_date_spec w d names st Hn). cbn [fst calls menus].
  eexists. split; [reflexivity|]. split; [reflexivity|].
  pose proof (resolve_trace_budget w (strftime_dm d) (calls st) names)
    as [Hl Hf].
  split; [lia|]. split; [lia|].
  destruct (resolve_trace_titles w (strftime_dm d) (calls st) names)
    as [[k Hk] _].
  rewrite Hk in Hnd. by apply NoDup_app in Hnd as [? _].
Qed.

(** X5. For a valid date, whatever the client answers, one resolution
    makes at most 7 calls to the client, at most 2 of them grid fetches,
    never asks twice for the same worksheet, and does not touch the
    dictionary. *)
Theorem resolver_call_budget w d st :
  valid_date d ->
  exists cs,
    calls (determine_sheet_for_date w d st).1 = calls st ++ cs /\
    menus (determine_sheet_for_date w d st).1 = menus st /\
    length cs <= 7 /\ fetches cs <= 2 /\ NoDup (worksheet_titles cs).
Proof. apply determine_sheet_for_date_budget. Qed.

Lemma resolver_call_budget_witness :
  exists cs,
    calls (determine_sheet_for_date (fixed_sheets [("Juin", grid_june)])
             (mkdate 2025 6 30) state0).1 = cs /\
    length cs <= 7.
Proof.
  destruct (resolver_call_budget (fixed_sheets [("Juin", grid_june)])
              (mkdate 2025 6 30) state0) as (cs & Hcs & _ & Hlen & _).
  - by apply date_fields_ok_valid.
  - exists cs. split; [|exact Hlen]. by rewrite Hcs.
Defined.

Lemma add_date_length title d groups :
  length (add_date title d groups) <= S (length groups).
Proof.
  induction groups as [|[t ds] rest IH]; [cbn; lia|].
  cbn [add_date]. destruct (String.eqb t title); cbn [length]; lia.
Qed.

Lemma group_dates_budget w dates groups st :
  Forall valid_date dates ->
  exists cs,
    calls (group_dates w dates groups st).1 = calls st ++ cs /\
    length cs <= 7 * length dates /\
    fetches cs <= 2 * length dates /\
    forall groups',
      (group_dates w dates groups st).2 = Ok groups' ->
      length groups' <= length groups + length dates.
Proof.
  intros Hv. revert groups st.
  induction Hv as [|d rest Hd _ IH]; intros groups st.
  - exists []. cbn. rewrite app_nil_r.
    split; [done|]. split; [lia|]. split; [lia|].
    intros groups' [= <-]. lia.
  - destruct (determine_sheet_for_date_budget w d st Hd)
      as (cs & Hcs & _ & Hl & Hf & _).
    cbn [group_dates]. unfold mbind, M_bind.
    destruct (determine_sheet_for_date w d st) as [st1 [[ws|]|e]];
      cbn [fst] in Hcs.
    + destruct (IH (add_date ws d groups) st1) as (cs' & Hcs' & Hl' & Hf' & Hg).
      exists (cs ++ cs'). rewrite Hcs', Hcs, length_app, fetches_app.
      cbn [length]. split; [by rewrite app_assoc|].
      split; [lia|]. split; [lia|].
      intros groups' Hr. specialize (Hg groups' Hr).
      pose proof (add_date_length ws d groups). lia.
    + destruct (IH groups st1) as (cs' & Hcs' & Hl' & Hf' & Hg).
      exists (cs ++ cs'). rewrite Hcs', Hcs, length_app, fetches_app.
      cbn [length]. split; [by rewrite app_assoc|].
      split; [lia|]. split; [lia|].
      intros groups' Hr. specialize (Hg groups' Hr). lia.
    + exists cs. cbn [fst snd length].
      split; [done|]. split; [lia|]. split; [lia|]. done.
Qed.

Lemma fetches_map_GetAllValues titles :
  fetches (map GetAllValues titles) = length titles.
Proof.
  unfold fetches. induction titles as [|t rest IH]; [done|].
  cbn. by rewrite IH.
Qed.

(** X6. For valid dates, whatever the client answers and whether or not
    the batch ends in an exception, [get_menus_for_dates] makes at most
    8 calls to the client per requested date, at most 3 of them grid
    fetches; when the connection cannot be set up it makes none. *)
Theorem batch_call_budget w env dates st :
  Forall valid_date dates ->
  exists cs,
    calls (get_menus_for_dates w env dates st).1 = calls st ++ cs /\
    length cs <= 8 * length dates /\
    fetches cs <= 3 * length dates /\
    (setup_connection env = false -> cs = []).
Proof.
  intros Hv. unfold get_menus_for_dates.
  destruct (setup_connection env) eqn:Hs; cbn [negb].
  - destruct (group_dates_budget w dates [] (mkstate (calls st) ∅) Hv)
      as (cs & Hcs & Hl & Hf & Hg).
    erewrite bind_ok by reflexivity. unfold mbind, M_bind.
    destruct (group_dates w dates [] (mkstate (calls st) ∅))
      as [st1 [groups|e]]; cbn [fst snd calls] in *.
    + rewrite process_worksheets_spec. cbn [menus_get fst calls].
      specialize (Hg groups eq_refl). cbn [length] in Hg.
      exists (cs ++ map GetAllValues (map fst groups)).
      rewrite Hcs, length_app, fetches_app,
        fetches_map_GetAllValues, !length_map.
      split; [by rewrite app_assoc|]. split; [lia|]. split; [lia|done].
    + exists cs. split; [done|]. split; [lia|]. split; [lia|done].
  - exists []. cbn. rewrite app_nil_r.
    split; [done|]. split; [lia|]. split; [lia|done].
Qed.

Lemma batch_call_budget_witness :
  exists cs,
    calls (get_menus_for_dates (fixed_sheets [("Juin", grid_june)]) env_ok
             [mkdate 2025 6 30; mkdate 2025 7 1] state0).1 = cs /\
    fetches cs <= 6.
Proof.
  destruct (batch_call_budget (fixed_sheets [("Juin", grid_june)]) env_ok
              [mkdate 2025 6 30; mkdate 2025 7 1] state0)
    as (cs & Hcs & _ & Hf & _).
  - repeat constructor; by apply date_fields_ok_valid.
  - exists cs. split; [by rewrite Hcs|exact Hf].
Defined.

(** ** The batch on a client that does not change *)

Lemma determine_sheet_for_date_stable w d st :
  history_free w -> (forall log, answer_open w log = Ok tt) ->
  valid_date d ->
  exists cs,
    determine_sheet_for_date w d st =
    (mkstate (calls st ++ cs) (menus st), Ok (resolve w d)).
Proof.
  intros Hw Hopen Hv. destruct (candidates_is_Some d Hv) as [names Hn].
  rewrite (determine_sheet_for_date_spec w d names st Hn).
  unfold resolve, resolve_trace. rewrite Hn, Hopen.
  rewrite <- (probe_trace_history_free w (strftime_dm d)
                (calls st ++ [OpenByKey]) names Hw).
  destruct (probe_trace w (strftime_dm d) (calls st ++ [OpenByKey]) names)
    as [cs [name|]]; cbn [fst snd]; by eexists.
Qed.

Lemma resolve_values_ok w d t :
  history_free w -> resolve w d = Some t ->
  exists g, forall log, answer_values w log t = Ok g.
Proof.
  intros Hw Hr. unfold resolve in Hr.
  destruct (candidates d) as [names|]; [|done].
  apply find_some in Hr as [_ Hholds].
  apply tab_holds_date_iff in Hholds as (_ & g & Hg & _).
  exists g. intros log. destruct (Hw log [GetWorksheet t] t) as [_ ->]. done.
Qed.


Lemma group_dates_stable w dates groups st :
  history_free w -> (forall log, answer_open w log = Ok tt) ->
  Forall valid_date dates ->
  exists cs groups',
    group_dates w dates groups st =
      (mkstate (calls st ++ cs) (menus st), Ok groups') /\
    forall t x,
      (exists ds, (t, ds) ∈ groups' /\ x ∈ ds) <->
      (exists ds, (t, ds) ∈ groups /\ x ∈ ds) \/
      (x ∈ dates /\ resolve w x = Some t).
Proof.
  intros Hw Hopen Hv. revert groups st.
  induction Hv as [|d rest Hd _ IH]; intros groups st.
  - exists [], groups. cbn. rewrite app_nil_r. split; [by destruct st|].
    intros t x. split; [auto|]. intros [H|[H _]]; [done|].
    by apply elem_of_nil in H.
  - destruct (determine_sheet_for_date_stable w d st Hw Hopen Hd) as [cs Hdet].
    cbn [group_dates]. erewrite bind_ok by exact Hdet.
    destruct (resolve w d) as [ws|] eqn:Hres.
    + destruct (IH (add_date ws d groups) (mkstate (calls st ++ cs) (menus st)))
        as (cs' & groups' & -> & Hg).
      exists (cs ++ cs'), groups'. cbn [calls menus].
      split; [by rewrite app_assoc|].
      intros t x. rewrite Hg, add_date_grouped, elem_of_cons.
      split.
      * intros [[H|[-> ->]]|[H1 H2]]; auto.
      * intros [H|[[->|H1] H2]]; auto.
        left. right. split; congruence.
    + destruct (IH groups (mkstate (calls st ++ cs) (menus st)))
        as (cs' & groups' & -> & Hg).
      exists (cs ++ cs'), groups'. cbn [calls menus].
      split; [by rewrite app_assoc|].
      intros t x. rewrite Hg, elem_of_cons. split.
      * intros [H|[H1 H2]]; auto.
      * intros [H|[[->|H1] H2]]; auto. congruence.
Qed.

Lemma extract_into_holds_expected w m P t g d :
  (forall log, answer_values w log t = Ok g) ->
  resolve w d = Some t -> valid_date d ->
  (forall x, P x -> valid_date x) ->
  holds_expected w m P ->
  holds_expected w (extract_into g m d) (fun x => P x \/ x = d).
Proof.
  intros Hg Hres Hv HP [Ha Hb].
  assert (expected_entry w d =
          match find_match (strftime_dm d) g 0 with
          | Some (i, c) => Some (entry_at g i c)
          | None => None
          end) as Hexp.
  { unfold expected_entry. by rewrite Hres, Hg. }
  unfold extract_into.
  destruct (find_match (strftime_dm d) g 0) as [[i c]|]; split.
  - intros key e. destruct (decide (strftime_ymd d = key)) as [<-|Hne].
    + rewrite lookup_insert_eq. intros [= <-]. exists d. auto.
    + rewrite lookup_insert_ne by done. intros H.
      destruct (Ha _ _ H) as (x & Hx & Hk & He). exists x. auto.
  - intros x e [Hx| ->] He.
    + destruct (decide (strftime_ymd d = strftime_ymd x)) as [Heq|Hne].
      * apply strftime_ymd_inj in Heq; [|done|by apply HP]. subst x.
        rewrite lookup_insert_eq. congruence.
      * rewrite lookup_insert_ne by done. by apply Hb.
    + rewrite lookup_insert_eq. congruence.
  - intros key e H. destruct (Ha _ _ H) as (x & Hx & Hk & He).
    exists x. auto.
  - intros x e [Hx| ->] He; [by apply Hb|congruence].
Qed.

Lemma holds_expected_iff w m P Q :
  (forall x, P x <-> Q x) -> holds_expected w m P -> holds_expected w m Q.
Proof.
  intros HPQ [Ha Hb]. split.
  - intros key e H. destruct (Ha _ _ H) as (x & Hx & Hk & He).
    exists x. split; [by apply HPQ|done].
  - intros x e Hx He. apply Hb; [by apply HPQ|done].
Qed.

Lemma foldl_extract_into_holds_expected w m P t g ds :
  (forall log, answer_values w log t = Ok g) ->
  (forall d, d ∈ ds -> resolve w d = Some t /\ valid_date d) ->
  (forall x, P x -> valid_date x) ->
  holds_expected w m P ->
  holds_expected w (foldl (extract_into g) m ds) (fun x => P x \/ x ∈ ds).
Proof.
  intros Hg. revert m P. induction ds as [|d rest IH]; intros m P Hds HP Hm.
  - cbn. eapply holds_expected_iff; [|exact Hm].
    intros x. split; [auto|]. intros [H|H]; [done|by apply elem_of_nil in H].
  - cbn [foldl].
    destruct (Hds d) as [Hres Hv]; [apply list_elem_of_here|].
    eapply holds_expected_iff;
      [|apply (IH (extract_into g m d) (fun x => P x \/ x = d))].
    + intros x. rewrite elem_of_cons. tauto.
    + intros x Hx. apply Hds. by apply list_elem_of_further.
    + intros x [Hx| ->]; auto.
    + by apply (extract_into_holds_expected w m P t g d).
Qed.

Lemma processed_menus_holds_expected w groups log m P :
  history_free w ->
  (forall t ds d, (t, ds) ∈ groups -> d ∈ ds ->
     resolve w d = Some t /\ valid_date d) ->
  (forall x, P x -> valid_date x) ->
  holds_expected w m P ->
  holds_expected w (processed_menus w groups log m)
    (fun x => P x \/ exists t ds, (t, ds) ∈ groups /\ x ∈ ds).
Proof.
  intros Hw. revert log m P.
  induction groups as [|[t ds] rest IH]; intros log m P Hgr HP Hm.
  - cbn. eapply holds_expected_iff; [|exact Hm].
    intros x. split; [auto|]. intros [H|(t & ds & H & _)]; [done|].
    by apply elem_of_nil in H.
  - cbn [processed_menus].
    assert (forall d, d ∈ ds -> resolve w d = Some t /\ valid_date d) as Hds.
    { intros d Hd. apply (Hgr t ds d); [apply list_elem_of_here|done]. }
    assert (holds_expected w
              match answer_values w log t with
              | Ok g => foldl (extract_into g) m ds
              | Raise _ => m
              end (fun x => P x \/ x ∈ ds)) as Hstep.
    { destruct ds as [|d ds'].
      - eapply holds_expected_iff with (P := P).
        + intros x. split; [auto|].
          intros [H|H]; [done|by apply elem_of_nil in H].
        + by destruct (answer_values w log t).
      - destruct (Hds d) as [Hres _]; [apply list_elem_of_here|].
        destruct (resolve_values_ok w d t Hw Hres) as [g Hg].
        rewrite Hg. by apply (foldl_extract_into_holds_expected w m P t g). }
    assert (forall t' ds' d, (t', ds') ∈ rest -> d ∈ ds' ->
              resolve w d = Some t' /\ valid_date d) as Hrest.
    { intros t' ds' d Hin. apply Hgr. by apply list_elem_of_further. }
    assert (forall x, P x \/ x ∈ ds -> valid_date x) as HP'.
    { intros x [Hx|Hx]; [auto|]. by apply Hds. }
    eapply holds_expected_iff;
      [|exact (IH (log ++ [GetAllValues t]) _ _ Hrest HP' Hstep)].
    intros x. split.
    + intros [[H|H]|(t' & ds' & Hin & Hx)]; auto.
      * right. exists t, ds. split; [apply list_elem_of_here|done].
      * right. exists t', ds'. split; [by apply list_elem_of_further|done].
    + intros [H|(t' & ds' & Hin & Hx)]; auto.
      apply elem_of_cons in Hin as [[= -> ->]|Hin]; auto.
      right. by exists t', ds'.
Qed.

Lemma get_menus_for_dates_stable w env dates st :
  setup_connection env = true ->
  history_free w -> (forall log, answer_open w log = Ok tt) ->
  Forall valid_date dates ->
  exists st' m,
    get_menus_for_dates w env dates st = (st', Ok m) /\
    (forall d, d ∈ dates -> m !! strftime_ymd d = expected_entry w d) /\
    (forall key, (forall d, d ∈ dates -> strftime_ymd d <> key) ->
       m !! key = None).
Proof.
  intros Hs Hw Hopen Hv.
  destruct (group_dates_stable w dates [] (mkstate (calls st) ∅) Hw Hopen Hv)
    as (cs & groups & Hg & Hgrouped).
  rewrite (get_menus_for_dates_unfold w env dates st _ groups Hs Hg).
  cbn [calls menus]. eexists _, _. split; [reflexivity|].
  assert (forall t ds d, (t, ds) ∈ groups -> d ∈ ds ->
            d ∈ dates /\ resolve w d = Some t) as Hin.
  { intros t ds d Hgr Hd.
    destruct (proj1 (Hgrouped t d)) as [(ds' & H & _)|H]; [by exists ds| |done].
    by apply elem_of_nil in H. }
  assert (forall d, d ∈ dates -> valid_date d) as Hvalid.
  { intros d Hd. by apply (proj1 (Forall_forall _ _) Hv). }
  destruct (processed_menus_holds_expected w groups (calls st ++ cs) ∅
              (fun _ => False) Hw) as [Ha Hb].
  { intros t ds d Hgr Hd. destruct (Hin t ds d Hgr Hd). auto. }
  { done. }
  { split; [intros key e H; by rewrite lookup_empty in H|done]. }
  assert (forall key e,
            processed_menus w groups (calls st ++ cs) ∅ !! key = Some e ->
            exists d, d ∈ dates /\ strftime_ymd d = key /\
                      expected_entry w d = Some e) as Ha'.
  { intros key e H.
    destruct (Ha _ _ H) as (d & [[]|(t & ds & Hgr & Hd)] & Hk & He).
    exists d. destruct (Hin t ds d Hgr Hd). auto. }
  split.
  - intros d Hd. destruct (expected_entry w d) as [e|] eqn:He.
    + apply Hb; [|done]. right.
      assert (exists t, resolve w d = Some t) as [t Ht].
      { unfold expected_entry in He. destruct (resolve w d); [eauto|done]. }
      destruct (proj2 (Hgrouped t d)) as (ds & Hgr & Hds); [by right|].
      by exists t, ds.
    + destruct (processed_menus w groups (calls st ++ cs) ∅ !! strftime_ymd d)
        as [e|] eqn:Hm; [|done].
      destruct (Ha' _ _ Hm) as (d' & Hd' & Hk & He').
      apply strftime_ymd_inj in Hk; [|by apply Hvalid..]. subst d'.
      congruence.
  - intros key Hkey.
    destruct (processed_menus w groups (calls st ++ cs) ∅ !! key)
      as [e|] eqn:Hm; [|done].
    destruct (Ha' _ _ Hm) as (d' & Hd' & Hk & _). by destruct (Hkey d' Hd').
Qed.

(** X7. For a client whose content does not change between calls and a
    spreadsheet that opens, the batch returns, for valid dates, exactly
    the entries expected date by date: under the key of each requested
    date, the two texts read under the first match in the grid of the
    first candidate tab that holds the date, and no entry when no
    candidate holds the date or the tab has no header-candidate match;
    the result has no key but those of requested dates. *)
Theorem batch_result_on_stable_client w env dates st :
  setup_connection env = true ->
  history_free w -> (forall log, answer_open w log = Ok tt) ->
  Forall valid_date dates ->
  exists st' m,
    get_menus_for_dates w env dates st = (st', Ok m) /\
    (forall d, d ∈ dates -> m !! strftime_ymd d = expected_entry w d) /\
    (forall key, (forall d, d ∈ dates -> strftime_ymd d <> key) ->
       m !! key = None).
Proof. apply get_menus_for_dates_stable. Qed.

Lemma batch_result_on_stable_client_witness :
  exists st' m,
    get_menus_for_dates (fixed_sheets [("Juin", grid_june)]) env_ok
      [mkdate 2025 6 30; mkdate 2025 7 1] state0 = (st', Ok m) /\
    m !! "2025-07-01" = Some (mkentry "Riz" "Salade").
Proof.
  destruct (batch_result_on_stable_client
              (fixed_sheets [("Juin", grid_june)]) env_ok
              [mkdate 2025 6 30; mkdate 2025 7 1] state0)
    as (st' & m & Hrun & Hexp & _).
  - reflexivity.
  - intros log log' name. split; reflexivity.
  - intros log. reflexivity.
  - repeat constructor; by apply date_fields_ok_valid.
  - exists st', m. split; [exact Hrun|].
    exact (Hexp (mkdate 2025 7 1)
             (list_elem_of_further _ _ _ (list_elem_of_here _ _))).
Defined.

(** ** menu_fetcher.py: the date given on the command line *)

Lemma digit_not_slash n :
  (0 <= n <= 9)%Z -> Ascii.eqb (Str.digit n) "/" = false.
Proof.
  intros Hn. rewrite <- (Z2Nat.id n) by lia.
  assert (Z.to_nat n < 10)%nat as Hk by lia.
  destruct (Z.to_nat n) as [|[|[|[|[|[|[|[|[|[|k]]]]]]]]]];
    try reflexivity; lia.
Qed.

Lemma mod10_digit_not_slash x :
  Ascii.eqb (Str.digit (x mod 10)) "/" = false.
Proof. apply digit_not_slash. Z.div_mod_to_equations. lia. Qed.

Lemma split_zfill2 n :
  Str.split "/" (Str.zfill2 n) = [Str.zfill2 n].
Proof.
  unfold Str.zfill2. cbn [Str.split]. by rewrite !mod10_digit_not_slash.
Qed.

Lemma split_zfill4 n :
  Str.split "/" (Str.zfill4 n) = [Str.zfill4 n].
Proof.
  unfold Str.zfill4, Str.zfill2. cbn [Str.split].
  by rewrite !mod10_digit_not_slash.
Qed.

Lemma append_String c s t : String c s +:+ t = String c (s +:+ t).
Proof. reflexivity. Qed.

Lemma append_empty t : EmptyString +:+ t = t.
Proof. reflexivity. Qed.

Lemma split_zfill2_slash n rest :
  Str.split "/" (Str.zfill2 n +:+ "/" +:+ rest) =
  Str.zfill2 n :: Str.split "/" rest.
Proof.
  unfold Str.zfill2. rewrite !append_String, !append_empty.
  cbn [Str.split]. rewrite !mod10_digit_not_slash.
  change (Ascii.eqb "/" "/") with true. cbv iota. done.
Qed.

Lemma parse_date_string_zfill int now d :
  (forall n, (0 <= n <= 99)%Z -> int (Str.zfill2 n) = Some n) ->
  (forall n, (0 <= n <= 9999)%Z -> int (Str.zfill4 n) = Some n) ->
  valid_date d ->
  MenuFetcher.parse_date_string int now (MenuFetcher.strftime_dmY d)
    = MenuFetcher.Done d /\
  (year now = year d ->
   MenuFetcher.parse_date_string int now (strftime_dm d)
     = MenuFetcher.Done d).
Proof.
  intros H2 H4 Hv. pose proof (valid_date_ranges d Hv) as (Hy & Hm & Hd).
  assert (MenuFetcher.datetime_new (year d) (month d) (day d)
          = MenuFetcher.Done d) as Hnew.
  { unfold MenuFetcher.datetime_new, MenuFetcher.fits_c_int.
    destruct d as [y m dd]. cbn [year month day] in *.
    apply date_fields_ok_valid in Hv. rewrite Hv.
    replace (- 2 ^ 31 <=? y)%Z with true by lia.
    replace (y <? 2 ^ 31)%Z with true by lia.
    replace (- 2 ^ 31 <=? m)%Z with true by lia.
    replace (m <? 2 ^ 31)%Z with true by lia.
    replace (- 2 ^ 31 <=? dd)%Z with true by lia.
    replace (dd <? 2 ^ 31)%Z with true by lia. done. }
  split.
  - unfold MenuFetcher.parse_date_string, MenuFetcher.parse_date_fields,
      MenuFetcher.strftime_dmY.
    rewrite !split_zfill2_slash, split_zfill4.
    cbn [length Nat.eqb MenuFetcher.item lookup list_lookup mbind
         MenuFetcher.Try_bind].
    unfold MenuFetcher.int_of.
    rewrite !H2, H4 by lia. cbn [mbind MenuFetcher.Try_bind].
    by rewrite Hnew.
  - intros Hnow.
    unfold MenuFetcher.parse_date_string, MenuFetcher.parse_date_fields,
      strftime_dm.
    rewrite split_zfill2_slash, split_zfill2.
    cbn [length Nat.eqb MenuFetcher.item lookup list_lookup mbind
         MenuFetcher.Try_bind].
    unfold MenuFetcher.int_of.
    rewrite !H2 by lia. cbn [mbind MenuFetcher.Try_bind].
    by rewrite Hnow, Hnew.
Qed.

(** X8. A valid date written as DD/MM/YYYY (zero-padded, as in the help
    text of [--date]) is parsed back to the same date, and written as
    DD/MM it is parsed back to that day of the current year, provided
    [int] reads zero-padded decimal numbers. *)
Theorem parse_date_string_round_trip int now d :
  (forall n, (0 <= n <= 99)%Z -> int (Str.zfill2 n) = Some n) ->
  (forall n, (0 <= n <= 9999)%Z -> int (Str.zfill4 n) = Some n) ->
  valid_date d ->
  MenuFetcher.parse_date_string int now (MenuFetcher.strftime_dmY d)
    = MenuFetcher.Done d /\
  (year now = year d ->
   MenuFetcher.parse_date_string int now (strftime_dm d)
     = MenuFetcher.Done d).
Proof. apply parse_date_string_zfill. Qed.

Lemma py_int_zfill2 n :
  (0 <= n <= 99)%Z -> MenuFetcher.py_int (Str.zfill2 n) = Some n.
Proof.
  intros Hn.
  assert (forallb
            (fun k => match MenuFetcher.py_int (Str.zfill2 (Z.of_nat k)) with
                      | Some v => (v =? Z.of_nat k)%Z
                      | None => false
                      end) (seq 0 100) = true) as Hall by (vm_compute; reflexivity).
  rewrite forallb_forall in Hall.
  specialize (Hall (Z.to_nat n)). rewrite Z2Nat.id in Hall by lia.
  destruct (MenuFetcher.py_int (Str.zfill2 n)) as [v|].
  - f_equal. apply Z.eqb_eq, Hall. apply in_seq. lia.
  - discriminate Hall. apply in_seq. lia.
Qed.

Lemma py_int_zfill4 n :
  (0 <= n <= 9999)%Z -> MenuFetcher.py_int (Str.zfill4 n) = Some n.
Proof.
  intros Hn.
  assert (forallb
            (fun k => match MenuFetcher.py_int (Str.zfill4 (Z.of_nat k)) with
                      | Some v => (v =? Z.of_nat k)%Z
                      | None => false
                      end) (seq 0 (100 * 100)) = true) as Hall
    by (vm_compute; reflexivity).
  rewrite forallb_forall in Hall.
  specialize (Hall (Z.to_nat n)). rewrite Z2Nat.id in Hall by lia.
  destruct (MenuFetcher.py_int (Str.zfill4 n)) as [v|].
  - f_equal. apply Z.eqb_eq, Hall. apply in_seq. lia.
  - discriminate Hall. apply in_seq. lia.
Qed.

Lemma parse_date_string_round_trip_witness :
  MenuFetcher.parse_date_string MenuFetcher.py_int (mkdate 2026 1 1)
    "17/07/2025" = MenuFetcher.Done (mkdate 2025 7 17).
Proof.
  apply (proj1 (parse_date_string_round_trip MenuFetcher.py_int
                  (mkdate 2026 1 1) (mkdate 2025 7 17)
                  py_int_zfill2 py_int_zfill4
                  (proj1 (date_fields_ok_valid 2025 7 17) eq_refl))).
Defined.

Lemma parse_date_string_cases int now s :
  let parts := Str.split "/" s in
  (forall d,
     MenuFetcher.parse_date_string int now s = MenuFetcher.Done d ->
     valid_date d /\
     exists p0 p1,
       parts !! 0 = Some p0 /\ parts !! 1 = Some p1 /\
       int p0 = Some (day d) /\ int p1 = Some (month d) /\
       ((length parts = 2 /\ year d = year now) \/
        (length parts = 3 /\
         exists p2, parts !! 2 = Some p2 /\ int p2 = Some (year d)))) /\
  (forall e,
     MenuFetcher.parse_date_string int now s = MenuFetcher.Fail e ->
     e = MenuFetcher.ValueError \/ e = MenuFetcher.OverflowError) /\
  (length parts <> 2 -> length parts <> 3 ->
   MenuFetcher.parse_date_string int now s
     = MenuFetcher.Fail MenuFetcher.ValueError) /\
  (MenuFetcher.parse_date_string int now s
     = MenuFetcher.Fail MenuFetcher.OverflowError ->
   MenuFetcher.fits_c_int (year now) = false \/
   exists p n,
     p ∈ parts /\ int p = Some n /\ MenuFetcher.fits_c_int n = false).
Proof.
  cbn zeta.
  unfold MenuFetcher.parse_date_string, MenuFetcher.parse_date_fields.
  destruct (Str.split "/" s) as [|p0 [|p1 [|p2 [|p3 rest]]]];
    cbn [length Nat.eqb MenuFetcher.item lookup list_lookup mbind
         MenuFetcher.Try_bind];
    try (split; [done|]; split; [intros e [= <-]; auto|];
         split; [done|done]).
  - (* two parts *)
    unfold MenuFetcher.int_of.
    destruct (int p0) as [dd|] eqn:H0; cbn [mbind MenuFetcher.Try_bind];
      [|split; [done|]; split; [intros e [= <-]; auto|]; split; [lia|done]].
    destruct (int p1) as [mm|] eqn:H1; cbn [mbind MenuFetcher.Try_bind];
      [|split; [done|]; split; [intros e [= <-]; auto|]; split; [lia|done]].
    unfold MenuFetcher.datetime_new.
    destruct (MenuFetcher.fits_c_int (year now)) eqn:Fy; cbn [andb].
    + destruct (MenuFetcher.fits_c_int mm) eqn:Fm; cbn [andb].
      * destruct (MenuFetcher.fits_c_int dd) eqn:Fd.
        -- destruct (date_fields_ok (year now) mm dd) eqn:Hok.
           ++ split; [|split; [done|split; [lia|done]]].
              intros d [= <-]. split; [by apply date_fields_ok_valid|].
              exists p0, p1. cbn [year month day]. auto 10.
           ++ split; [done|]. split; [intros e [= <-]; auto|].
              split; [lia|done].
        -- split; [done|]. split; [intros e [= <-]; auto|].
           split; [lia|]. intros _. right. exists p0, dd.
           split; [apply list_elem_of_here|done].
      * split; [done|]. split; [intros e [= <-]; auto|].
        split; [lia|]. intros _. right. exists p1, mm.
        split; [apply list_elem_of_further, list_elem_of_here|done].
    + split; [done|]. split; [intros e [= <-]; auto|].
      split; [lia|]. intros _. by left.
  - (* three parts *)
    unfold MenuFetcher.int_of.
    destruct (int p0) as [dd|] eqn:H0; cbn [mbind MenuFetcher.Try_bind];
      [|split; [done|]; split; [intros e [= <-]; auto|]; split; [lia|done]].
    destruct (int p1) as [mm|] eqn:H1; cbn [mbind MenuFetcher.Try_bind];
      [|split; [done|]; split; [intros e [= <-]; auto|]; split; [lia|done]].
    destruct (int p2) as [yy|] eqn:H2; cbn [mbind MenuFetcher.Try_bind];
      [|split; [done|]; split; [intros e [= <-]; auto|]; split; [lia|done]].
    unfold MenuFetcher.datetime_new.
    destruct (MenuFetcher.fits_c_int yy) eqn:Fy; cbn [andb].
    + destruct (MenuFetcher.fits_c_int mm) eqn:Fm; cbn [andb].
      * destruct (MenuFetcher.fits_c_int dd) eqn:Fd.
        -- destruct (date_fields_ok yy mm dd) eqn:Hok.
           ++ split; [|split; [done|split; [lia|done]]].
              intros d [= <-]. split; [by apply date_fields_ok_valid|].
              exists p0, p1. cbn [year month day].
              repeat (split; [done|]). right. split; [done|]. by exists p2.
           ++ split; [done|]. split; [intros e [= <-]; auto|].
              split; [lia|done].
        -- split; [done|]. split; [intros e [= <-]; auto|].
           split; [lia|]. intros _. right. exists p0, dd.
           split; [apply list_elem_of_here|done].
      * split; [done|]. split; [intros e [= <-]; auto|].
        split; [lia|]. intros _. right. exists p1, mm.
        split; [apply list_elem_of_further, list_elem_of_here|done].
    + split; [done|]. split; [intros e [= <-]; auto|].
      split; [lia|]. intros _. right. exists p2, yy.
      split; [do 2 apply list_elem_of_further; apply list_elem_of_here|done].
Qed.

(** X9. Whatever [int] does, [parse_date_string] returns only valid
    dates, whose day, month and year are the numbers read from the
    first, second and third part between slashes (the year of the clock
    when there are two parts); it raises [ValueError] when the parts
    are not two or three, and the only other exception it lets through
    is the [OverflowError] of a number that does not fit a C int. *)
Theorem parse_date_string_outcomes int now s :
  let parts := Str.split "/" s in
  (forall d,
     MenuFetcher.parse_date_string int now s = MenuFetcher.Done d ->
     valid_date d /\
     exists p0 p1,
       parts !! 0 = Some p0 /\ parts !! 1 = Some p1 /\
       int p0 = Some (day d) /\ int p1 = Some (month d) /\
       ((length parts = 2 /\ year d = year now) \/
        (length parts = 3 /\
         exists p2, parts !! 2 = Some p2 /\ int p2 = Some (year d)))) /\
  (forall e,
     MenuFetcher.parse_date_string int now s = MenuFetcher.Fail e ->
     e = MenuFetcher.ValueError \/ e = MenuFetcher.OverflowError) /\
  (length parts <> 2 -> length parts <> 3 ->
   MenuFetcher.parse_date_string int now s
     = MenuFetcher.Fail MenuFetcher.ValueError) /\
  (MenuFetcher.parse_date_string int now s
     = MenuFetcher.Fail MenuFetcher.OverflowError ->
   MenuFetcher.fits_c_int (year now) = false \/
   exists p n,
     p ∈ parts /\ int p = Some n /\ MenuFetcher.fits_c_int n = false).
Proof. apply parse_date_string_cases. Qed.

Lemma parse_date_string_outcomes_witness :
  MenuFetcher.parse_date_string MenuFetcher.py_int (mkdate 2026 1 1)
    "17-07-2025" = MenuFetcher.Fail MenuFetcher.ValueError.
Proof.
  destruct (parse_date_string_outcomes MenuFetcher.py_int (mkdate 2026 1 1)
              "17-07-2025") as (_ & _ & Hparts & _).
  apply Hparts; cbn; lia.
Defined.

(** ** menu_fetcher.py: today and tomorrow *)

Lemma days_before_year_succ y :
  MenuFetcher.days_before_year (y + 1) =
  (MenuFetcher.days_before_year y + if is_leap y then 366 else 365)%Z.
Proof.
  unfold MenuFetcher.days_before_year, is_leap.
  replace (y + 1 - 1)%Z with y by lia.
  destruct (y mod 4 =? 0)%Z eqn:H4; destruct (y mod 100 =? 0)%Z eqn:H100;
    destruct (y mod 400 =? 0)%Z eqn:H400; cbn [andb orb negb];
    rewrite ?Z.eqb_eq, ?Z.eqb_neq in *;
    Z.div_mod_to_equations; lia.
Qed.

Lemma calendar_days_leap y :
  calendar_days y =
  fun m =>
    (if m =? 2 then (if is_leap y then 29 else 28)
     else if (m =? 4) || (m =? 6) || (m =? 9) || (m =? 11) then 30
     else 31)%Z.
Proof. reflexivity. Qed.

Lemma days_before_month_succ y m :
  (1 <= m <= 11)%Z ->
  MenuFetcher.days_before_month y (m + 1) =
  (MenuFetcher.days_before_month y m + calendar_days y m)%Z.
Proof.
  intros Hm.
  assert (m = 1 \/ m = 2 \/ m = 3 \/ m = 4 \/ m = 5 \/ m = 6 \/ m = 7 \/
          m = 8 \/ m = 9 \/ m = 10 \/ m = 11)%Z as C by lia.
  unfold MenuFetcher.days_before_month. rewrite calendar_days_leap.
  generalize (is_leap y). intros leap.
  repeat (destruct C as [->|C]; [by destruct leap|]).
  subst. by destruct leap.
Qed.

Lemma days_before_december y :
  MenuFetcher.days_before_month y 12 =
  (if is_leap y then 335 else 334)%Z.
Proof.
  unfold MenuFetcher.days_before_month. rewrite calendar_days_leap.
  by destruct (is_leap y).
Qed.

Lemma add_one_day_spec d :
  valid_date d ->
  match MenuFetcher.add_one_day d with
  | MenuFetcher.Done d' =>
      valid_date d' /\
      MenuFetcher.toordinal d' = (MenuFetcher.toordinal d + 1)%Z /\
      d' <> d
  | MenuFetcher.Fail e =>
      e = MenuFetcher.OverflowError /\ d = mkdate 9999 12 31
  end.
Proof.
  intros Hv. pose proof Hv as (Hy & Hm & Hd).
  destruct d as [y m dd]. cbn [year month day] in *.
  unfold MenuFetcher.add_one_day. cbn [year month day].
  destruct (dd <? calendar_days y m)%Z eqn:Hday.
  - apply Z.ltb_lt in Hday. split; [|split].
    + apply date_fields_ok_valid. unfold date_fields_ok.
      rewrite !andb_true_iff, !Z.leb_le. lia.
    + unfold MenuFetcher.toordinal. cbn [year month day]. lia.
    + intros [= H]. lia.
  - apply Z.ltb_ge in Hday. assert (dd = calendar_days y m) as -> by lia.
    destruct (m <? 12)%Z eqn:Hmonth.
    + apply Z.ltb_lt in Hmonth. split; [|split].
      * apply date_fields_ok_valid. unfold date_fields_ok.
        rewrite !andb_true_iff, !Z.leb_le.
        pose proof (calendar_days_bounds y (m + 1)). lia.
      * unfold MenuFetcher.toordinal. cbn [year month day].
        rewrite days_before_month_succ by lia. lia.
      * intros [= H]. lia.
    + apply Z.ltb_ge in Hmonth. assert (m = 12)%Z as -> by lia.
      change (calendar_days y 12) with 31%Z in *.
      destruct (y <? 9999)%Z eqn:Hyear.
      * apply Z.ltb_lt in Hyear. split; [|split].
        -- apply date_fields_ok_valid. unfold date_fields_ok.
           rewrite !andb_true_iff, !Z.leb_le.
           change (calendar_days (y + 1) 1) with 31%Z. lia.
        -- unfold MenuFetcher.toordinal. cbn [year month day].
           rewrite days_before_year_succ, days_before_december.
           change (MenuFetcher.days_before_month (y + 1) 1) with 0%Z.
           destruct (is_leap y); lia.
        -- intros [= H]; lia.
      * apply Z.ltb_ge in Hyear. split; [done|]. f_equal. lia.
Qed.

(** X10. For a valid date, the second date [get_menu_data] asks for is
    the next calendar day: it is a valid date, one day later in the
    count of days, on the following weekday, and its dictionary key
    differs from that of the first date; the addition fails, with
    [OverflowError], for the 31st of December 9999 alone. *)
Theorem tomorrow_is_the_next_day d :
  valid_date d ->
  (forall d', MenuFetcher.add_one_day d = MenuFetcher.Done d' ->
     valid_date d' /\
     MenuFetcher.toordinal d' = (MenuFetcher.toordinal d + 1)%Z /\
     MenuFetcher.weekday d' = ((MenuFetcher.weekday d + 1) mod 7)%Z /\
     strftime_ymd d' <> strftime_ymd d) /\
  (forall e, MenuFetcher.add_one_day d = MenuFetcher.Fail e ->
     e = MenuFetcher.OverflowError /\ d = mkdate 9999 12 31) /\
  (d <> mkdate 9999 12 31 ->
   exists d', MenuFetcher.add_one_day d = MenuFetcher.Done d').
Proof.
  intros Hv. pose proof (add_one_day_spec d Hv) as Hspec.
  destruct (MenuFetcher.add_one_day d) as [d'|e].
  - destruct Hspec as (Hv' & Hord & Hne). split; [|split; [done|by eexists]].
    intros ? [= <-]. split; [done|]. split; [done|]. split.
    + unfold MenuFetcher.weekday. rewrite Hord.
      rewrite Zplus_mod_idemp_l. f_equal. lia.
    + intros Hkey. by apply strftime_ymd_inj in Hkey.
  - destruct Hspec as [-> ->]. split; [done|]. split; [|done].
    by intros ? [= <-].
Qed.

Lemma tomorrow_is_the_next_day_witness :
  MenuFetcher.weekday (mkdate 2025 1 1) =
  ((MenuFetcher.weekday (mkdate 2024 12 31) + 1) mod 7)%Z.
Proof.
  destruct (tomorrow_is_the_next_day (mkdate 2024 12 31)) as (H & _).
  - by apply date_fields_ok_valid.
  - destruct (H (mkdate 2025 1 1)) as (_ & _ & Hw & _); [reflexivity|].
    exact Hw.
Defined.

(** X11. On the last day of a month, today and tomorrow (the first of
    the next month, the first of January after the 31st of December)
    have the same candidate tabs in the same order: the month that ends,
    then the month that begins. *)
Theorem month_end_shares_candidates d d' :
  valid_date d ->
  day d = calendar_days (year d) (month d) ->
  MenuFetcher.add_one_day d = MenuFetcher.Done d' ->
  months_to_check d = [month d; month d'] /\
  months_to_check d' = [month d; month d'] /\
  candidates d' = candidates d.
Proof.
  intros Hv Hlast Hadd. pose proof Hv as (Hy & Hm & Hd).
  destruct d as [y m dd]. cbn [year month day] in *. subst dd.
  unfold MenuFetcher.add_one_day in Hadd. cbn [year month day] in Hadd.
  rewrite Z.ltb_irrefl in Hadd.
  pose proof (calendar_days_bounds y m) as Hb.
  assert (months_to_check (mkdate y m (calendar_days y m)) =
          [m; if (m =? 12)%Z then 1%Z else (m + 1)%Z]) as Hmc.
  { unfold months_to_check, day_before_first. cbn [year month day].
    rewrite Z.add_simpl_r.
    destruct (calendar_days y m <=? 7)%Z eqn:H7; [lia|].
    destruct (m =? 12)%Z eqn:H12.
    - apply Z.eqb_eq in H12. subst m.
      change (calendar_days y 12) with 31%Z. reflexivity.
    - destruct (calendar_days y m - 7 <=? calendar_days y m)%Z eqn:Hw;
        [done|lia]. }
  destruct (m <? 12)%Z eqn:Hmonth.
  - apply Z.ltb_lt in Hmonth. injection Hadd as <-. cbn [month].
    replace (m =? 12)%Z with false in Hmc by lia.
    assert (months_to_check (mkdate y (m + 1) 1) = [m; (m + 1)%Z]) as Hmc'.
    { unfold months_to_check, day_before_first. cbn [year month day].
      rewrite !Z.add_simpl_r.
      replace (1 <? m + 1)%Z with true by lia.
      pose proof (calendar_days_bounds y (m + 1)) as Hb'.
      destruct (m + 1 =? 12)%Z eqn:H12.
      - change (31 - 7 <=? 1)%Z with false. reflexivity.
      - destruct (calendar_days y (m + 1) - 7 <=? 1)%Z eqn:Hw; [lia|done]. }
    split; [done|]. split; [done|]. unfold candidates. by rewrite Hmc, Hmc'.
  - apply Z.ltb_ge in Hmonth. assert (m = 12)%Z as -> by lia.
    destruct (y <? 9999)%Z; [|done]. injection Hadd as <-. cbn [month].
    change (12 =? 12)%Z with true in Hmc.
    assert (months_to_check (mkdate (y + 1) 1 1) = [12; 1]%Z) as Hmc'
      by reflexivity.
    split; [done|]. split; [done|]. unfold candidates. by rewrite Hmc, Hmc'.
Qed.

Lemma month_end_shares_candidates_witness :
  candidates (mkdate 2025 7 1) = candidates (mkdate 2025 6 30).
Proof.
  destruct (month_end_shares_candidates (mkdate 2025 6 30) (mkdate 2025 7 1))
    as (_ & _ & H).
  - by apply date_fields_ok_valid.
  - reflexivity.
  - reflexivity.
  - exact H.
Defined.

(** ** menu_fetcher.py: get_menu_data and main *)

Lemma get_menu_data_setup_fails w env now test_date st tomorrow :
  setup_connection env = false ->
  MenuFetcher.add_one_day (default now test_date) = MenuFetcher.Done tomorrow ->
  MenuFetcher.get_menu_data w env now test_date st =
  (st, MenuFetcher.Done
         (MenuFetcher.mkdata
            (MenuFetcher.mkday
               (MenuFetcher.strftime_A_dmY (default now test_date)) "" "")
            (MenuFetcher.mkday (MenuFetcher.strftime_A_dmY tomorrow) "" ""))).
Proof.
  intros Hs Hadd. unfold MenuFetcher.get_menu_data.
  assert (match test_date with Some d => d | None => now end
          = default now test_date) as -> by (by destruct test_date).
  rewrite Hadd. unfold get_menus_for_dates. rewrite Hs. cbn [negb mret M_ret].
  unfold MenuFetcher.format_menus, MenuFetcher.get_midi, MenuFetcher.get_soir.
  by rewrite !lookup_empty.
Qed.

(** X12. When the connection cannot be set up (gspread missing, no
    credentials file, or an authentication that fails),
    [get_menu_data] raises nothing and makes no call: it returns the
    two records, with their dates and with empty lunch and dinner
    texts. *)
Theorem get_menu_data_hides_setup_failure w env now test_date st tomorrow :
  setup_connection env = false ->
  MenuFetcher.add_one_day (default now test_date) = MenuFetcher.Done tomorrow ->
  MenuFetcher.get_menu_data w env now test_date st =
  (st, MenuFetcher.Done
         (MenuFetcher.mkdata
            (MenuFetcher.mkday
               (MenuFetcher.strftime_A_dmY (default now test_date)) "" "")
            (MenuFetcher.mkday (MenuFetcher.strftime_A_dmY tomorrow) "" ""))).
Proof. apply get_menu_data_setup_fails. Qed.

Lemma get_menu_data_hides_setup_failure_witness :
  MenuFetcher.get_menu_data (fixed_sheets [("Juin", grid_june)])
    (mkenv true true false) (mkdate 2025 6 30) None state0 =
  (state0,
   MenuFetcher.Done
     (MenuFetcher.mkdata
        (MenuFetcher.mkday "Monday 30/06/2025" "" "")
        (MenuFetcher.mkday "Tuesday 01/07/2025" "" ""))).
Proof.
  apply (get_menu_data_hides_setup_failure (fixed_sheets [("Juin", grid_june)])
           (mkenv true true false) (mkdate 2025 6 30) None state0
           (mkdate 2025 7 1)); reflexivity.
Defined.

Lemma get_menu_data_stable w env now test_date st tomorrow :
  setup_connection env = true ->
  history_free w -> (forall log, answer_open w log = Ok tt) ->
  valid_date (default now test_date) ->
  MenuFetcher.add_one_day (default now test_date) = MenuFetcher.Done tomorrow ->
  exists st',
    MenuFetcher.get_menu_data w env now test_date st =
    (st', MenuFetcher.Done
            (MenuFetcher.mkdata
               (MenuFetcher.mkday
                  (MenuFetcher.strftime_A_dmY (default now test_date))
                  (from_option midi "" (expected_entry w (default now test_date)))
                  (from_option soir "" (expected_entry w (default now test_date))))
               (MenuFetcher.mkday
                  (MenuFetcher.strftime_A_dmY tomorrow)
                  (from_option midi "" (expected_entry w tomorrow))
                  (from_option soir "" (expected_entry w tomorrow))))).
Proof.
  intros Hs Hw Hopen Hv Hadd. unfold MenuFetcher.get_menu_data.
  assert (match test_date with Some d => d | None => now end
          = default now test_date) as -> by (by destruct test_date).
  set (today := default now test_date) in *.
  rewrite Hadd.
  pose proof (add_one_day_spec today Hv) as Hspec. rewrite Hadd in Hspec.
  destruct Hspec as (Hv' & _ & _).
  destruct (get_menus_for_dates_stable w env [today; tomorrow] st Hs Hw Hopen)
    as (st' & m & -> & Hexp & _).
  { constructor; [done|]. constructor; [done|]. constructor. }
  exists st'. f_equal. f_equal.
  unfold MenuFetcher.format_menus, MenuFetcher.get_midi, MenuFetcher.get_soir.
  rewrite (Hexp today) by apply list_elem_of_here.
  rewrite (Hexp tomorrow)
    by apply list_elem_of_further, list_elem_of_here.
  by destruct (expected_entry w today), (expected_entry w tomorrow).
Qed.

(** X13. For a client whose content does not change, a spreadsheet that
    opens and a connection that is set up, [get_menu_data] on a valid
    date before 9999-12-31 returns the two records of that date and of
    the next day; each text is the one of the entry expected for the
    date (read under the first match in the first candidate tab that
    holds the date) and is empty when there is no such entry. *)
Theorem get_menu_data_on_stable_client w env now test_date st tomorrow :
  setup_connection env = true ->
  history_free w -> (forall log, answer_open w log = Ok tt) ->
  valid_date (default now test_date) ->
  MenuFetcher.add_one_day (default now test_date) = MenuFetcher.Done tomorrow ->
  exists st',
    MenuFetcher.get_menu_data w env now test_date st =
    (st', MenuFetcher.Done
            (MenuFetcher.mkdata
               (MenuFetcher.mkday
                  (MenuFetcher.strftime_A_dmY (default now test_date))
                  (from_option midi "" (expected_entry w (default now test_date)))
                  (from_option soir "" (expected_entry w (default now test_date))))
               (MenuFetcher.mkday
                  (MenuFetcher.strftime_A_dmY tomorrow)
                  (from_option midi "" (expected_entry w tomorrow))
                  (from_option soir "" (expected_entry w tomorrow))))).
Proof. apply get_menu_data_stable. Qed.

Lemma get_menu_data_on_stable_client_witness :
  exists st',
    MenuFetcher.get_menu_data (fixed_sheets [("Juin", grid_june)]) env_ok
      (mkdate 2020 1 1) (Some (mkdate 2025 6 30)) state0 =
    (st', MenuFetcher.Done
            (MenuFetcher.mkdata
               (MenuFetcher.mkday "Monday 30/06/2025" "Pates" "Soupe")
               (MenuFetcher.mkday "Tuesday 01/07/2025" "Riz" "Salade"))).
Proof.
  apply (get_menu_data_on_stable_client (fixed_sheets [("Juin", grid_june)])
           env_ok (mkdate 2020 1 1) (Some (mkdate 2025 6 30)) state0
           (mkdate 2025 7 1)).
  - reflexivity.
  - intros log log' name. split; reflexivity.
  - intros log. reflexivity.
  - by apply date_fields_ok_valid.
  - reflexivity.
Defined.

Lemma get_menu_data_fails_with_RuntimeError w env now test_date st st' e :
  MenuFetcher.get_menu_data w env now test_date st = (st', MenuFetcher.Fail e) ->
  e = MenuFetcher.RuntimeError.
Proof.
  unfold MenuFetcher.get_menu_data.
  destruct (MenuFetcher.add_one_day _) as [tomorrow|e']; [|by intros [= _ <-]].
  destruct (get_menus_for_dates w env _ st) as [st1 [m|e']]; [done|].
  by intros [= _ <-].
Qed.

(** X14. main reports a date it cannot parse, and then a credentials
    path that is not a regular file, before anything else: in both
    cases it ends with an error and has made no call to the client. An
    error other than [RuntimeError] always means that no call was made,
    and [RuntimeError] is reported only once the credentials file was
    found. *)
Theorem main_checks_before_any_call int w world args st :
  (forall s e,
     MenuFetcher.date args = Some s -> Str.truthy s = true ->
     MenuFetcher.parse_date_string int (MenuFetcher.now world) s
       = MenuFetcher.Fail e ->
     MenuFetcher.main int w world args st = (st, MenuFetcher.Failed e)) /\
  (MenuFetcher.isfile (MenuFetcher.credentials_path world) = false ->
   exists e,
     MenuFetcher.main int w world args st = (st, MenuFetcher.Failed e) /\
     e <> MenuFetcher.RuntimeError) /\
  (forall st' e,
     MenuFetcher.main int w world args st = (st', MenuFetcher.Failed e) ->
     (e <> MenuFetcher.RuntimeError -> st' = st) /\
     (e = MenuFetcher.RuntimeError ->
      MenuFetcher.isfile (MenuFetcher.credentials_path world) = true)).
Proof.
  assert (forall s e,
            MenuFetcher.parse_date_string int (MenuFetcher.now world) s
              = MenuFetcher.Fail e -> e <> MenuFetcher.RuntimeError) as Hparse.
  { intros s e He.
    destruct (parse_date_string_cases int (MenuFetcher.now world) s)
      as (_ & Herr & _).
    destruct (Herr e He) as [->| ->]; done. }
  split; [|split].
  - intros s e Hdate Htruthy He. unfold MenuFetcher.main.
    by rewrite Hdate, Htruthy, He.
  - intros Hfile. unfold MenuFetcher.main. rewrite Hfile. cbn [negb].
    destruct (MenuFetcher.date args) as [s|]; [|by eexists].
    destruct (Str.truthy s); [|by eexists].
    destruct (MenuFetcher.parse_date_string int (MenuFetcher.now world) s)
      as [d|e] eqn:He; [by eexists|].
    exists e. split; [done|]. by apply (Hparse s).
  - intros st' e. unfold MenuFetcher.main.
    assert (forall test_date,
      (if negb (MenuFetcher.isfile (MenuFetcher.credentials_path world))
       then (st, MenuFetcher.Failed MenuFetcher.FileNotFoundError)
       else
         match MenuFetcher.get_menu_data w (MenuFetcher.env_of world)
                 (MenuFetcher.now world) test_date st with
         | (st1, MenuFetcher.Done menus) => (st1, MenuFetcher.Printed menus)
         | (st1, MenuFetcher.Fail e1) => (st1, MenuFetcher.Failed e1)
         end) = (st', MenuFetcher.Failed e) ->
      (e <> MenuFetcher.RuntimeError -> st' = st) /\
      (e = MenuFetcher.RuntimeError ->
       MenuFetcher.isfile (MenuFetcher.credentials_path world) = true))
      as Hrest.
    { intros test_date.
      destruct (MenuFetcher.isfile (MenuFetcher.credentials_path world));
        cbn [negb]; [|by intros [= <- <-]].
      destruct (MenuFetcher.get_menu_data w _ _ test_date st)
        as [st1 [menus|e1]] eqn:Hdata; [done|].
      intros [= <- <-].
      apply get_menu_data_fails_with_RuntimeError in Hdata. by subst. }
    destruct (MenuFetcher.date args) as [s|]; [|apply Hrest].
    destruct (Str.truthy s); [|apply Hrest].
    destruct (MenuFetcher.parse_date_string int (MenuFetcher.now world) s)
      as [d|e1] eqn:He; [apply Hrest|].
    intros [= <- <-]. split; [done|]. intros ->. by destruct (Hparse s _ He).
Qed.

Lemma main_checks_before_any_call_witness :
  MenuFetcher.main MenuFetcher.py_int (fixed_sheets [("Juin", grid_june)])
    (MenuFetcher.mkworld (mkdate 2025 6 30) true MenuFetcher.RegularFile true)
    (MenuFetcher.mkargs "id" "credentials.json" (Some "31/06/2025")) state0
  = (state0, MenuFetcher.Failed MenuFetcher.ValueError).
Proof.
  apply (proj1 (main_checks_before_any_call MenuFetcher.py_int
                  (fixed_sheets [("Juin", grid_june)])
                  (MenuFetcher.mkworld (mkdate 2025 6 30) true
                     MenuFetcher.RegularFile true)
                  (MenuFetcher.mkargs "id" "credentials.json"
                     (Some "31/06/2025")) state0)
           "31/06/2025"); reflexivity.
Defined.

(** X15. When the credentials path is a regular file but the connection
    cannot be set up (gspread is not importable or the authentication
    fails), main does not report an error: for a date before
    9999-12-31 it prints the two records with empty lunch and dinner
    texts, ends with exit status 0 and has made no call to the
    client. *)
Theorem main_prints_empty_menus_when_setup_fails
    int w world args st today tomorrow :
  MenuFetcher.isfile (MenuFetcher.credentials_path world) = true ->
  MenuFetcher.gspread_imported world = false \/
    MenuFetcher.authorize_ok world = false ->
  match MenuFetcher.date args with
  | Some s =>
      if Str.truthy s then
        MenuFetcher.parse_date_string int (MenuFetcher.now world) s
        = MenuFetcher.Done today
      else today = MenuFetcher.now world
  | None => today = MenuFetcher.now world
  end ->
  MenuFetcher.add_one_day today = MenuFetcher.Done tomorrow ->
  MenuFetcher.main int w world args st =
    (st, MenuFetcher.Printed
           (MenuFetcher.mkdata
              (MenuFetcher.mkday (MenuFetcher.strftime_A_dmY today) "" "")
              (MenuFetcher.mkday (MenuFetcher.strftime_A_dmY tomorrow) "" "")))
  /\ MenuFetcher.exit_status (MenuFetcher.main int w world args st).2 = 0%Z.
Proof.
  intros Hfile Hsetup Hdate Hadd.
  assert (setup_connection (MenuFetcher.env_of world) = false) as Hs.
  { unfold setup_connection, MenuFetcher.env_of.
    cbn [GSPREAD_AVAILABLE credentials_file_exists authorize_succeeds].
    destruct Hsetup as [-> | ->]; [done|].
    destruct (MenuFetcher.gspread_imported world); [|done]. cbn [negb].
    by destruct (MenuFetcher.path_exists _). }
  assert (exists test_date,
    match MenuFetcher.date args with
    | Some date_str =>
        if Str.truthy date_str then
          match MenuFetcher.parse_date_string int (MenuFetcher.now world)
                  date_str with
          | MenuFetcher.Done d => MenuFetcher.Done (Some d)
          | MenuFetcher.Fail e => MenuFetcher.Fail e
          end
        else MenuFetcher.Done None
    | None => MenuFetcher.Done None
    end = MenuFetcher.Done test_date /\
    default (MenuFetcher.now world) test_date = today) as (test_date & Hp & Ht).
  { destruct (MenuFetcher.date args) as [s|]; [|by exists None].
    destruct (Str.truthy s); [|by exists None].
    rewrite Hdate. by exists (Some today). }
  assert (MenuFetcher.main int w world args st =
    (st, MenuFetcher.Printed
           (MenuFetcher.mkdata
              (MenuFetcher.mkday (MenuFetcher.strftime_A_dmY today) "" "")
              (MenuFetcher.mkday (MenuFetcher.strftime_A_dmY tomorrow) "" ""))))
    as Hmain.
  { unfold MenuFetcher.main. rewrite Hp, Hfile. cbn [negb].
    rewrite (get_menu_data_setup_fails w _ _ test_date st tomorrow Hs);
      by rewrite Ht. }
  split; [exact Hmain|]. by rewrite Hmain.
Qed.

Lemma main_prints_empty_menus_when_setup_fails_witness :
  MenuFetcher.exit_status
    (MenuFetcher.main MenuFetcher.py_int (fixed_sheets [("Juin", grid_june)])
       (MenuFetcher.mkworld (mkdate 2025 6 30) true MenuFetcher.RegularFile
          false)
       (MenuFetcher.mkargs "id" "credentials.json" None) state0).2 = 0%Z.
Proof.
  apply (main_prints_empty_menus_when_setup_fails MenuFetcher.py_int
           (fixed_sheets [("Juin", grid_june)])
           (MenuFetcher.mkworld (mkdate 2025 6 30) true
              MenuFetcher.RegularFile false)
           (MenuFetcher.mkargs "id" "credentials.json" None) state0
           (mkdate 2025 6 30) (mkdate 2025 7 1));
    (reflexivity || (right; reflexivity)).
Defined.

(** ** The result of the batch on any client *)

Lemma group_dates_menus w dates groups st :
  Forall valid_date dates ->
  menus (group_dates w dates groups st).1 = menus st.
Proof.
  intros Hv. revert groups st.
  induction Hv as [|d rest Hd _ IH]; intros groups st; [done|].
  destruct (determine_sheet_for_date_budget w d st Hd) as (cs & _ & Hm & _).
  cbn [group_dates]. unfold mbind, M_bind.
  destruct (determine_sheet_for_date w d st) as [st1 [[ws|]|e]];
    cbn [fst] in Hm; rewrite <- Hm; [apply IH|apply IH|done].
Qed.

Lemma foldl_extract_into_keys g ds (m : gmap string MenuEntry) key :
  is_Some (foldl (extract_into g) m ds !! key) ->
  is_Some (m !! key) \/ exists d, d ∈ ds /\ strftime_ymd d = key.
Proof.
  revert m. induction ds as [|d rest IH]; intros m H; [by left|].
  cbn [foldl] in H. destruct (IH _ H) as [Hm|(x & Hx & Hk)].
  - unfold extract_into in Hm.
    destruct (find_match (strftime_dm d) g 0) as [[i c]|]; [|by left].
    destruct (decide (strftime_ymd d = key)) as [Heq|Hne].
    + right. exists d. split; [apply list_elem_of_here|done].
    + rewrite lookup_insert_ne in Hm by done. by left.
  - right. exists x. split; [by apply list_elem_of_further|done].
Qed.

Lemma processed_menus_keys w groups log (m : gmap string MenuEntry) key :
  is_Some (processed_menus w groups log m !! key) ->
  is_Some (m !! key) \/
  exists t ds d, (t, ds) ∈ groups /\ d ∈ ds /\ strftime_ymd d = key.
Proof.
  revert log m. induction groups as [|[t ds] rest IH]; intros log m H;
    [by left|].
  cbn [processed_menus] in H.
  destruct (IH _ _ H) as [Hm|(t' & ds' & d & Hin & Hd & Hk)].
  - destruct (answer_values w log t) as [g|e]; [|by left].
    destruct (foldl_extract_into_keys g ds m key Hm) as [?|(d & Hd & Hk)];
      [by left|].
    right. exists t, ds, d. split; [apply list_elem_of_here|done].
  - right. exists t', ds', d. split; [by apply list_elem_of_further|done].
Qed.

(** X16. Whatever the client answers, the dictionary returned by
    [get_menus_for_dates] for valid dates has no key but keys of
    requested dates: the batch never returns an entry for a day that
    was not asked for. *)
Theorem batch_keys_are_requested w env dates st st' m :
  Forall valid_date dates ->
  get_menus_for_dates w env dates st = (st', Ok m) ->
  forall key, is_Some (m !! key) ->
  exists d, d ∈ dates /\ strftime_ymd d = key.
Proof.
  intros Hv Hrun key Hkey. unfold get_menus_for_dates in Hrun.
  destruct (setup_connection env); cbn [negb] in Hrun.
  - erewrite bind_ok in Hrun by reflexivity.
    pose proof (group_dates_menus w dates [] (mkstate (calls st) ∅) Hv) as Hm.
    unfold mbind, M_bind in Hrun.
    destruct (group_dates w dates [] (mkstate (calls st) ∅))
      as [st1 [groups|e]] eqn:Hg; [|done].
    rewrite process_worksheets_spec in Hrun. cbn in Hrun, Hm.
    injection Hrun as _ <-. rewrite Hm in Hkey.
    destruct (processed_menus_keys _ _ _ _ _ Hkey)
      as [H|(t & ds & d & Hin & Hd & Hk)].
    + rewrite lookup_empty in H. by destruct H.
    + exists d. split; [|done].
      assert (groups_from dates groups) as Hfrom.
      { eapply group_dates_groups_from; [|exact Hg|by constructor]. done. }
      unfold groups_from in Hfrom.
      apply (proj1 (Forall_forall _ _) Hfrom (t, ds) Hin). exact Hd.
  - injection Hrun as _ <-. rewrite lookup_empty in Hkey. by destruct Hkey.
Qed.

Lemma batch_keys_are_requested_witness :
  exists d,
    d ∈ [mkdate 2025 6 30; mkdate 2025 7 1] /\ strftime_ymd d = "2025-07-01".
Proof.
  destruct (get_menus_for_dates (fixed_sheets [("Juin", grid_june)]) env_ok
              [mkdate 2025 6 30; mkdate 2025 7 1] state0) as [st' r] eqn:Hrun.
  destruct r as [m|e]; [|vm_compute in Hrun; discriminate Hrun].
  apply (batch_keys_are_requested (fixed_sheets [("Juin", grid_june)]) env_ok
           [mkdate 2025 6 30; mkdate 2025 7 1] state0 st' m).
  - constructor; [by apply date_fields_ok_valid|].
    constructor; [by apply date_fields_ok_valid|]. constructor.
  - exact Hrun.
  - injection Hrun as _ <-. eexists. reflexivity.
Defined.

(** ** display_eink.py *)

Lemma run_ops_spec dev os log :
  exists done,
    (DisplayEink.run_ops dev os log).1 = log ++ done /\
    done `prefix_of` os /\
    ((DisplayEink.run_ops dev os log).2 = Some tt -> done = os).
Proof.
  revert log. induction os as [|o rest IH]; intros log.
  - exists []. cbn. rewrite app_nil_r. split; [done|]. split; [by exists []|done].
  - cbn [DisplayEink.run_ops].
    unfold mbind, DisplayEink.Run_bind, DisplayEink.panel_op.
    destruct (DisplayEink.panel dev log o).
    + destruct (IH (log ++ [o])) as (done & Hlog & Hpre & Hok).
      exists (o :: done). rewrite Hlog, <- app_assoc. cbn [app].
      split; [done|]. split; [by apply prefix_cons|].
      intros H. by rewrite (Hok H).
    + exists [o]. cbn [fst snd]. split; [done|].
      split; [by exists rest|done].
Qed.

Lemma show_image_spec dev image_path fast_refresh log :
  DisplayEink.show_image dev image_path fast_refresh log =
  match DisplayEink.prepared_image dev image_path with
  | None => (log, None)
  | Some img =>
      DisplayEink.run_ops dev (DisplayEink.refresh_ops fast_refresh img) log
  end.
Proof.
  unfold DisplayEink.show_image, DisplayEink.prepared_image.
  unfold mbind at 1, DisplayEink.Run_bind at 1, DisplayEink.lift at 1.
  destruct (DisplayEink.image_open dev image_path) as [img0|]; [|done].
  unfold mbind at 1, DisplayEink.Run_bind at 1.
  assert ((if negb (String.eqb (DisplayEink.mode img0) "1")
           then DisplayEink.lift (DisplayEink.image_convert dev img0 "1")
           else mret img0) log =
          (log, if negb (String.eqb (DisplayEink.mode img0) "1")
                then DisplayEink.image_convert dev img0 "1"
                else Some img0)) as -> by (by destruct (negb _)).
  destruct (if negb (String.eqb (DisplayEink.mode img0) "1")
            then DisplayEink.image_convert dev img0 "1" else Some img0)
    as [img1|]; [|done].
  unfold mbind at 1, DisplayEink.Run_bind at 1.
  assert ((if negb (DisplayEink.size_eqb (DisplayEink.size img1)
                      DisplayEink.target_size)
           then DisplayEink.lift
                  (DisplayEink.image_resize dev img1 DisplayEink.target_size)
           else mret img1) log =
          (log, if negb (DisplayEink.size_eqb (DisplayEink.size img1)
                           DisplayEink.target_size)
                then DisplayEink.image_resize dev img1 DisplayEink.target_size
                else Some img1)) as -> by (by destruct (negb _)).
  destruct (if negb (DisplayEink.size_eqb (DisplayEink.size img1)
                       DisplayEink.target_size)
            then DisplayEink.image_resize dev img1 DisplayEink.target_size
            else Some img1) as [img|]; [|done].
  unfold DisplayEink.refresh_ops.
  destruct fast_refresh; cbn [DisplayEink.run_ops];
    unfold mbind, DisplayEink.Run_bind, DisplayEink.panel_op, mret,
      DisplayEink.Run_ret;
    repeat (match goal with
            | |- context [DisplayEink.panel dev ?l ?o] =>
                destruct (DisplayEink.panel dev l o)
            end; try reflexivity).
Qed.

Lemma prefix_last_in {A} (l done : list A) (x : A) :
  done `prefix_of` (l ++ [x]) -> x ∉ l -> x ∈ done -> done = l ++ [x].
Proof.
  intros [k Hk] Hnin Hin. destruct k as [|y k _] using rev_ind.
  - by rewrite app_nil_r in Hk.
  - rewrite app_assoc in Hk. apply app_inj_tail in Hk as [-> _].
    destruct Hnin. apply elem_of_app. by left.
Qed.

Lemma display_image_on_eink_spec dev image_path fast_refresh log :
  exists ops,
    (DisplayEink.display_image_on_eink dev image_path fast_refresh log).1
      = log ++ ops /\
    (DisplayEink.import_ok dev = false \/
     DisplayEink.path_exists dev image_path = false \/
     DisplayEink.prepared_image dev image_path = None ->
     ops = [] /\
     (DisplayEink.display_image_on_eink dev image_path fast_refresh log).2
       = false) /\
    (forall img,
       DisplayEink.prepared_image dev image_path = Some img ->
       ops `prefix_of` DisplayEink.refresh_ops fast_refresh img /\
       ((DisplayEink.display_image_on_eink dev image_path fast_refresh log).2
          = true -> ops = DisplayEink.refresh_ops fast_refresh img)) /\
    (ops <> [] ->
     exists img, DisplayEink.prepared_image dev image_path = Some img).
Proof.
  unfold DisplayEink.display_image_on_eink. rewrite show_image_spec.
  assert (exists ops : list DisplayEink.op,
            log = log ++ ops /\ ops = []) as Hnil.
  { exists []. by rewrite app_nil_r. }
  destruct (DisplayEink.import_ok dev); cbn [negb].
  2:{ exists []. rewrite app_nil_r. split; [done|]. split; [done|].
      split; [|done]. intros img _. split; [by eexists|done]. }
  destruct (DisplayEink.path_exists dev image_path); cbn [negb].
  2:{ exists []. rewrite app_nil_r. split; [done|]. split; [done|].
      split; [|done]. intros img _. split; [by eexists|done]. }
  destruct (DisplayEink.prepared_image dev image_path) as [img|].
  - destruct (run_ops_spec dev (DisplayEink.refresh_ops fast_refresh img) log)
      as (ops & Hlog & Hpre & Hok).
    exists ops.
    destruct (DisplayEink.run_ops dev _ log) as [log' [[]|]];
      cbn [fst snd] in *.
    + split; [done|]. split; [by intros [?|[?|?]]|].
      split; [|by eexists]. intros ? [= <-]. split; [done|]. auto.
    + split; [done|]. split; [by intros [?|[?|?]]|].
      split; [|by eexists]. intros ? [= <-]. split; [done|]. done.
  - exists []. rewrite app_nil_r. split; [done|]. split; [done|].
    split; [done|done].
Qed.

(** The operations are made one after the other until one raises:
    either all of them return, or the run stops at the first that
    raises, which is the last one made. *)
Lemma run_ops_first_failure dev os log :
  (DisplayEink.run_ops dev os log = (log ++ os, Some tt) /\
   forall k o, os !! k = Some o ->
               DisplayEink.panel dev (log ++ take k os) o = true) \/
  (exists k o,
     os !! k = Some o /\
     DisplayEink.panel dev (log ++ take k os) o = false /\
     (forall j o', j < k -> os !! j = Some o' ->
        DisplayEink.panel dev (log ++ take j os) o' = true) /\
     DisplayEink.run_ops dev os log = (log ++ take (S k) os, None)).
Proof.
  revert log. induction os as [|o rest IH]; intros log.
  - left. cbn. rewrite app_nil_r. split; [done|].
    intros k o H. by rewrite lookup_nil in H.
  - cbn [DisplayEink.run_ops].
    unfold mbind, DisplayEink.Run_bind, DisplayEink.panel_op.
    destruct (DisplayEink.panel dev log o) eqn:Ho.
    + destruct (IH (log ++ [o])) as [[Hrun Hall]|(k & o' & Hk & Hf & Hb & Hrun)].
      * left. rewrite Hrun, <- app_assoc. split; [done|].
        intros [|k] o' Hk.
        -- cbn in Hk. injection Hk as <-. cbn [take]. by rewrite app_nil_r.
        -- cbn in Hk. cbn [take]. specialize (Hall k o' Hk).
           by rewrite <- app_assoc in Hall.
      * right. exists (S k), o'. split; [exact Hk|]. split.
        { cbn [take]. by rewrite <- app_assoc in Hf. }
        split.
        { intros [|j] o'' Hj Hl.
          - cbn in Hl. injection Hl as <-. cbn [take]. by rewrite app_nil_r.
          - cbn in Hl. cbn [take]. assert (j < k) as Hjk by lia.
            specialize (Hb j o'' Hjk Hl). by rewrite <- app_assoc in Hb. }
        rewrite Hrun. cbn [take]. by rewrite <- app_assoc.
    + right. exists 0, o. split; [done|]. cbn [take].
      rewrite app_nil_r. split; [exact Ho|]. split; [intros j o' Hj; lia|].
      done.
Qed.

Lemma sleep_is_last fast_refresh img k o :
  DisplayEink.refresh_ops fast_refresh img !! k = Some o ->
  o = DisplayEink.Sleep <->
  S k = length (DisplayEink.refresh_ops fast_refresh img).
Proof.
  unfold DisplayEink.refresh_ops. destruct fast_refresh.
  - do 5 (destruct k as [|k];
          [cbn; intros [= <-]; split; intros H; first [done|lia]|]).
    cbn. done.
  - do 6 (destruct k as [|k];
          [cbn; intros [= <-]; split; intros H; first [done|lia]|]).
    cbn. done.
Qed.

Lemma display_image_on_eink_run dev image_path fast_refresh log :
  ((DisplayEink.import_ok dev = false \/
    DisplayEink.path_exists dev image_path = false \/
    DisplayEink.prepared_image dev image_path = None) /\
   DisplayEink.display_image_on_eink dev image_path fast_refresh log
     = (log, false))
  \/
  exists img,
    DisplayEink.import_ok dev = true /\
    DisplayEink.path_exists dev image_path = true /\
    DisplayEink.prepared_image dev image_path = Some img /\
    let os := DisplayEink.refresh_ops fast_refresh img in
    ((DisplayEink.display_image_on_eink dev image_path fast_refresh log
        = (log ++ os, true) /\
      forall k o, os !! k = Some o ->
                  DisplayEink.panel dev (log ++ take k os) o = true) \/
     (exists k o,
        os !! k = Some o /\
        DisplayEink.panel dev (log ++ take k os) o = false /\
        (forall j o', j < k -> os !! j = Some o' ->
           DisplayEink.panel dev (log ++ take j os) o' = true) /\
        DisplayEink.display_image_on_eink dev image_path fast_refresh log
          = (log ++ take (S k) os, false))).
Proof.
  unfold DisplayEink.display_image_on_eink. rewrite show_image_spec.
  destruct (DisplayEink.import_ok dev); cbn [negb]; [|left; auto].
  destruct (DisplayEink.path_exists dev image_path); cbn [negb];
    [|left; auto].
  destruct (DisplayEink.prepared_image dev image_path) as [img|];
    [|left; auto].
  right. exists img. split; [done|]. split; [done|]. split; [done|].
  cbn zeta.
  destruct (run_ops_first_failure dev
              (DisplayEink.refresh_ops fast_refresh img) log)
    as [[Hrun Hall]|(k & o & Hk & Hf & Hb & Hrun)]; rewrite Hrun.
  - by left.
  - right. by exists k, o.
Qed.

(** X17. [display_image_on_eink] touches the panel only once the
    library is imported, the file exists and the image is opened,
    converted and resized: otherwise it returns [False] and makes no
    operation on the panel. The operations it makes are the beginning
    of the sequence of the chosen mode (EPD, init, Clear, getbuffer,
    display, sleep for a full refresh; EPD, init_fast, getbuffer,
    display, sleep for a fast one) up to the first that raises: every
    operation made but the last returned, and when the function
    returns [False] after the image was prepared, the last operation
    made is one that raised. It returns [True] only when the whole
    sequence was made and every operation returned. [sleep] is reached
    only after every other operation returned: when an operation fails
    before, the panel is not put to sleep. [Clear] is never called in
    fast mode. *)
Theorem panel_operations_follow_the_mode dev image_path fast_refresh log :
  exists ops,
    (DisplayEink.display_image_on_eink dev image_path fast_refresh log).1
      = log ++ ops /\
    (DisplayEink.import_ok dev = false \/
     DisplayEink.path_exists dev image_path = false \/
     DisplayEink.prepared_image dev image_path = None ->
     ops = [] /\
     (DisplayEink.display_image_on_eink dev image_path fast_refresh log).2
       = false) /\
    (forall img,
       DisplayEink.prepared_image dev image_path = Some img ->
       ops `prefix_of` DisplayEink.refresh_ops fast_refresh img /\
       ((DisplayEink.display_image_on_eink dev image_path fast_refresh log).2
          = true -> ops = DisplayEink.refresh_ops fast_refresh img) /\
       (DisplayEink.Sleep ∈ ops ->
        ops = DisplayEink.refresh_ops fast_refresh img) /\
       (fast_refresh = true -> DisplayEink.Clear ∉ ops) /\
       (forall k o, ops !! k = Some o -> S k < length ops ->
          DisplayEink.panel dev (log ++ take k ops) o = true) /\
       (DisplayEink.import_ok dev = true ->
        DisplayEink.path_exists dev image_path = true ->
        (DisplayEink.display_image_on_eink dev image_path fast_refresh log).2
          = false ->
        exists k o,
          ops = take (S k) (DisplayEink.refresh_ops fast_refresh img) /\
          DisplayEink.refresh_ops fast_refresh img !! k = Some o /\
          DisplayEink.panel dev (log ++ take k ops) o = false) /\
       ((DisplayEink.display_image_on_eink dev image_path fast_refresh log).2
          = true ->
        forall k o, ops !! k = Some o ->
          DisplayEink.panel dev (log ++ take k ops) o = true) /\
       (forall k o, ops !! k = Some o -> o <> DisplayEink.Sleep ->
          DisplayEink.panel dev (log ++ take k ops) o = false ->
          DisplayEink.Sleep ∉ ops)).
Proof.
  destruct (display_image_on_eink_run dev image_path fast_refresh log)
    as [[Hearly Hrun]|(img & Hi & He & Himg & Hrun)].
  { exists []. rewrite Hrun, app_nil_r. split; [done|]. split; [done|].
    intros img Himg. split; [apply prefix_nil|]. split; [done|].
    split; [by intros H%elem_of_nil|]. split; [intros _; apply not_elem_of_nil|].
    split; [intros k o H; by rewrite lookup_nil in H|].
    split.
    { intros Hi He _. destruct Hearly as [H|[H|H]]; congruence. }
    split; [done|]. intros k o H. by rewrite lookup_nil in H. }
  set (os := DisplayEink.refresh_ops fast_refresh img) in *.
  assert (fast_refresh = true -> DisplayEink.Clear ∉ os) as Hclear.
  { intros ->. subst os. unfold DisplayEink.refresh_ops.
    rewrite !elem_of_cons, elem_of_nil. intros [?|[?|[?|[?|[?|[]]]]]]; done. }
  destruct Hrun as [[Hrun Hall]|(k & o & Hk & Hf & Hb & Hrun)].
  - exists os. rewrite Hrun. cbn [fst snd]. split; [done|].
    split; [intros [H|[H|H]]; congruence|].
    intros img' Himg'. rewrite Himg in Himg'. injection Himg' as <-.
    fold os. split; [done|]. split; [done|]. split; [done|].
    split; [exact Hclear|]. split; [intros j o' Hj _; by apply Hall|].
    split; [done|]. split; [intros _; exact Hall|].
    intros j o' Hj _ Hfalse. rewrite (Hall j o' Hj) in Hfalse. done.
  - pose proof (lookup_lt_Some _ _ _ Hk) as Hlt.
    assert (forall j, j <= k -> take j (take (S k) os) = take j os) as Htake.
    { intros j Hj. rewrite take_take. f_equal. lia. }
    assert (forall j o', take (S k) os !! j = Some o' ->
              os !! j = Some o' /\ j <= k) as Hlook.
    { intros j o' [H1 H2]%lookup_take_Some. split; [done|lia]. }
    assert (DisplayEink.Sleep ∈ take (S k) os -> S k = length os) as Hlast.
    { intros (j & Hj & Hjk)%elem_of_take.
      pose proof (proj1 (sleep_is_last fast_refresh img j _ Hj) eq_refl)
        as Hl. fold os in Hl. lia. }
    exists (take (S k) os). rewrite Hrun. cbn [fst snd]. split; [done|].
    split; [intros [H|[H|H]]; congruence|].
    intros img' Himg'. rewrite Himg in Himg'. injection Himg' as <-.
    fold os. split; [apply prefix_take|]. split; [done|].
    split; [intros H%Hlast; apply take_ge; lia|].
    split.
    { intros Hfast Hin. apply (Hclear Hfast).
      apply elem_of_take in Hin as (j & Hj & _).
      by apply list_elem_of_lookup_2 in Hj. }
    split.
    { intros j o' Hj Hlen. rewrite length_take in Hlen.
      destruct (Hlook j o' Hj) as [Hj' _].
      rewrite Htake by lia. apply Hb; [lia|done]. }
    split.
    { intros _ _ _. exists k, o. split; [done|]. split; [done|].
      by rewrite Htake. }
    split; [done|].
    intros j o' Hj Hne Hfalse Hin. destruct (Hlook j o' Hj) as [Hj' Hjk].
    rewrite Htake in Hfalse by done.
    destruct (decide (j = k)) as [->|Hjne].
    + apply Hlast in Hin.
      apply Hne, (sleep_is_last fast_refresh img k); done.
    + rewrite (Hb j o') in Hfalse; [done|lia|done].
Qed.

Lemma panel_operations_follow_the_mode_witness :
  (DisplayEink.display_image_on_eink
     (DisplayEink.mkdevice true (fun _ => false) (fun _ => None)
        (fun _ _ => None) (fun _ _ => None) (fun _ _ => true))
     "dashboard.png" false []).2 = false.
Proof.
  destruct (panel_operations_follow_the_mode
              (DisplayEink.mkdevice true (fun _ => false) (fun _ => None)
                 (fun _ _ => None) (fun _ _ => None) (fun _ _ => true))
              "dashboard.png" false []) as (ops & _ & Hnone & _).
  apply Hnone. right. left. reflexivity.
Defined.

Lemma size_eqb_eq a b : DisplayEink.size_eqb a b = true <-> a = b.
Proof.
  destruct a as [a1 a2], b as [b1 b2]. unfold DisplayEink.size_eqb.
  cbn [fst snd]. rewrite andb_true_iff, !Nat.eqb_eq.
  split; [by intros [-> ->]|by intros [= -> ->]].
Qed.

Lemma prepared_image_normalised dev image_path img :
  (forall i m i', DisplayEink.image_convert dev i m = Some i' ->
                  DisplayEink.mode i' = m /\
                  DisplayEink.size i' = DisplayEink.size i) ->
  (forall i sz i', DisplayEink.image_resize dev i sz = Some i' ->
                   DisplayEink.size i' = sz /\
                   DisplayEink.mode i' = DisplayEink.mode i) ->
  DisplayEink.prepared_image dev image_path = Some img ->
  DisplayEink.mode img = "1" /\ DisplayEink.size img = DisplayEink.target_size.
Proof.
  intros Hconv Hres. unfold DisplayEink.prepared_image.
  destruct (DisplayEink.image_open dev image_path) as [img0|]; [|done].
  assert (forall img1,
            (if negb (String.eqb (DisplayEink.mode img0) "1")
             then DisplayEink.image_convert dev img0 "1" else Some img0)
            = Some img1 -> DisplayEink.mode img1 = "1") as Hmode.
  { intros img1. destruct (String.eqb (DisplayEink.mode img0) "1") eqn:E;
      cbn [negb].
    - intros [= <-]. by apply String.eqb_eq.
    - intros H. by destruct (Hconv _ _ _ H). }
  destruct (if negb (String.eqb (DisplayEink.mode img0) "1")
            then DisplayEink.image_convert dev img0 "1" else Some img0)
    as [img1|]; [|done].
  specialize (Hmode img1 eq_refl).
  destruct (DisplayEink.size_eqb (DisplayEink.size img1)
              DisplayEink.target_size) eqn:E; cbn [negb].
  - intros [= <-]. split; [done|]. by apply size_eqb_eq.
  - intros H. destruct (Hres _ _ _ H) as [Hs Hm]. split; [congruence|done].
Qed.

Lemma run_ops_succeeds dev os log :
  (DisplayEink.run_ops dev os log).2 = Some tt <->
  forall k o, os !! k = Some o ->
              DisplayEink.panel dev (log ++ take k os) o = true.
Proof.
  revert log. induction os as [|o rest IH]; intros log.
  - cbn. split; [intros _ k o H; by rewrite lookup_nil in H|done].
  - cbn [DisplayEink.run_ops].
    unfold mbind, DisplayEink.Run_bind, DisplayEink.panel_op.
    destruct (DisplayEink.panel dev log o) eqn:Ho.
    + rewrite IH. split.
      * intros H [|k] o' Hk.
        -- cbn in Hk. injection Hk as <-. cbn [take]. by rewrite app_nil_r.
        -- cbn [take]. cbn in Hk. specialize (H k o' Hk).
           by rewrite <- app_assoc in H.
      * intros H k o' Hk. specialize (H (S k) o' Hk).
        cbn [take] in H. by rewrite <- app_assoc.
    + cbn [snd]. split; [done|]. intros H.
      specialize (H 0%nat o eq_refl). cbn [take] in H.
      rewrite app_nil_r in H. congruence.
Qed.

(** X18. When PIL keeps its contract ([convert] gives an image of the
    requested mode and of the same size, [resize] an image of the
    requested size and of the same mode), every image handed to the
    panel's [getbuffer] by [display_image_on_eink] is in mode "1" and
    of size (480, 800), whatever the file holds and whichever refresh
    mode is chosen; and the image that reaches the panel is the one
    prepared from the file. *)
Theorem panel_receives_normalised_image dev image_path fast_refresh log ops img :
  (forall i m i', DisplayEink.image_convert dev i m = Some i' ->
                  DisplayEink.mode i' = m /\
                  DisplayEink.size i' = DisplayEink.size i) ->
  (forall i sz i', DisplayEink.image_resize dev i sz = Some i' ->
                   DisplayEink.size i' = sz /\
                   DisplayEink.mode i' = DisplayEink.mode i) ->
  (DisplayEink.display_image_on_eink dev image_path fast_refresh log).1
    = log ++ ops ->
  DisplayEink.GetBuffer img ∈ ops ->
  DisplayEink.prepared_image dev image_path = Some img /\
  DisplayEink.mode img = "1" /\ DisplayEink.size img = (480, 800)%nat.
Proof.
  intros Hconv Hres Hlog Hin.
  destruct (display_image_on_eink_spec dev image_path fast_refresh log)
    as (ops' & Hlog' & _ & Hsome & Hne).
  rewrite Hlog in Hlog'. apply app_inv_head in Hlog' as <-.
  destruct Hne as [img' Himg']; [by intros ->; apply elem_of_nil in Hin|].
  destruct (Hsome img' Himg') as [[k Hk] _].
  assert (DisplayEink.GetBuffer img ∈ DisplayEink.refresh_ops fast_refresh img')
    as Hin'.
  { rewrite Hk. apply elem_of_app. by left. }
  assert (img = img') as ->.
  { unfold DisplayEink.refresh_ops in Hin'.
    destruct fast_refresh; rewrite !elem_of_cons, elem_of_nil in Hin';
      repeat (destruct Hin' as [Hin'|Hin']; try done); congruence. }
  split; [done|].
  by apply (prepared_image_normalised dev image_path).
Qed.

Lemma panel_receives_normalised_image_witness :
  DisplayEink.prepared_image DisplayEink.sample_device "dashboard.png"
    = Some (DisplayEink.mkimage "1" (480, 800)%nat) /\
  DisplayEink.mode (DisplayEink.mkimage "1" (480, 800)%nat) = "1" /\
  DisplayEink.size (DisplayEink.mkimage "1" (480, 800)%nat) = (480, 800)%nat.
Proof.
  apply (panel_receives_normalised_image DisplayEink.sample_device
           "dashboard.png" false []
           [DisplayEink.NewEPD; DisplayEink.Init; DisplayEink.Clear;
            DisplayEink.GetBuffer (DisplayEink.mkimage "1" (480, 800)%nat);
            DisplayEink.Display; DisplayEink.Sleep]).
  - intros i m i' [= <-]. done.
  - intros i sz i' [= <-]. done.
  - reflexivity.
  - apply list_elem_of_further, list_elem_of_further, list_elem_of_further,
      list_elem_of_here.
Defined.

(** X19. [display_image_on_eink] returns [True] exactly when nothing
    raised on the way: the library imports, the file exists, the image
    is opened, converted and resized, and every operation of the
    sequence of the chosen mode returns, each one made after the
    previous ones. *)
Theorem display_succeeds_iff_nothing_raises dev image_path fast_refresh log :
  (DisplayEink.display_image_on_eink dev image_path fast_refresh log).2 = true
  <->
  DisplayEink.import_ok dev = true /\
  DisplayEink.path_exists dev image_path = true /\
  exists img,
    DisplayEink.prepared_image dev image_path = Some img /\
    forall k o,
      DisplayEink.refresh_ops fast_refresh img !! k = Some o ->
      DisplayEink.panel dev
        (log ++ take k (DisplayEink.refresh_ops fast_refresh img)) o = true.
Proof.
  unfold DisplayEink.display_image_on_eink. rewrite show_image_spec.
  destruct (DisplayEink.import_ok dev); cbn [negb snd];
    [|split; [done|by intros [? _]]].
  destruct (DisplayEink.path_exists dev image_path); cbn [negb snd];
    [|split; [done|by intros (_ & ? & _)]].
  destruct (DisplayEink.prepared_image dev image_path) as [img|];
    [|split; [done|by intros (_ & _ & ? & ? & _)]].
  pose proof (run_ops_succeeds dev
                (DisplayEink.refresh_ops fast_refresh img) log) as Hrun.
  destruct (DisplayEink.run_ops dev _ log) as [log' [[]|]]; cbn [snd] in *.
  - split; [|done]. intros _. split; [done|]. split; [done|].
    exists img. split; [done|]. by apply Hrun.
  - split; [done|]. intros (_ & _ & img' & [= <-] & H).
    apply Hrun in H. done.
Qed.

Lemma display_succeeds_iff_nothing_raises_witness :
  (DisplayEink.display_image_on_eink DisplayEink.sample_device
     "dashboard.png" true []).2 = true.
Proof.
  apply (display_succeeds_iff_nothing_raises DisplayEink.sample_device
           "dashboard.png" true []).
  split; [reflexivity|]. split; [reflexivity|].
  exists (DisplayEink.mkimage "1" (480, 800)%nat). split; [reflexivity|].
  intros k o _. reflexivity.
Defined.

Lemma main_cases dev argv log :
  ((length argv < 2)%nat \/ (3 < length argv)%nat) /\
    DisplayEink.main dev argv log = (log, 1%Z)
  \/
  exists prog image_path rest,
    argv = prog :: image_path :: rest /\ (length rest <= 1)%nat /\
    DisplayEink.main dev argv log =
    let r := DisplayEink.display_image_on_eink dev image_path
               (match rest with
                | [arg] => String.eqb (Str.lower arg) "fast"
                | _ => false
                end) log in
    (r.1, if r.2 then 0%Z else 1%Z).
Proof.
  destruct argv as [|prog [|image_path [|arg [|x rest]]]].
  - left. split; [left; cbn; lia|done].
  - left. split; [left; cbn; lia|done].
  - right. exists prog, image_path, []. split; [done|]. split; [cbn; lia|].
    unfold DisplayEink.main. cbn [length Nat.ltb Nat.leb orb Nat.eqb andb].
    cbn [lookup list_lookup].
    by destruct (DisplayEink.display_image_on_eink _ _ _ _) as [? []].
  - right. exists prog, image_path, [arg]. split; [done|]. split; [cbn; lia|].
    unfold DisplayEink.main. cbn [length Nat.ltb Nat.leb orb Nat.eqb andb].
    cbn [lookup list_lookup].
    by destruct (DisplayEink.display_image_on_eink _ _ _ _) as [? []].
  - left. split; [right; cbn; lia|done].
Qed.

Lemma main_exit_status dev argv log :
  ((DisplayEink.main dev argv log).2 = 0%Z \/
   (DisplayEink.main dev argv log).2 = 1%Z) /\
  ((length argv < 2)%nat \/ (3 < length argv)%nat ->
   DisplayEink.main dev argv log = (log, 1%Z)) /\
  ((DisplayEink.main dev argv log).2 = 0%Z ->
   exists prog image_path rest img,
     argv = prog :: image_path :: rest /\
     DisplayEink.prepared_image dev image_path = Some img /\
     (DisplayEink.main dev argv log).1 =
     log ++ DisplayEink.refresh_ops
              (match rest with
               | [arg] => String.eqb (Str.lower arg) "fast"
               | _ => false
               end) img).
Proof.
  destruct (main_cases dev argv log)
    as [[Hlen ->]|(prog & image_path & rest & -> & Hrest & ->)].
  - split; [by right|]. split; [done|]. done.
  - cbn zeta. cbn [fst snd].
    set (fast := match rest with
                 | [arg] => String.eqb (Str.lower arg) "fast"
                 | _ => false
                 end).
    destruct (display_image_on_eink_spec dev image_path fast log)
      as (ops & Hlog & Hnone & Hsome & _).
    destruct (DisplayEink.prepared_image dev image_path) as [img|] eqn:Himg.
    + destruct (Hsome img eq_refl) as [_ Hok].
      destruct (DisplayEink.display_image_on_eink dev image_path fast log)
        as [log' []]; cbn [fst snd] in *.
      * split; [by left|]. split; [cbn [length]; lia|]. intros _.
        exists prog, image_path, rest, img. split; [done|]. split; [done|].
        by rewrite Hlog, Hok.
      * split; [by right|]. split; [cbn [length]; lia|]. done.
    + destruct Hnone as [-> Hr]; [by right; right|]. rewrite Hr.
      split; [by right|]. split; [cbn [length]; lia|]. done.
Qed.

(** X20. [main] of display_eink.py exits with status 0 or 1. With
    fewer than one or more than two arguments it exits with 1 without
    touching the panel. With one or two arguments it does what
    [display_image_on_eink] does on its first argument, in fast mode
    exactly when a second argument is given and is "fast" up to case,
    and exits with 0 if that call returns [True], with 1 otherwise: any
    other second argument is not an error but a full refresh. It
    exits with 0 only after the whole refresh sequence of that mode
    was made on the panel with the image prepared from its first
    argument. *)
Theorem main_exit_status_reflects_refresh dev argv log :
  ((DisplayEink.main dev argv log).2 = 0%Z \/
   (DisplayEink.main dev argv log).2 = 1%Z) /\
  ((length argv < 2)%nat \/ (3 < length argv)%nat ->
   DisplayEink.main dev argv log = (log, 1%Z)) /\
  ((DisplayEink.main dev argv log).2 = 0%Z ->
   exists prog image_path rest img,
     argv = prog :: image_path :: rest /\
     DisplayEink.prepared_image dev image_path = Some img /\
     (DisplayEink.main dev argv log).1 =
     log ++ DisplayEink.refresh_ops
              (match rest with
               | [arg] => String.eqb (Str.lower arg) "fast"
               | _ => false
               end) img) /\
  (forall prog image_path rest,
     argv = prog :: image_path :: rest -> (length rest <= 1)%nat ->
     DisplayEink.main dev argv log =
     ((DisplayEink.display_image_on_eink dev image_path
         (match rest with
          | [arg] => String.eqb (Str.lower arg) "fast"
          | _ => false
          end) log).1,
      if (DisplayEink.display_image_on_eink dev image_path
            (match rest with
             | [arg] => String.eqb (Str.lower arg) "fast"
             | _ => false
             end) log).2
      then 0%Z else 1%Z)).
Proof.
  destruct (main_exit_status dev argv log) as (Hstatus & Husage & Hdone).
  split; [exact Hstatus|]. split; [exact Husage|]. split; [exact Hdone|].
  intros prog image_path rest -> Hrest.
  destruct (main_cases dev (prog :: image_path :: rest) log)
    as [[Hlen _]|(prog' & image_path' & rest' & Heq & _ & ->)].
  - cbn [length] in Hlen. lia.
  - by injection Heq as <- <- <-.
Qed.

Lemma main_exit_status_reflects_refresh_witness :
  DisplayEink.main DisplayEink.sample_device
    ["display_eink.py"; "dashboard.png"; "FAST"; "x"] [] = ([], 1%Z).
Proof.
  destruct (main_exit_status_reflects_refresh DisplayEink.sample_device
              ["display_eink.py"; "dashboard.png"; "FAST"; "x"] [])
    as (_ & H & _).
  apply H. right. cbn. lia.
Defined.

(** ** menu_fetcher.py: main from end to end *)

Lemma main_today int world args today :
  match MenuFetcher.date args with
  | Some s =>
      if Str.truthy s then
        MenuFetcher.parse_date_string int (MenuFetcher.now world) s
        = MenuFetcher.Done today
      else today = MenuFetcher.now world
  | None => today = MenuFetcher.now world
  end ->
  exists test_date,
    match MenuFetcher.date args with
    | Some date_str =>
        if Str.truthy date_str then
          match MenuFetcher.parse_date_string int (MenuFetcher.now world)
                  date_str with
          | MenuFetcher.Done d => MenuFetcher.Done (Some d)
          | MenuFetcher.Fail e => MenuFetcher.Fail e
          end
        else MenuFetcher.Done None
    | None => MenuFetcher.Done None
    end = MenuFetcher.Done test_date /\
    default (MenuFetcher.now world) test_date = today /\
    (valid_date (MenuFetcher.now world) -> valid_date today).
Proof.
  intros Hdate.
  destruct (MenuFetcher.date args) as [s|];
    [|exists None; by rewrite Hdate].
  destruct (Str.truthy s); [|exists None; by rewrite Hdate].
  rewrite Hdate. exists (Some today). split; [done|]. split; [done|].
  intros _.
  destruct (parse_date_string_cases int (MenuFetcher.now world) s)
    as (Hd & _).
  by destruct (Hd today Hdate).
Qed.

Lemma get_menu_data_open_ok w env now test_date st tomorrow :
  (forall log, answer_open w log = Ok tt) ->
  valid_date (default now test_date) ->
  MenuFetcher.add_one_day (default now test_date) = MenuFetcher.Done tomorrow ->
  exists st' midi1 soir1 midi2 soir2,
    MenuFetcher.get_menu_data w env now test_date st =
    (st', MenuFetcher.Done
            (MenuFetcher.mkdata
               (MenuFetcher.mkday
                  (MenuFetcher.strftime_A_dmY (default now test_date))
                  midi1 soir1)
               (MenuFetcher.mkday
                  (MenuFetcher.strftime_A_dmY tomorrow) midi2 soir2))).
Proof.
  intros Hopen Hv Hadd. unfold MenuFetcher.get_menu_data.
  assert (match test_date with Some d => d | None => now end
          = default now test_date) as -> by (by destruct test_date).
  set (today := default now test_date) in *.
  rewrite Hadd.
  pose proof (add_one_day_spec today Hv) as Hspec. rewrite Hadd in Hspec.
  destruct Hspec as (Hv' & _ & _).
  assert (Forall valid_date [today; tomorrow]) as Hvs.
  { constructor; [done|]. constructor; [done|]. constructor. }
  destruct (setup_connection env) eqn:Hs.
  - destruct (group_dates_ok w [today; tomorrow] [] (mkstate (calls st) ∅)
                Hvs Hopen) as (cs & groups & Hg).
    rewrite (get_menus_for_dates_unfold w env _ st _ groups Hs Hg).
    unfold MenuFetcher.format_menus. by eexists _, _, _, _, _.
  - unfold get_menus_for_dates. rewrite Hs. cbn [negb].
    unfold MenuFetcher.format_menus. by eexists _, _, _, _, _.
Qed.

(** X21. Worksheet failures never become errors of menu_fetcher.py:
    when the date given (or the clock, without [--date]) is a valid
    date before 9999-12-31, the credentials path is a regular file and
    [open_by_key] succeeds, main prints the two records, dated with
    that day and the next, and ends with exit status 0, whatever the
    lookups of worksheets and the fetches of grids answer, and whether
    or not the connection could be set up. *)
Theorem main_succeeds_whatever_worksheets_answer
    int w world args st today tomorrow :
  MenuFetcher.isfile (MenuFetcher.credentials_path world) = true ->
  (forall log, answer_open w log = Ok tt) ->
  valid_date (MenuFetcher.now world) ->
  match MenuFetcher.date args with
  | Some s =>
      if Str.truthy s then
        MenuFetcher.parse_date_string int (MenuFetcher.now world) s
        = MenuFetcher.Done today
      else today = MenuFetcher.now world
  | None => today = MenuFetcher.now world
  end ->
  MenuFetcher.add_one_day today = MenuFetcher.Done tomorrow ->
  exists st' midi1 soir1 midi2 soir2,
    MenuFetcher.main int w world args st =
    (st', MenuFetcher.Printed
            (MenuFetcher.mkdata
               (MenuFetcher.mkday (MenuFetcher.strftime_A_dmY today)
                  midi1 soir1)
               (MenuFetcher.mkday (MenuFetcher.strftime_A_dmY tomorrow)
                  midi2 soir2))) /\
    MenuFetcher.exit_status (MenuFetcher.main int w world args st).2 = 0%Z.
Proof.
  intros Hfile Hopen Hnow Hdate Hadd.
  destruct (main_today int world args today Hdate)
    as (test_date & Hp & Htoday & Hv).
  specialize (Hv Hnow). subst today.
  destruct (get_menu_data_open_ok w (MenuFetcher.env_of world)
              (MenuFetcher.now world) test_date st tomorrow Hopen Hv Hadd)
    as (st' & m1 & s1 & m2 & s2 & Hdata).
  exists st', m1, s1, m2, s2.
  assert (MenuFetcher.main int w world args st =
    (st', MenuFetcher.Printed
            (MenuFetcher.mkdata
               (MenuFetcher.mkday
                  (MenuFetcher.strftime_A_dmY
                     (default (MenuFetcher.now world) test_date)) m1 s1)
               (MenuFetcher.mkday (MenuFetcher.strftime_A_dmY tomorrow)
                  m2 s2)))) as Hmain.
  { unfold MenuFetcher.main. rewrite Hp, Hfile. cbn [negb].
    by rewrite Hdata. }
  split; [exact Hmain|]. by rewrite Hmain.
Qed.

Lemma main_succeeds_whatever_worksheets_answer_witness :
  exists st' midi1 soir1 midi2 soir2,
    MenuFetcher.main MenuFetcher.py_int (fixed_sheets []) 
      (MenuFetcher.mkworld (mkdate 2025 6 30) true MenuFetcher.RegularFile
         true)
      (MenuFetcher.mkargs "id" "credentials.json" (Some "31/12/2024")) state0
    = (st', MenuFetcher.Printed
              (MenuFetcher.mkdata
                 (MenuFetcher.mkday "Tuesday 31/12/2024" midi1 soir1)
                 (MenuFetcher.mkday "Wednesday 01/01/2025" midi2 soir2))) /\
    MenuFetcher.exit_status
      (MenuFetcher.main MenuFetcher.py_int (fixed_sheets [])
         (MenuFetcher.mkworld (mkdate 2025 6 30) true MenuFetcher.RegularFile
            true)
         (MenuFetcher.mkargs "id" "credentials.json" (Some "31/12/2024"))
         state0).2 = 0%Z.
Proof.
  apply (main_succeeds_whatever_worksheets_answer MenuFetcher.py_int
           (fixed_sheets [])
           (MenuFetcher.mkworld (mkdate 2025 6 30) true
              MenuFetcher.RegularFile true)
           (MenuFetcher.mkargs "id" "credentials.json" (Some "31/12/2024"))
           state0 (mkdate 2024 12 31) (mkdate 2025 1 1)).
  - reflexivity.
  - intros log. reflexivity.
  - by apply date_fields_ok_valid.
  - reflexivity.
  - reflexivity.
Defined.

(** X22. When the connection is set up but the first [open_by_key]
    raises, whatever the exception, main reports a [RuntimeError] and
    ends with exit status 1 after that single call: the resolution of
    the first date is not protected, and [get_menu_data] turns every
    exception into [RuntimeError]. *)
Theorem main_reports_unopened_spreadsheet
    int w world args st today tomorrow e :
  MenuFetcher.isfile (MenuFetcher.credentials_path world) = true ->
  MenuFetcher.gspread_imported world = true ->
  MenuFetcher.authorize_ok world = true ->
  answer_open w (calls st) = Raise e ->
  match MenuFetcher.date args with
  | Some s =>
      if Str.truthy s then
        MenuFetcher.parse_date_string int (MenuFetcher.now world) s
        = MenuFetcher.Done today
      else today = MenuFetcher.now world
  | None => today = MenuFetcher.now world
  end ->
  MenuFetcher.add_one_day today = MenuFetcher.Done tomorrow ->
  MenuFetcher.main int w world args st =
    (mkstate (calls st ++ [OpenByKey]) ∅,
     MenuFetcher.Failed MenuFetcher.RuntimeError) /\
  MenuFetcher.exit_status (MenuFetcher.main int w world args st).2 = 1%Z.
Proof.
  intros Hfile Hg Ha He Hdate Hadd.
  destruct (main_today int world args today Hdate)
    as (test_date & Hp & Htoday & _).
  assert (setup_connection (MenuFetcher.env_of world) = true) as Hs.
  { unfold setup_connection, MenuFetcher.env_of.
    cbn [GSPREAD_AVAILABLE credentials_file_exists authorize_succeeds].
    rewrite Hg, Ha. cbn [negb].
    by destruct (MenuFetcher.credentials_path world). }
  assert (MenuFetcher.main int w world args st =
    (mkstate (calls st ++ [OpenByKey]) ∅,
     MenuFetcher.Failed MenuFetcher.RuntimeError)) as Hmain.
  { unfold MenuFetcher.main. rewrite Hp, Hfile. cbn [negb].
    unfold MenuFetcher.get_menu_data.
    assert (match test_date with
            | Some d => d
            | None => MenuFetcher.now world
            end = today) as -> by (by destruct test_date).
    rewrite Hadd. unfold get_menus_for_dates. rewrite Hs. cbn [negb].
    erewrite bind_ok by reflexivity.
    cbn [group_dates].
    erewrite bind_raise; [done|]. apply bind_raise.
    by apply determine_sheet_for_date_open_fails. }
  split; [exact Hmain|]. by rewrite Hmain.
Qed.

Lemma main_reports_unopened_spreadsheet_witness :
  MenuFetcher.exit_status
    (MenuFetcher.main MenuFetcher.py_int
       (mksheets (fun _ => Raise KeyError) (fun _ _ => Ok tt)
          (fun _ => Ok tt) (fun _ _ => Ok []))
       (MenuFetcher.mkworld (mkdate 2025 6 30) true MenuFetcher.RegularFile
          true)
       (MenuFetcher.mkargs "id" "credentials.json" None) state0).2 = 1%Z.
Proof.
  apply (main_reports_unopened_spreadsheet MenuFetcher.py_int
           (mksheets (fun _ => Raise KeyError) (fun _ _ => Ok tt)
              (fun _ => Ok tt) (fun _ _ => Ok []))
           (MenuFetcher.mkworld (mkdate 2025 6 30) true
              MenuFetcher.RegularFile true)
           (MenuFetcher.mkargs "id" "credentials.json" None) state0
           (mkdate 2025 6 30) (mkdate 2025 7 1) KeyError); reflexivity.
Defined.

Lemma truthy_strftime_dmY d : Str.truthy (MenuFetcher.strftime_dmY d) = true.
Proof.
  unfold MenuFetcher.strftime_dmY, Str.zfill2. by rewrite !append_String.
Qed.

(** X23. From the command line to the printed record: with a [--date]
    written as DD/MM/YYYY (zero-padded) for a valid date before
    9999-12-31, a regular credentials file, a connection that is set
    up, a spreadsheet that opens and a client whose content does not
    change, main prints the record of that date and of the next day,
    each with the two texts read under the first match in the first
    candidate tab that holds the date (empty when there is none), and
    ends with exit status 0. *)
Theorem main_prints_menus_of_given_date int w world args st d tomorrow :
  (forall n, (0 <= n <= 99)%Z -> int (Str.zfill2 n) = Some n) ->
  (forall n, (0 <= n <= 9999)%Z -> int (Str.zfill4 n) = Some n) ->
  MenuFetcher.date args = Some (MenuFetcher.strftime_dmY d) ->
  valid_date d ->
  MenuFetcher.add_one_day d = MenuFetcher.Done tomorrow ->
  MenuFetcher.isfile (MenuFetcher.credentials_path world) = true ->
  MenuFetcher.gspread_imported world = true ->
  MenuFetcher.authorize_ok world = true ->
  history_free w -> (forall log, answer_open w log = Ok tt) ->
  exists st',
    MenuFetcher.main int w world args st =
    (st', MenuFetcher.Printed
            (MenuFetcher.mkdata
               (MenuFetcher.mkday (MenuFetcher.strftime_A_dmY d)
                  (from_option midi "" (expected_entry w d))
                  (from_option soir "" (expected_entry w d)))
               (MenuFetcher.mkday (MenuFetcher.strftime_A_dmY tomorrow)
                  (from_option midi "" (expected_entry w tomorrow))
                  (from_option soir "" (expected_entry w tomorrow))))) /\
    MenuFetcher.exit_status (MenuFetcher.main int w world args st).2 = 0%Z.
Proof.
  intros H2 H4 Hdate Hv Hadd Hfile Hg Ha Hw Hopen.
  assert (setup_connection (MenuFetcher.env_of world) = true) as Hs.
  { unfold setup_connection, MenuFetcher.env_of.
    cbn [GSPREAD_AVAILABLE credentials_file_exists authorize_succeeds].
    rewrite Hg, Ha. cbn [negb].
    by destruct (MenuFetcher.credentials_path world). }
  destruct (parse_date_string_zfill int (MenuFetcher.now world) d H2 H4 Hv)
    as [Hparse _].
  destruct (get_menu_data_stable w (MenuFetcher.env_of world)
              (MenuFetcher.now world) (Some d) st tomorrow Hs Hw Hopen Hv Hadd)
    as (st' & Hdata).
  exists st'. cbn [default] in Hdata.
  assert (MenuFetcher.main int w world args st =
    (st', MenuFetcher.Printed
            (MenuFetcher.mkdata
               (MenuFetcher.mkday (MenuFetcher.strftime_A_dmY d)
                  (from_option midi "" (expected_entry w d))
                  (from_option soir "" (expected_entry w d)))
               (MenuFetcher.mkday (MenuFetcher.strftime_A_dmY tomorrow)
                  (from_option midi "" (expected_entry w tomorrow))
                  (from_option soir "" (expected_entry w tomorrow))))))
    as Hmain.
  { unfold MenuFetcher.main.
    rewrite Hdate, truthy_strftime_dmY, Hparse, Hfile. cbn [negb].
    by rewrite Hdata. }
  split; [exact Hmain|]. by rewrite Hmain.
Qed.

Lemma main_prints_menus_of_given_date_witness :
  exists st',
    MenuFetcher.main MenuFetcher.py_int (fixed_sheets [("Juin", grid_june)])
      (MenuFetcher.mkworld (mkdate 2020 1 1) true MenuFetcher.RegularFile
         true)
      (MenuFetcher.mkargs "id" "credentials.json" (Some "30/06/2025")) state0
    = (st', MenuFetcher.Printed
              (MenuFetcher.mkdata
                 (MenuFetcher.mkday "Monday 30/06/2025" "Pates" "Soupe")
                 (MenuFetcher.mkday "Tuesday 01/07/2025" "Riz" "Salade"))) /\
    MenuFetcher.exit_status
      (MenuFetcher.main MenuFetcher.py_int
         (fixed_sheets [("Juin", grid_june)])
         (MenuFetcher.mkworld (mkdate 2020 1 1) true MenuFetcher.RegularFile
            true)
         (MenuFetcher.mkargs "id" "credentials.json" (Some "30/06/2025"))
         state0).2 = 0%Z.
Proof.
  apply (main_prints_menus_of_given_date MenuFetcher.py_int
           (fixed_sheets [("Juin", grid_june)])
           (MenuFetcher.mkworld (mkdate 2020 1 1) true
              MenuFetcher.RegularFile true)
           (MenuFetcher.mkargs "id" "credentials.json" (Some "30/06/2025"))
           state0 (mkdate 2025 6 30) (mkdate 2025 7 1)).
  - apply py_int_zfill2.
  - apply py_int_zfill4.
  - reflexivity.
  - by apply date_fields_ok_valid.
  - reflexivity.
  - reflexivity.
  - reflexivity.
  - reflexivity.
  - intros log log' name. split; reflexivity.
  - intros log. reflexivity.
Defined.
